(** * tigera/operator: log storage and log collector rendering, reconciliation
      and provider discovery

    A shallow embedding of
      - pkg/render/logstorage.go   (JVM heap sizing, NodeSet distribution,
        NodeSet naming, resource overrides, [Objects]),
      - pkg/render/fluentd.go      ([Objects]),
      - pkg/controller/logcollector/logcollector_controller.go ([Reconcile]),
      - package utils, provider discovery ([AutoDiscoverProvider]),
    followed by the properties established about them.

    Go integers are [Z] with the wrap-around written out where the source
    converts between widths; Go maps are [gmap]; a nil-able pointer is an
    [option]; calls that leave the process (API server queries) read their
    outcome from an explicit record. *)

From Stdlib Require Import ZArith QArith Qround Lia.
From Stdlib Require Import Strings.String Strings.Ascii.
From stdpp Require Import gmap strings list fin_maps pretty.

Open Scope Z_scope.

(* ===================================================================== *)
(** * Part I: the program                                                  *)
(* ===================================================================== *)

(** ** Go primitives *)

Module golang.

Definition int64_min : Z := - 2 ^ 63.
Definition int64_max : Z := 2 ^ 63 - 1.

Definition fits_int64 (z : Z) : bool := (int64_min <=? z) && (z <=? int64_max).

(** Two's complement reinterpretation of an integer at width [w]. *)
Definition wrap (w : Z) (z : Z) : Z :=
  (z + 2 ^ (w - 1)) mod 2 ^ w - 2 ^ (w - 1).

(** The conversions [int32(x)] and [int64(x)] between integer types. *)
Definition int32 (z : Z) : Z := wrap 32 z.
Definition int64 (z : Z) : Z := wrap 64 z.

(** [strconv.AppendInt(_, n, 10)] / the verb [%d]. *)
Definition itoa (n : Z) : string := pretty n.

(** [strings.HasSuffix]. *)
Definition HasSuffix (s suffix : string) : bool :=
  let ls := String.length s in
  let lx := String.length suffix in
  if (lx <=? ls)%nat
  then if string_dec (substring (ls - lx) lx s) suffix then true else false
  else false.

(** [strings.TrimSuffix]. *)
Definition TrimSuffix (s suffix : string) : string :=
  if HasSuffix s suffix
  then substring 0 (String.length s - String.length suffix) s
  else s.

(** [strings.HasPrefix]. *)
Definition HasPrefix (s pre : string) : bool :=
  if string_dec (substring 0 (String.length pre) s) pre then true else false.

(** [strings.Join]. *)
Definition Join (elems : list string) (sep : string) : string :=
  String.concat sep elems.

End golang.

(** ** gopkg.in/inf.v0: arbitrary-precision decimals

    A [Dec] stands for [unscaled * 10^(-scale)]. Only the operations that
    logstorage.go calls are given. *)

Module inf.

Record Dec : Type := NewDec { UnscaledBig : Z; Scale : Z }.

(** [x.Cmp(y)]: -1, 0 or 1. Both mantissas are brought to the larger scale. *)
Definition Cmp (x y : Dec) : Z :=
  let s := Z.max (Scale x) (Scale y) in
  let ux := UnscaledBig x * 10 ^ (s - Scale x) in
  let uy := UnscaledBig y * 10 ^ (s - Scale y) in
  match ux ?= uy with
  | Lt => -1
  | Eq => 0
  | Gt => 1
  end.

(** [new(inf.Dec).QuoRound(x, y, s, inf.RoundFloor)]: the quotient [x / y]
    at scale [s], rounded towards minus infinity. The divisor is a non-zero
    constant at both call sites. *)
Definition QuoRound_RoundFloor (x y : Dec) (s : Z) : Dec :=
  let e := s + Scale y - Scale x in
  let q := if 0 <=? e
           then (UnscaledBig x * 10 ^ e) / UnscaledBig y
           else UnscaledBig x / (UnscaledBig y * 10 ^ (- e)) in
  NewDec q s.

(** [new(inf.Dec).Mul(x, y)]. *)
Definition Mul (x y : Dec) : Dec :=
  NewDec (UnscaledBig x * UnscaledBig y) (Scale x + Scale y).

(** [big.Int.Int64]: the low 64 bits of the magnitude, then the sign,
    read as an int64. Exact whenever the number fits. *)
Definition Int64 (z : Z) : Z :=
  golang.int64 (Z.sgn z * (Z.abs z mod 2 ^ 64)).

(** The rational number a [Dec] denotes. *)
Definition value (d : Dec) : Q :=
  if 0 <=? Scale d
  then Qmake (UnscaledBig d) (Z.to_pos (10 ^ Scale d))
  else inject_Z (UnscaledBig d * 10 ^ (- Scale d)).

End inf.

(** ** k8s.io/apimachinery/pkg/api/resource: quantities

    A [Quantity] is kept in its int64Amount form, [value * 10^scale]; with
    unbounded fields every decimal number has such a form. *)

Module resource.

Inductive Format : Type := DecimalExponent | BinarySI | DecimalSI.

Record int64Amount : Type := { value : Z; scale : Z }.

Record Quantity : Type := { i : int64Amount; format : Format }.

(** [resource.NewQuantity]. *)
Definition NewQuantity (v : Z) (f : Format) : Quantity :=
  {| i := {| value := v; scale := 0 |}; format := f |}.

(** [q.AsDec()]. *)
Definition AsDec (q : Quantity) : inf.Dec :=
  inf.NewDec (value (i q)) (- scale (i q)).

(** [q.Cmp(y)]. *)
Definition Cmp (q y : Quantity) : Z := inf.Cmp (AsDec q) (AsDec y).

(** [negativeScaleInt64]: divide [base] by ten [n] times; an inexact result
    is rounded away from zero. *)
Fixpoint negativeScaleInt64_loop (n : nat) (base v : Z) (fraction : bool) : Z :=
  match n with
  | O => if fraction then (if 0 <? base then v + 1 else v - 1) else v
  | S n' =>
      let fraction' := fraction || negb (Z.rem v 10 =? 0) in
      let v' := Z.quot v 10 in
      if v' =? 0
      then (if fraction' then (if 0 <? base then 1 else -1) else 0)
      else negativeScaleInt64_loop n' base v' fraction'
  end.

Definition negativeScaleInt64 (base sc : Z) : Z :=
  if sc =? 0 then base else negativeScaleInt64_loop (Z.to_nat sc) base base false.

(** [positiveScaleInt64]: multiply by [10^sc]; 0 when the product leaves
    int64. *)
Definition positiveScaleInt64 (base sc : Z) : Z :=
  let v := base * 10 ^ sc in
  if golang.fits_int64 v then v else 0.

(** [q.Value()], that is [q.ScaledValue(0)]: the quantity as an int64,
    rounded up (away from zero). *)
Definition Value (q : Quantity) : Z :=
  if scale (i q) <? 0
  then negativeScaleInt64 (value (i q)) (- scale (i q))
  else positiveScaleInt64 (value (i q)) (scale (i q)).

(** [removeInt64Factors(v, base)]: strip factors of [base] from the
    magnitude and count them. Each round shrinks the magnitude by a factor
    of at least two, so [Z.log2] rounds are enough. *)
Fixpoint removeFactors_loop (fuel : nat) (base result times : Z) : Z * Z :=
  match fuel with
  | O => (result, times)
  | S fuel' =>
      if (base <=? result) && (Z.rem result base =? 0)
      then removeFactors_loop fuel' base (Z.quot result base) (times + 1)
      else (result, times)
  end.

Definition removeInt64Factors (v base : Z) : Z * Z :=
  let negative := v <? 0 in
  let result := if negative then - v else v in
  let '(result, times) :=
    removeFactors_loop (Z.to_nat (Z.log2 result)) base result 0 in
  (if negative then - result else result, times).

(** The binary suffix for [2^(10*exponent)]. *)
Definition binSuffix (exponent : Z) : string :=
  match exponent with
  | 0 => EmptyString
  | 1 => "Ki"
  | 2 => "Mi"
  | 3 => "Gi"
  | 4 => "Ti"
  | 5 => "Pi"
  | 6 => "Ei"
  | _ => EmptyString
  end.

(** The decimal SI suffix for [10^exponent], for the exponents an integer
    below 1024 can reach. *)
Definition decSuffix (exponent : Z) : string :=
  match exponent with
  | 3 => "k"
  | _ => EmptyString
  end.

(** [resource.NewQuantity(v, resource.BinarySI).String()], the one rendering
    this program asks for (CanonicalizeBytes at scale 0): zero is "0"; a
    magnitude below 1024 is shown in decimal SI, with the exponent brought
    to a multiple of three; anything else is shown as a multiple of the
    largest power of 1024 that divides it. *)
Definition NewQuantity_BinarySI_String (v : Z) : string :=
  if v =? 0 then "0"
  else if (-1024 <? v) && (v <? 1024) then
    let '(amount, times) := removeInt64Factors v 10 in
    let '(amount, exponent) :=
      match Z.rem times 3 with
      | 1 => (amount * 10, times - 1)
      | 2 => (amount * 100, times - 2)
      | _ => (amount, times)
      end in
    golang.itoa amount +:+ decSuffix exponent
  else
    let '(amount, exponent) := removeInt64Factors v 1024 in
    golang.itoa amount +:+ binSuffix exponent.

End resource.

(** ** Errors and the API server *)

Module api.

(** A Go [error]: one returned by the API server, which may be a NotFound
    status, or one built by [fmt.Errorf] around a cause it prints with %s or
    %v (and so does not wrap). *)
Inductive error : Type :=
  | StatusError (notFound : bool) (msg : string)
  | Errorf (format : string) (args : list string).

(** [errors.IsNotFound]. *)
Definition IsNotFound (e : error) : bool :=
  match e with
  | StatusError nf _ => nf
  | Errorf _ _ => false
  end.

(** [err.Error()]. A formatted message is kept as its format and
    arguments. *)
Definition Error (e : error) : string :=
  match e with
  | StatusError _ msg => msg
  | Errorf format args => String.concat "|" (format :: args)
  end.

Definition result (A : Type) : Type := A + error.

End api.

(** ** k8s.io/api/core/v1 and the operator's API types, as far as the
       renderers read them *)

Module corev1.

Abbreviation ResourceList := (gmap string resource.Quantity).

(** A nil map reads like an empty one; the maps written below are never nil
    at their call sites. *)
Record ResourceRequirements : Type :=
  { Limits : ResourceList; Requests : ResourceList }.

(** [rl.Name(name, defaultFormat)]: a copy of the entry, or the zero
    quantity. *)
Definition Name (rl : ResourceList) (name : string) (defaultFormat : resource.Format)
  : resource.Quantity :=
  match rl !! name with
  | Some val => val
  | None => resource.NewQuantity 0 defaultFormat
  end.

Definition Cpu (rl : ResourceList) : resource.Quantity := Name rl "cpu" resource.DecimalSI.
Definition Memory (rl : ResourceList) : resource.Quantity := Name rl "memory" resource.BinarySI.

Record Secret : Type :=
  { SecretName : string; SecretNamespace : string; Data : gmap string string }.

Inductive ServiceType : Type :=
  | ServiceTypeClusterIP | ServiceTypeNodePort | ServiceTypeLoadBalancer
  | ServiceTypeExternalName.

Record Service : Type :=
  { ServiceName : string; ServiceNamespace : string; Type_ : ServiceType }.

Inductive PersistentVolumeAccessMode : Type := ReadWriteOnce.

Record PersistentVolumeClaim : Type :=
  { PVCName : string;
    AccessModes : list PersistentVolumeAccessMode;
    Resources : ResourceRequirements;
    StorageClassName : string }.

Record NodeSelectorRequirement : Type :=
  { Key : string; Values : list string }.   (* Operator is always In *)

Record EnvVar : Type :=
  { EnvName : string;
    EnvValue : string;
    SecretKeyRef : option (string * string) }.   (* secret name, key *)

(** The parts of the Elasticsearch pod template that depend on the
    configuration in a way followed here: the environment and resources of
    the elasticsearch container, the init containers by name, the service
    account token switch and the node affinity. Annotations, volumes, node
    selector and tolerations are copied from the configuration and left
    out. *)
Record PodTemplateSpec : Type :=
  { Env : list EnvVar;
    ContainerResources : ResourceRequirements;
    InitContainers : list string;
    AutomountServiceAccountToken : bool;
    Affinity : option (list NodeSelectorRequirement) }.

End corev1.

Module operatorv1.

Inductive Provider : Type :=
  | ProviderNone | ProviderEKS | ProviderGKE | ProviderAKS
  | ProviderOpenShift | ProviderDockerEE | ProviderRKE2.

Inductive FIPSMode : Type := FIPSModeEnabled | FIPSModeDisabled.

Definition IsFIPSModeEnabled (mode : option FIPSMode) : bool :=
  match mode with
  | Some FIPSModeEnabled => true
  | _ => false
  end.

Record NodeSetSelectionAttribute : Type :=
  { Name : string; NodeLabel : string; Value : string }.

(** [SelectionAttributes] is compared with nil, so nil and the empty slice
    are kept apart. *)
Record NodeSet : Type :=
  { SelectionAttributes : option (list NodeSetSelectionAttribute) }.

Record Nodes : Type :=
  { Count : Z;                                        (* int64 *)
    NodeSets : list NodeSet;
    ResourceRequirements : option corev1.ResourceRequirements }.

Record LogStorageSpec : Type :=
  { Nodes_ : option Nodes;
    StorageClassName : string;
    Rest : string }.       (* retention, selectors, component resources *)

Record LogStorage : Type :=
  { DeletionTimestamp : option Z; Spec : LogStorageSpec }.

Inductive SyslogLogType : Type :=
  | SyslogLogAudit | SyslogLogDNS | SyslogLogFlows | SyslogLogIDSEvents
  | SyslogLogOther (s : string).

(** [LogTypes] is compared with nil, so nil and the empty slice are kept
    apart. *)
Record SyslogStoreSpec : Type :=
  { Endpoint : string; LogTypes : option (list SyslogLogType) }.

Record AdditionalLogStoreSpec : Type :=
  { S3 : option string; Syslog : option SyslogStoreSpec; Splunk : option string }.

Record EksCloudwatchLogsSpec : Type :=
  { Region : string; GroupName : string; StreamPrefix : string; FetchInterval : Z }.

Record AdditionalLogSourceSpec : Type :=
  { EksCloudwatchLog : option EksCloudwatchLogsSpec }.

Inductive CollectProcessPathOption : Type :=
  | CollectProcessPathEnable | CollectProcessPathDisable.

Record LogCollectorSpec : Type :=
  { AdditionalStores : option AdditionalLogStoreSpec;
    AdditionalSources : option AdditionalLogSourceSpec;
    CollectProcessPath : option CollectProcessPathOption }.

Record LogCollector : Type :=
  { LogCollectorSpec_ : LogCollectorSpec; State : string }.

Record InstallationSpec : Type :=
  { KubernetesProvider : Provider;
    FIPSMode_ : option FIPSMode;
    CertificateManagement : option string;
    Registry : string;
    ImagePath : string;
    ImagePrefix : string }.

End operatorv1.

(** The custom resources of the ECK operator that already exist in the
    cluster and are handed to the renderer. *)
Module eck.

Record Elasticsearch : Type :=
  { EsDeletionTimestamp : option Z; EsGeneration : Z }.

Record Kibana : Type :=
  { KbDeletionTimestamp : option Z; KbGeneration : Z }.

End eck.

(** github.com/elastic/cloud-on-k8s: the NodeSet of an Elasticsearch spec. *)
Module esv1.

(** The values stored in a NodeSet configuration (map[string]interface{}). *)
Inductive ConfigValue : Type :=
  | CfgString (s : string)
  | CfgInt (n : Z)
  | CfgStrings (l : list string).

Record NodeSet : Type :=
  { Name : string;
    Config : gmap string ConfigValue;
    Count : Z;                                        (* int32 *)
    PodTemplate : corev1.PodTemplateSpec;
    VolumeClaimTemplates : list corev1.PersistentVolumeClaim }.

End esv1.

(** ** hash/fnv and encoding/hex *)

Module fnv.

Definition offset64 : Z := 14695981039346656037.
Definition prime64 : Z := 1099511628211.

(** [fnv.New64a()]: the hash state, a uint64. *)
Definition New64a : Z := offset64.

(** [(s *sum64a).Write]: xor each byte in, multiply by the prime in uint64
    arithmetic. The error it returns is always nil. *)
Fixpoint Write (hash : Z) (data : list Byte.byte) : Z * option string :=
  match data with
  | [] => (hash, None)
  | c :: data' =>
      let hash := Z.lxor hash (Z.of_N (Byte.to_N c)) in
      let hash := (hash * prime64) mod 2 ^ 64 in
      Write hash data'
  end.

(** [(s *sum64a).Sum(nil)]: the eight bytes of the state, most significant
    first; each is [byte(v >> k)]. *)
Definition Sum (v : Z) : list Z :=
  map (fun k => Z.land (Z.shiftr v k) 255) [56; 48; 40; 32; 24; 16; 8; 0].

End fnv.

Module hex.

(** The table "0123456789abcdef". *)
Definition hextable (n : Z) : ascii :=
  match n with
  | 0 => "0" | 1 => "1" | 2 => "2" | 3 => "3" | 4 => "4" | 5 => "5"
  | 6 => "6" | 7 => "7" | 8 => "8" | 9 => "9" | 10 => "a" | 11 => "b"
  | 12 => "c" | 13 => "d" | 14 => "e" | _ => "f"
  end%char.

(** [hex.EncodeToString]: two digits per byte. *)
Fixpoint EncodeToString (src : list Z) : string :=
  match src with
  | [] => EmptyString
  | v :: src' =>
      String (hextable (Z.shiftr v 4))
        (String (hextable (Z.land v 15)) (EncodeToString src'))
  end.

End hex.

(** ** pkg/render/logstorage.go *)

Module render.

Definition ECKOperatorNamespace : string := "tigera-eck-operator".
Definition ElasticsearchNamespace : string := "tigera-elasticsearch".
Definition KibanaNamespace : string := "tigera-kibana".
Definition DefaultElasticStorageGi : Z := 10.
Definition ElasticsearchKeystoreSecret : string := "tigera-secure-elasticsearch-keystore".
Definition ElasticsearchKeystoreEnvName : string := "KEYSTORE_PASSWORD".
Definition keystoreInitContainerName : string := "elastic-internal-init-keystore".

(** certificatemanagement.KeyPairInterface, by what its methods answer. *)
Record KeyPair : Type :=
  { KeyPairName : string; UseCertificateManagement : bool }.

(** [ElasticsearchConfiguration]. Pointers that the renderer compares with
    nil are options; [Installation], [ClusterConfig], [ElasticsearchKeyPair]
    and [TrustedBundle] are used without a check and are always present. *)
Record ElasticsearchConfiguration : Type :=
  { LogStorage_ : option operatorv1.LogStorage;
    Installation : operatorv1.InstallationSpec;
    ManagementCluster : option string;
    ManagementClusterConnection : option string;
    Elasticsearch : option eck.Elasticsearch;
    Kibana : option eck.Kibana;
    ClusterConfig : string;
    ElasticsearchUserSecret : option corev1.Secret;
    ElasticsearchKeyPair : KeyPair;
    KibanaKeyPair : option KeyPair;
    PullSecrets : list corev1.Secret;
    Provider : operatorv1.Provider;
    CuratorSecrets : list corev1.Secret;
    ESService : option corev1.Service;
    KbService : option corev1.Service;
    ClusterDomain : string;
    BaseURL : string;
    ElasticLicenseType : string;
    TrustedBundle : string;
    UnusedTLSSecret : option corev1.Secret;
    ApplyTrial : bool;
    KeyStoreSecret : option corev1.Secret;
    UsePSP : bool }.

(** [elasticsearchComponent]. The Go struct holds a pointer to the
    configuration; the component is threaded through [Objects] as the
    state, so that a write through that pointer is visible afterwards. *)
Record elasticsearchComponent : Type :=
  { cfg : ElasticsearchConfiguration;
    kibanaSecrets : list corev1.Secret;
    esImage : string;
    esOperatorImage : string;
    kibanaImage : string;
    curatorImage : string;
    csrImage : string }.

(** [LogStorage(cfg)]: the constructor. *)
Definition LogStorage (c : ElasticsearchConfiguration) : elasticsearchComponent :=
  {| cfg := c; kibanaSecrets := []; esImage := EmptyString;
     esOperatorImage := EmptyString; kibanaImage := EmptyString;
     curatorImage := EmptyString; csrImage := EmptyString |}.

(** *** Images *)

(** The entries of the components package that the two renderers resolve. *)
Inductive component : Type :=
  | ComponentElasticsearch | ComponentElasticsearchFIPS
  | ComponentElasticsearchOperator | ComponentKibana | ComponentEsCurator
  | ComponentFluentd | ComponentFluentdWindows.

Section Images.

Variable ImageSet : Type.

(** [components.GetReference(c, registry, imagePath, imagePrefix, imageSet)] and
    [certificatemanagement.ResolveCSRInitImage(installation, imageSet)]: the
    image and the error, both returned. *)
Variable GetReference :
  component -> string -> string -> string -> ImageSet -> string * option api.error.
Variable ResolveCSRInitImage :
  operatorv1.InstallationSpec -> ImageSet -> string * option api.error.

Definition errMsg (err : option api.error) : list string :=
  match err with
  | Some e => [api.Error e]
  | None => []
  end.

(** [(es *elasticsearchComponent).ResolveImages(imageSet)]: the component with
    its images set, and the error. *)
Definition ResolveImages (es : elasticsearchComponent) (imageSet : ImageSet)
  : elasticsearchComponent * option api.error :=
  let reg := operatorv1.Registry (Installation (cfg es)) in
  let path := operatorv1.ImagePath (Installation (cfg es)) in
  let pre := operatorv1.ImagePrefix (Installation (cfg es)) in
  let '(esImage', err) :=
    if operatorv1.IsFIPSModeEnabled (operatorv1.FIPSMode_ (Installation (cfg es)))
    then GetReference ComponentElasticsearchFIPS reg path pre imageSet
    else GetReference ComponentElasticsearch reg path pre imageSet in
  let errMsgs := errMsg err in
  let '(esOperatorImage', err) := GetReference ComponentElasticsearchOperator reg path pre imageSet in
  let errMsgs := errMsgs ++ errMsg err in
  let '(kibanaImage', err) := GetReference ComponentKibana reg path pre imageSet in
  let errMsgs := errMsgs ++ errMsg err in
  let '(curatorImage', err) := GetReference ComponentEsCurator reg path pre imageSet in
  let errMsgs := errMsgs ++ errMsg err in
  let '(csrImage', errMsgs) :=
    match operatorv1.CertificateManagement (Installation (cfg es)) with
    | Some _ =>
        let '(img, err) := ResolveCSRInitImage (Installation (cfg es)) imageSet in
        (img, errMsgs ++ errMsg err)
    | None => (csrImage es, errMsgs)
    end in
  ({| cfg := cfg es; kibanaSecrets := kibanaSecrets es; esImage := esImage';
      esOperatorImage := esOperatorImage'; kibanaImage := kibanaImage';
      curatorImage := curatorImage'; csrImage := csrImage' |},
   if (length errMsgs =? 0)%nat then None
   else Some (api.Errorf (golang.Join errMsgs ",") [])).

End Images.

(** *** JVM heap size *)

(** [memoryQuantityToJVMHeapSize]: the recommended JVM heap size for a
    memory quantity, as the argument of -Xms / -Xmx. *)
Definition memoryQuantityToJVMHeapSize (q : resource.Quantity) : string :=
  let rawMemQuantity := resource.AsDec q in
  (* Use half of that for the JVM heap. *)
  let divisor := inf.NewDec 2 0 in
  let halvedQuantity := inf.QuoRound_RoundFloor rawMemQuantity divisor 0 in
  (* Round down to the nearest multiple of 1024. *)
  let divisor := inf.NewDec 1024 0 in
  let factor := inf.QuoRound_RoundFloor halvedQuantity divisor 0 in
  let roundedToNearest := inf.Mul factor divisor in
  let newRawMemQuantity := inf.Int64 (inf.UnscaledBig roundedToNearest) in
  (* Ensure a minimum value of at least 2 Mi. *)
  let minLimit := inf.NewDec 2097152 0 in
  let newRawMemQuantity :=
    if inf.Cmp roundedToNearest minLimit <? 0
    then inf.Int64 (inf.UnscaledBig minLimit)
    else newRawMemQuantity in
  (* Limit the JVM heap to 26GiB. *)
  let maxLimit := inf.NewDec 27917287424 0 in
  let newRawMemQuantity :=
    if 0 <? inf.Cmp roundedToNearest maxLimit
    then inf.Int64 (inf.UnscaledBig maxLimit)
    else newRawMemQuantity in
  let recommendedQuantity := resource.NewQuantity_BinarySI_String newRawMemQuantity in
  golang.TrimSuffix recommendedQuantity "i".

(** *** Resource overrides *)

Definition setLimit (r : corev1.ResourceRequirements) (k : string) (q : resource.Quantity)
  : corev1.ResourceRequirements :=
  {| corev1.Limits := <[k := q]> (corev1.Limits r); corev1.Requests := corev1.Requests r |}.

Definition setRequest (r : corev1.ResourceRequirements) (k : string) (q : resource.Quantity)
  : corev1.ResourceRequirements :=
  {| corev1.Limits := corev1.Limits r; corev1.Requests := <[k := q]> (corev1.Requests r) |}.

Definition has (rl : corev1.ResourceList) (k : string) : bool :=
  bool_decide (is_Some (rl !! k)).

(** [overrideResourceRequirements]. The statement [updatedReq := defaultReq]
    copies a struct of two map references, so [updatedReq] and [defaultReq]
    share their maps: each write below is seen by the later reads of
    [defaultReq]. [req] is that shared pair; it is both what is returned and
    what the caller's [defaultReq] holds afterwards. *)
Definition overrideResourceRequirements
  (defaultReq userOverrides : corev1.ResourceRequirements) : corev1.ResourceRequirements :=
  let uL := corev1.Limits userOverrides in
  let uR := corev1.Requests userOverrides in
  let req := defaultReq in
  let req :=
    if has uL "cpu" then
      let req := setLimit req "cpu" (corev1.Cpu uL) in
      if negb (has uR "cpu")
         && (resource.Value (corev1.Cpu uL) <? resource.Value (corev1.Cpu (corev1.Requests req)))
      then setRequest req "cpu" (corev1.Cpu uL) else req
    else req in
  let req :=
    if has uL "memory" then
      let req := setLimit req "memory" (corev1.Memory uL) in
      if negb (has uR "memory")
         && (resource.Value (corev1.Memory uL) <? resource.Value (corev1.Memory (corev1.Requests req)))
      then setRequest req "memory" (corev1.Memory uL) else req
    else req in
  let req :=
    if has uR "cpu" then
      let req := setRequest req "cpu" (corev1.Cpu uR) in
      if negb (has uL "cpu")
         && (resource.Value (corev1.Cpu (corev1.Limits req)) <? resource.Value (corev1.Cpu uR))
      then setLimit req "cpu" (corev1.Cpu uR) else req
    else req in
  let req :=
    if has uR "memory" then
      let req := setRequest req "memory" (corev1.Memory uR) in
      if negb (has uL "memory")
         && (resource.Value (corev1.Memory (corev1.Limits req)) <? resource.Value (corev1.Memory uR))
      then setLimit req "memory" (corev1.Memory uR) else req
    else req in
  req.

(** [overridePvcRequirements]. [Limits] is replaced by a fresh map;
    [Requests] is the map shared with [defaultReq]. *)
Definition overridePvcRequirements
  (defaultReq userOverrides : corev1.ResourceRequirements) : corev1.ResourceRequirements :=
  let uL := corev1.Limits userOverrides in
  let uR := corev1.Requests userOverrides in
  let req := defaultReq in
  let req :=
    match uL !! "storage" with
    | Some lim =>
        let req := {| corev1.Limits := {[ "storage" := lim ]};
                      corev1.Requests := corev1.Requests req |} in
        if negb (has uR "storage") then
          let defaultStorage := corev1.Name (corev1.Requests req) "storage" resource.DecimalSI in
          if resource.Value lim <? resource.Value defaultStorage
          then setRequest req "storage" lim else req
        else req
    | None => req
    end in
  match uR !! "storage" with
  | Some r => setRequest req "storage" r
  | None => req
  end.

(** The quantities the renderer parses with [resource.MustParse]. *)
Definition quantity (v sc : Z) (f : resource.Format) : resource.Quantity :=
  {| resource.i := {| resource.value := v; resource.scale := sc |}; resource.format := f |}.

Definition MustParse_1 : resource.Quantity := quantity 1 0 resource.DecimalSI.
Definition MustParse_250m : resource.Quantity := quantity 250 (-3) resource.DecimalSI.
Definition MustParse_4Gi : resource.Quantity := quantity 4294967296 0 resource.BinarySI.
Definition MustParse_Gi (n : Z) : resource.Quantity := quantity (n * 1073741824) 0 resource.BinarySI.

(** The user's resource requirements for the Elasticsearch nodes:
    [*es.cfg.LogStorage.Spec.Nodes.ResourceRequirements], when both
    pointers are set. *)
Definition userResourceRequirements (ls : operatorv1.LogStorage)
  : option corev1.ResourceRequirements :=
  match operatorv1.Nodes_ (operatorv1.Spec ls) with
  | Some nodes => operatorv1.ResourceRequirements nodes
  | None => None
  end.

(** In the functions below [None] is a run-time panic: the configuration's
    [LogStorage] (or, in [javaOpts], its [KeyStoreSecret]) is dereferenced
    while nil. *)

(** [es.pvcTemplate()]. *)
Definition pvcTemplate (es : elasticsearchComponent) : option corev1.PersistentVolumeClaim :=
  ls ← LogStorage_ (cfg es);
  let resources :=
    {| corev1.Limits := ∅;
       corev1.Requests := {[ "storage" := MustParse_Gi DefaultElasticStorageGi ]} |} in
  let resources :=
    match userResourceRequirements ls with
    | Some userOverrides => overridePvcRequirements resources userOverrides
    | None => resources
    end in
  Some {| corev1.PVCName := "elasticsearch-data";
          corev1.AccessModes := [corev1.ReadWriteOnce];
          corev1.Resources := resources;
          corev1.StorageClassName := operatorv1.StorageClassName (operatorv1.Spec ls) |}.

(** [es.resourceRequirements()]. *)
Definition resourceRequirements (es : elasticsearchComponent)
  : option corev1.ResourceRequirements :=
  ls ← LogStorage_ (cfg es);
  let resources :=
    {| corev1.Limits := {[ "cpu" := MustParse_1; "memory" := MustParse_4Gi ]};
       corev1.Requests := {[ "cpu" := MustParse_250m; "memory" := MustParse_4Gi ]} |} in
  Some match userResourceRequirements ls with
       | Some userOverrides => overrideResourceRequirements resources userOverrides
       | None => resources
       end.

(** [es.javaOpts()]. *)
Definition javaOpts (es : elasticsearchComponent) : option string :=
  resources ← resourceRequirements es;
  ls ← LogStorage_ (cfg es);
  let javaOpts :=
    match userResourceRequirements ls with
    | Some _ =>
        let recommendedHeapSize :=
          memoryQuantityToJVMHeapSize (corev1.Memory (corev1.Requests resources)) in
        "-Xms" +:+ recommendedHeapSize +:+ " -Xmx" +:+ recommendedHeapSize
    | None => "-Xms2G -Xmx2G"
    end in
  if operatorv1.IsFIPSModeEnabled (operatorv1.FIPSMode_ (Installation (cfg es))) then
    ks ← KeyStoreSecret (cfg es);
    Some (javaOpts +:+ " --module-path /usr/share/bc-fips/ "
          +:+ "-Djavax.net.ssl.trustStore=/usr/share/elasticsearch/config/cacerts.bcfks "
          +:+ "-Djavax.net.ssl.trustStoreType=BCFKS "
          +:+ "-Djavax.net.ssl.trustStorePassword="
          +:+ default EmptyString (corev1.Data ks !! ElasticsearchKeystoreEnvName)
          +:+ " -Dorg.bouncycastle.fips.approved_only=true")
  else Some javaOpts.

(** [es.podTemplate()], for the parts kept in [corev1.PodTemplateSpec]. *)
Definition podTemplate (es : elasticsearchComponent) : option corev1.PodTemplateSpec :=
  let fips := operatorv1.IsFIPSModeEnabled (operatorv1.FIPSMode_ (Installation (cfg es))) in
  let certs := operatorv1.CertificateManagement (Installation (cfg es)) in
  env ←
    (if fips then
       Some [ {| corev1.EnvName := ElasticsearchKeystoreEnvName;
                 corev1.EnvValue := EmptyString;
                 corev1.SecretKeyRef :=
                   Some (ElasticsearchKeystoreSecret, ElasticsearchKeystoreEnvName) |};
              {| corev1.EnvName := "ES_JAVA_OPTS";
                 corev1.EnvValue := EmptyString;
                 corev1.SecretKeyRef := Some (ElasticsearchKeystoreSecret, "ES_JAVA_OPTS") |} ]
     else
       opts ← javaOpts es;
       Some [ {| corev1.EnvName := "ES_JAVA_OPTS";
                 corev1.EnvValue := opts;
                 corev1.SecretKeyRef := None |} ]);
  resources ← resourceRequirements es;
  let initContainers := ["elastic-internal-init-os-settings"] in
  let initContainers :=
    if fips then initContainers ++ [keystoreInitContainerName] else initContainers in
  let initContainers :=
    match certs with
    | Some _ =>
        initContainers ++
          ["elastic-internal-init-filesystem"; "key-cert-elastic"; "key-cert-elastic-transport"]
    | None => initContainers
    end in
  let initContainers := initContainers ++ ["elastic-internal-init-log-selinux-context"] in
  Some {| corev1.Env := env;
          corev1.ContainerResources := resources;
          corev1.InitContainers := initContainers;
          corev1.AutomountServiceAccountToken := bool_decide (is_Some certs);
          corev1.Affinity := None |}.

(** *** NodeSets *)

Section NodeSets.

(** [json.Marshal] on a PersistentVolumeClaim: its bytes, or [None] for an
    error. *)
Variable Marshal : corev1.PersistentVolumeClaim -> option (list Byte.byte).

(** [nodeSetName]: the thumbprint of the claim template. *)
Definition nodeSetName (pvcTemplate : corev1.PersistentVolumeClaim) : string :=
  let pvcTemplateHash := fnv.New64a in
  match Marshal pvcTemplate with
  | None => "es"
  | Some templateBytes =>
      match fnv.Write pvcTemplateHash templateBytes with
      | (_, Some _) => "es"
      | (pvcTemplateHash, None) => hex.EncodeToString (fnv.Sum pvcTemplateHash)
      end
  end.

Definition zeroPodTemplate : corev1.PodTemplateSpec :=
  {| corev1.Env := [];
     corev1.ContainerResources := {| corev1.Limits := ∅; corev1.Requests := ∅ |};
     corev1.InitContainers := [];
     corev1.AutomountServiceAccountToken := false;
     corev1.Affinity := None |}.

(** [es.nodeSetTemplate(pvcTemplate)]: Name, Count and PodTemplate are left
    at their zero values. *)
Definition nodeSetTemplate (es : elasticsearchComponent)
  (pvcTemplate : corev1.PersistentVolumeClaim) : esv1.NodeSet :=
  let config : gmap string esv1.ConfigValue :=
    {[ "node.master" := esv1.CfgString "true";
       "node.data" := esv1.CfgString "true";
       "node.ingest" := esv1.CfgString "true";
       "cluster.max_shards_per_node" := esv1.CfgInt 10000 ]} in
  let config :=
    match operatorv1.CertificateManagement (Installation (cfg es)) with
    | Some _ =>
        <[ "xpack.security.http.ssl.certificate_authorities" :=
             esv1.CfgStrings ["/usr/share/elasticsearch/config/http-certs/ca.crt"] ]> config
    | None => config
    end in
  let config :=
    if operatorv1.IsFIPSModeEnabled (operatorv1.FIPSMode_ (Installation (cfg es))) then
      <[ "xpack.security.authc.password_hashing.algorithm" := esv1.CfgString "pbkdf2_stretch" ]>
        (<[ "xpack.security.fips_mode.enabled" := esv1.CfgString "true" ]> config)
    else config in
  {| esv1.Name := EmptyString;
     esv1.Config := config;
     esv1.Count := 0;
     esv1.PodTemplate := zeroPodTemplate;
     esv1.VolumeClaimTemplates := [pvcTemplate] |}.

(** The inner loop over [nodeSetConfig.SelectionAttributes]: the node
    attributes written to the configuration, the attribute names and the
    node selector requirements, in order. *)
Fixpoint selectionAttributes (attrs : list operatorv1.NodeSetSelectionAttribute)
  (data : gmap string esv1.ConfigValue) (esAwarenessAttrs : list string)
  (nodeSelectorRequirements : list corev1.NodeSelectorRequirement)
  : gmap string esv1.ConfigValue * list string * list corev1.NodeSelectorRequirement :=
  match attrs with
  | [] => (data, esAwarenessAttrs, nodeSelectorRequirements)
  | attr :: attrs' =>
      selectionAttributes attrs'
        (<[ "node.attr." +:+ operatorv1.Name attr := esv1.CfgString (operatorv1.Value attr) ]> data)
        (esAwarenessAttrs ++ [operatorv1.Name attr])
        (nodeSelectorRequirements ++
           [ {| corev1.Key := operatorv1.NodeLabel attr;
                corev1.Values := [operatorv1.Value attr] |} ])
  end.

(** One round of the loop over [nodeConfig.NodeSets], past the break test:
    the NodeSet for index [i] holding [numNodes] nodes. *)
Definition nodeSetFor (es : elasticsearchComponent)
  (pvcTemplate : corev1.PersistentVolumeClaim) (podTemplate : corev1.PodTemplateSpec)
  (i numNodes : Z) (nodeSetConfig : operatorv1.NodeSet) : esv1.NodeSet :=
  let nodeSet := nodeSetTemplate es pvcTemplate in
  let name := nodeSetName pvcTemplate +:+ "-" +:+ golang.itoa i in
  let count := golang.int32 numNodes in
  match operatorv1.SelectionAttributes nodeSetConfig with
  | Some attrs =>
      let '(data, esAwarenessAttrs, nodeSelectorRequirements) :=
        selectionAttributes attrs (esv1.Config nodeSet) [] [] in
      let data :=
        <[ "cluster.routing.allocation.awareness.attributes" :=
             esv1.CfgString (golang.Join esAwarenessAttrs ",") ]> data in
      {| esv1.Name := name;
         esv1.Config := data;
         esv1.Count := count;
         esv1.PodTemplate :=
           {| corev1.Env := corev1.Env podTemplate;
              corev1.ContainerResources := corev1.ContainerResources podTemplate;
              corev1.InitContainers := corev1.InitContainers podTemplate;
              corev1.AutomountServiceAccountToken :=
                corev1.AutomountServiceAccountToken podTemplate;
              corev1.Affinity := Some nodeSelectorRequirements |};
         esv1.VolumeClaimTemplates := esv1.VolumeClaimTemplates nodeSet |}
  | None =>
      {| esv1.Name := name;
         esv1.Config := esv1.Config nodeSet;
         esv1.Count := count;
         esv1.PodTemplate := podTemplate;
         esv1.VolumeClaimTemplates := esv1.VolumeClaimTemplates nodeSet |}
  end.

(** The loop [for i, nodeSetConfig := range nodeConfig.NodeSets], from index
    [i] on; [count] is nodeConfig.Count and [len] the number of NodeSets.
    Division and remainder are Go's, truncating towards zero. *)
Fixpoint nodeSetsFrom (es : elasticsearchComponent)
  (pvcTemplate : corev1.PersistentVolumeClaim) (count len : Z)
  (i : Z) (rest : list operatorv1.NodeSet) : option (list esv1.NodeSet) :=
  match rest with
  | [] => Some []
  | nodeSetConfig :: rest' =>
      let baseNumNodes := Z.quot count len in
      let numNodes := baseNumNodes in
      let numNodes :=
        if i <? Z.rem count len then golang.int64 (numNodes + 1) else numNodes in
      if numNodes <? 1 then Some []    (* break *)
      else
        podTemplate ← podTemplate es;
        nodeSets ← nodeSetsFrom es pvcTemplate count len (i + 1) rest';
        Some (nodeSetFor es pvcTemplate podTemplate i numNodes nodeSetConfig :: nodeSets)
  end.

(** [es.nodeSets()]. *)
Definition nodeSets (es : elasticsearchComponent) : option (list esv1.NodeSet) :=
  ls ← LogStorage_ (cfg es);
  let nodeConfig := operatorv1.Nodes_ (operatorv1.Spec ls) in
  pvcTemplate ← pvcTemplate es;
  match nodeConfig with
  | None => Some []
  | Some nodeConfig =>
      match operatorv1.NodeSets nodeConfig with
      | [] =>
          let nodeSet := nodeSetTemplate es pvcTemplate in
          podTemplate ← podTemplate es;
          Some [ {| esv1.Name := nodeSetName pvcTemplate;
                    esv1.Config := esv1.Config nodeSet;
                    esv1.Count := golang.int32 (operatorv1.Count nodeConfig);
                    esv1.PodTemplate := podTemplate;
                    esv1.VolumeClaimTemplates := esv1.VolumeClaimTemplates nodeSet |} ]
      | configs =>
          nodeSetsFrom es pvcTemplate (operatorv1.Count nodeConfig)
            (Z.of_nat (length configs)) 0 configs
      end
  end.

End NodeSets.

(** *** Objects *)

Inductive PodSecurityStandard : Type := PSSBaseline | PSSPrivileged.

(** The methods of the component that build one object from the component
    (its configuration and images) and write nothing. *)
Inductive helper : Type :=
  | eckOperatorAllowTigeraPolicy | eckOperatorClusterRole
  | eckOperatorClusterRoleBinding | eckOperatorServiceAccount
  | eckOperatorClusterAdminClusterRoleBinding
  | elasticsearchClusterRoleBinding | elasticsearchClusterRole
  | eckOperatorPodSecurityPolicy | elasticsearchPodSecurityPolicy
  | kibanaClusterRoleBinding | kibanaClusterRole | kibanaPodSecurityPolicy
  | elasticEnterpriseTrial | eckOperatorStatefulSet
  | elasticsearchAllowTigeraPolicy | elasticsearchInternalAllowTigeraPolicy
  | elasticsearchServiceAccount | elasticsearchCluster
  | kibanaAllowTigeraPolicy | kibanaServiceAccount | kibanaCR
  | esCuratorAllowTigeraPolicy | esCuratorServiceAccount
  | curatorClusterRole | curatorClusterRoleBinding | curatorPodSecurityPolicy
  | curatorCronJob | oidcUserRole | oidcUserRoleBinding
  | elasticsearchExternalService.

(** A [client.Object] of the two returned lists. An object of the
    configuration is listed by value, as it stands when [Objects] returns;
    an object built by a helper is named by the helper and the component it
    was called on; the calls into other packages are named by their
    arguments. *)
Inductive Object : Type :=
  | ElasticsearchObject (e : eck.Elasticsearch)
  | KibanaObject (k : eck.Kibana)
  | SecretObject (s : option corev1.Secret)            (* a *corev1.Secret, possibly nil *)
  | ServiceObject (s : corev1.Service)
  | CreateNamespace (name : string) (provider : operatorv1.Provider)
      (pss : PodSecurityStandard)
  | CopyToNamespace (ns : string) (s : corev1.Secret)  (* secret.CopyToNamespace, one secret *)
  | ClusterConfigConfigMap (clusterConfig : string)    (* es.cfg.ClusterConfig.ConfigMap() *)
  | AllowTigeraDefaultDeny (ns : string)               (* networkpolicy.AllowTigeraDefaultDeny *)
  | KeyPairSecret (kp : KeyPair) (ns : string) (data : gmap string string)
  | Rendered (h : helper) (es : elasticsearchComponent).

Definition withKeyStoreSecret (c : ElasticsearchConfiguration) (ks : option corev1.Secret)
  : ElasticsearchConfiguration :=
  {| LogStorage_ := LogStorage_ c;
     Installation := Installation c;
     ManagementCluster := ManagementCluster c;
     ManagementClusterConnection := ManagementClusterConnection c;
     Elasticsearch := Elasticsearch c;
     Kibana := Kibana c;
     ClusterConfig := ClusterConfig c;
     ElasticsearchUserSecret := ElasticsearchUserSecret c;
     ElasticsearchKeyPair := ElasticsearchKeyPair c;
     KibanaKeyPair := KibanaKeyPair c;
     PullSecrets := PullSecrets c;
     Provider := Provider c;
     CuratorSecrets := CuratorSecrets c;
     ESService := ESService c;
     KbService := KbService c;
     ClusterDomain := ClusterDomain c;
     BaseURL := BaseURL c;
     ElasticLicenseType := ElasticLicenseType c;
     TrustedBundle := TrustedBundle c;
     UnusedTLSSecret := UnusedTLSSecret c;
     ApplyTrial := ApplyTrial c;
     KeyStoreSecret := ks;
     UsePSP := UsePSP c |}.

Definition withCfg (es : elasticsearchComponent) (c : ElasticsearchConfiguration)
  : elasticsearchComponent :=
  {| cfg := c; kibanaSecrets := kibanaSecrets es; esImage := esImage es;
     esOperatorImage := esOperatorImage es; kibanaImage := kibanaImage es;
     curatorImage := curatorImage es; csrImage := csrImage es |}.

(** The assignment [es.cfg.KeyStoreSecret.Data[key] = val]: a write into
    the map of the configuration's own secret. *)
Definition setKeyStoreData (es : elasticsearchComponent) (ks : corev1.Secret)
  (key val : string) : elasticsearchComponent :=
  withCfg es
    (withKeyStoreSecret (cfg es)
       (Some {| corev1.SecretName := corev1.SecretName ks;
                corev1.SecretNamespace := corev1.SecretNamespace ks;
                corev1.Data := <[ key := val ]> (corev1.Data ks) |})).

Definition isExternalName (s : option corev1.Service) : option corev1.Service :=
  match s with
  | Some svc =>
      match corev1.Type_ svc with
      | corev1.ServiceTypeExternalName => Some svc
      | _ => None
      end
  | None => None
  end.

(** The branch of [Objects] taken when no ManagementClusterConnection is
    set: the ECK operator, Elasticsearch, Kibana and the curator. It returns
    the two lists and the component as the branch leaves it.
    [eckOperatorStatefulSet], built on every path through the branch,
    dereferences [es.cfg.LogStorage]. *)
Definition objectsStandalone (es : elasticsearchComponent)
  : option (list Object * list Object * elasticsearchComponent) :=
  let c := cfg es in
  let fips := operatorv1.IsFIPSModeEnabled (operatorv1.FIPSMode_ (Installation c)) in
  let provider := operatorv1.KubernetesProvider (Installation c) in
  let notOpenShift :=
    match Provider c with operatorv1.ProviderOpenShift => false | _ => true end in
  (* ECK operator *)
  let toCreate :=
    [ CreateNamespace ECKOperatorNamespace provider PSSBaseline;
      Rendered eckOperatorAllowTigeraPolicy es ] in
  let toCreate := toCreate ++ map (CopyToNamespace ECKOperatorNamespace) (PullSecrets c) in
  let toCreate := toCreate ++
    [ Rendered eckOperatorClusterRole es;
      Rendered eckOperatorClusterRoleBinding es;
      Rendered eckOperatorServiceAccount es ] in
  let toCreate :=
    match Provider c with
    | operatorv1.ProviderDockerEE =>
        toCreate ++ [Rendered eckOperatorClusterAdminClusterRoleBinding es]
    | _ => toCreate
    end in
  let toCreate :=
    if notOpenShift then
      let toCreate := toCreate ++
        [ Rendered elasticsearchClusterRoleBinding es; Rendered elasticsearchClusterRole es ] in
      let toCreate :=
        if UsePSP c then toCreate ++
          [ Rendered eckOperatorPodSecurityPolicy es; Rendered elasticsearchPodSecurityPolicy es ]
        else toCreate in
      if negb fips then toCreate ++
        [ Rendered kibanaClusterRoleBinding es; Rendered kibanaClusterRole es;
          Rendered kibanaPodSecurityPolicy es ]
      else toCreate
    else toCreate in
  let toCreate :=
    if ApplyTrial c then toCreate ++ [Rendered elasticEnterpriseTrial es] else toCreate in
  _ ← LogStorage_ c;
  let toCreate := toCreate ++ [Rendered eckOperatorStatefulSet es] in
  (* Elasticsearch CRs *)
  let toCreate := toCreate ++
    [ CreateNamespace ElasticsearchNamespace provider PSSPrivileged;
      Rendered elasticsearchAllowTigeraPolicy es;
      Rendered elasticsearchInternalAllowTigeraPolicy es;
      AllowTigeraDefaultDeny ElasticsearchNamespace ] in
  let toCreate :=
    if (0 <? length (PullSecrets c))%nat
    then toCreate ++ map (CopyToNamespace ElasticsearchNamespace) (PullSecrets c)
    else toCreate in
  let toCreate :=
    match ElasticsearchUserSecret c with
    | Some s => toCreate ++ [SecretObject (Some s)]
    | None => toCreate
    end in
  let toCreate := toCreate ++
    [ Rendered elasticsearchServiceAccount es;
      ClusterConfigConfigMap (ClusterConfig c);
      Rendered elasticsearchCluster es ] in
  '(toCreate, toDelete, es) ←
    (if negb fips then
       (* Kibana CRs *)
       let toCreate := toCreate ++
         [ CreateNamespace KibanaNamespace provider PSSBaseline;
           Rendered kibanaAllowTigeraPolicy es;
           AllowTigeraDefaultDeny KibanaNamespace;
           Rendered kibanaServiceAccount es ] in
       let toCreate :=
         if (0 <? length (PullSecrets c))%nat
         then toCreate ++ map (CopyToNamespace KibanaNamespace) (PullSecrets c)
         else toCreate in
       let toCreate :=
         if (0 <? length (kibanaSecrets es))%nat
         then toCreate ++ map (fun s => SecretObject (Some s)) (kibanaSecrets es)
         else toCreate in
       let toCreate := toCreate ++ [Rendered kibanaCR es] in
       (* Curator CRs *)
       let toCreate :=
         if (0 <? length (CuratorSecrets c))%nat then
           let toCreate := toCreate ++ [Rendered esCuratorAllowTigeraPolicy es] in
           let toCreate := toCreate ++
             map (CopyToNamespace ElasticsearchNamespace) (CuratorSecrets c) in
           let toCreate := toCreate ++ [Rendered esCuratorServiceAccount es] in
           let toCreate :=
             if notOpenShift then
               let toCreate := toCreate ++
                 [ Rendered curatorClusterRole es; Rendered curatorClusterRoleBinding es ] in
               if UsePSP c then toCreate ++ [Rendered curatorPodSecurityPolicy es]
               else toCreate
             else toCreate in
           toCreate ++ [Rendered curatorCronJob es]
         else toCreate in
       Some (toCreate, [], es)
     else
       '(toCreate, es) ←
         match KeyStoreSecret c with
         | Some ks =>
             es ← (if fips then
                     opts ← javaOpts es;
                     Some (setKeyStoreData es ks "ES_JAVA_OPTS" opts)
                   else Some es);
             Some (toCreate ++
                     SecretObject (KeyStoreSecret (cfg es))
                     :: match KeyStoreSecret (cfg es) with
                        | Some ks' => [CopyToNamespace ElasticsearchNamespace ks']
                        | None => []
                        end,
                   es)
         | None => Some (toCreate, es)
         end;
       Some (toCreate, [Rendered kibanaCR es; Rendered curatorCronJob es], es));
  let toCreate := toCreate ++ [Rendered oidcUserRole es; Rendered oidcUserRoleBinding es] in
  let toDelete :=
    match isExternalName (ESService c) with
    | Some svc => toDelete ++ [ServiceObject svc]
    | None => toDelete
    end in
  let toDelete :=
    match isExternalName (KbService c) with
    | Some svc => toDelete ++ [ServiceObject svc]
    | None => toDelete
    end in
  Some (toCreate, toDelete, es).

(** The end of [Objects]: the secret that stands in for the TLS secrets
    ECK looks for when certificate management is used. It reads the
    configuration and extends the two lists. *)
Definition unusedTLSObjects (c : ElasticsearchConfiguration)
  (toCreate toDelete : list Object) : option (list Object * list Object) :=
  match operatorv1.CertificateManagement (Installation c) with
  | Some _ =>
      let toCreate := toCreate ++ [SecretObject (UnusedTLSSecret c)] in
      toCreate ←
        (if UseCertificateManagement (ElasticsearchKeyPair c) then
           unused ← UnusedTLSSecret c;
           Some (toCreate ++
                   [KeyPairSecret (ElasticsearchKeyPair c) ElasticsearchNamespace
                      (corev1.Data unused)])
         else Some toCreate);
      toCreate ←
        match KibanaKeyPair c with
        | Some kp =>
            if UseCertificateManagement kp then
              unused ← UnusedTLSSecret c;
              Some (toCreate ++ [KeyPairSecret kp KibanaNamespace (corev1.Data unused)])
            else Some toCreate
        | None => Some toCreate
        end;
      Some (toCreate, toDelete)
  | None =>
      match UnusedTLSSecret c with
      | Some s => Some (toCreate, toDelete ++ [SecretObject (Some s)])
      | None => Some (toCreate, toDelete)
      end
  end.

(** The objects to delete once the LogStorage is being deleted. *)
Definition objectsToFinalize (c : ElasticsearchConfiguration) : list Object :=
  let toDelete := [] in
  let toDelete :=
    match Elasticsearch c with
    | Some e =>
        match eck.EsDeletionTimestamp e with
        | None => toDelete ++ [ElasticsearchObject e]
        | Some _ => toDelete
        end
    | None => toDelete
    end in
  match Kibana c with
  | Some k =>
      match eck.KbDeletionTimestamp k with
      | None => toDelete ++ [KibanaObject k]
      | Some _ => toDelete
      end
  | None => toDelete
  end.

(** [es.cfg.LogStorage != nil && es.cfg.LogStorage.DeletionTimestamp != nil]. *)
Definition beingDeleted (c : ElasticsearchConfiguration) : bool :=
  match LogStorage_ c with
  | Some ls => bool_decide (is_Some (operatorv1.DeletionTimestamp ls))
  | None => false
  end.

(** [(es *elasticsearchComponent).Objects()]: the objects to create, the
    objects to delete, and the component afterwards. [None] is a panic. *)
Definition Objects (es : elasticsearchComponent)
  : option (list Object * list Object * elasticsearchComponent) :=
  if beingDeleted (cfg es) then
    Some ([], objectsToFinalize (cfg es), es)
  else
    '(toCreate, toDelete, es) ←
      match ManagementClusterConnection (cfg es) with
      | None => objectsStandalone es
      | Some _ =>
          Some ([ CreateNamespace ElasticsearchNamespace
                    (operatorv1.KubernetesProvider (Installation (cfg es))) PSSPrivileged;
                  Rendered elasticsearchExternalService es ], [], es)
      end;
    '(toCreate, toDelete) ← unusedTLSObjects (cfg es) toCreate toDelete;
    Some (toCreate, toDelete, es).

End render.

(** ** pkg/render/fluentd.go *)

Module fluentd.

Definition LogCollectorNamespace : string := "tigera-fluentd".
Definition FluentdFilterConfigMapName : string := "fluentd-filters".
Definition FluentdFilterFlowName : string := "flow".
Definition FluentdFilterDNSName : string := "dns".
Definition S3FluentdSecretName : string := "log-collector-s3-credentials".
Definition S3KeyIdName : string := "key-id".
Definition S3KeySecretName : string := "key-secret".
Definition EksLogForwarderSecret : string := "tigera-eks-log-forwarder-secret".
Definition EksLogForwarderAwsId : string := "aws-id".
Definition EksLogForwarderAwsKey : string := "aws-key".
Definition SplunkFluentdTokenSecretName : string := "logcollector-splunk-credentials".
Definition SplunkFluentdSecretTokenKey : string := "token".
Definition SplunkFluentdCertificateSecretName : string :=
  "logcollector-splunk-public-certificate".
Definition SplunkFluentdSecretCertificateKey : string := "ca.pem".
Definition ElasticsearchLogCollectorUserSecret : string := "tigera-fluentd-elasticsearch-access".
Definition ElasticsearchEksLogForwarderUserSecret : string :=
  "tigera-eks-log-forwarder-elasticsearch-access".
Definition FluentdPrometheusTLSSecretName : string := "tigera-fluentd-prometheus-tls".

Definition probeTimeoutSeconds : Z := 5.
Definition probePeriodSeconds : Z := 5.
Definition probeWindowsTimeoutSeconds : Z := 10.
Definition probeWindowsPeriodSeconds : Z := 10.

Inductive OSType : Type := OSTypeLinux | OSTypeWindows.

Record FluentdFilters : Type := { Flow : string; DNS : string }.
Record S3Credential : Type := { KeyId : string; KeySecret : string }.
Record SplunkCredential : Type := { Token : string; Certificate : string }.

Record EksCloudwatchLogConfig : Type :=
  { AwsId : string; AwsKey : string; AwsRegion : string; GroupName : string;
    StreamPrefix : string; FetchInterval : Z }.

Record FluentdConfiguration : Type :=
  { LogCollector : operatorv1.LogCollector;
    ESSecrets : list corev1.Secret;
    ESClusterConfig : string;
    S3Credential_ : option S3Credential;
    SplkCredential : option SplunkCredential;
    Filters : option FluentdFilters;
    EKSConfig : option EksCloudwatchLogConfig;
    PullSecrets : list corev1.Secret;
    Installation : operatorv1.InstallationSpec;
    ClusterDomain : string;
    OSType_ : OSType;
    MetricsServerTLS : option render.KeyPair;
    TrustedBundle : string;
    ManagedCluster : bool;
    UsePSP : bool }.

Record fluentdComponent : Type :=
  { cfg : FluentdConfiguration;
    image : string;
    probeTimeout : Z;
    probePeriod : Z }.

(** [Fluentd(cfg)]: the constructor. *)
Definition Fluentd (c : FluentdConfiguration) : fluentdComponent :=
  let '(timeout, period) :=
    match OSType_ c with
    | OSTypeWindows => (probeWindowsTimeoutSeconds, probeWindowsPeriodSeconds)
    | OSTypeLinux => (probeTimeoutSeconds, probePeriodSeconds)
    end in
  {| cfg := c; image := EmptyString; probeTimeout := timeout; probePeriod := period |}.

(** [(c *fluentdComponent).ResolveImages(imageSet)]. *)
Definition ResolveImages {ImageSet : Type}
  (GetReference :
     render.component -> string -> string -> string -> ImageSet -> string * option api.error)
  (c : fluentdComponent) (imageSet : ImageSet) : fluentdComponent * option api.error :=
  let reg := operatorv1.Registry (Installation (cfg c)) in
  let path := operatorv1.ImagePath (Installation (cfg c)) in
  let pre := operatorv1.ImagePrefix (Installation (cfg c)) in
  let '(img, err) :=
    match OSType_ (cfg c) with
    | OSTypeWindows => GetReference render.ComponentFluentdWindows reg path pre imageSet
    | OSTypeLinux => GetReference render.ComponentFluentd reg path pre imageSet
    end in
  ({| cfg := cfg c; image := img; probeTimeout := probeTimeout c;
      probePeriod := probePeriod c |}, err).

(** The methods that build one object from the component and write
    nothing. *)
Inductive helper : Type :=
  | allowTigeraPolicy | metricsService | fluentdResourceQuota
  | eksLogForwarderClusterRole | eksLogForwarderClusterRoleBinding
  | eksLogForwarderPodSecurityPolicy | eksLogForwarderServiceAccount
  | eksLogForwarderSecret | eksLogForwarderDeployment
  | fluentdClusterRole | fluentdClusterRoleBinding | fluentdPodSecurityPolicy
  | fluentdServiceAccount | packetCaptureApiRole | packetCaptureApiRoleBinding
  | daemonset.

Inductive Object : Type :=
  | CreateNamespace (name : string) (provider : operatorv1.Provider)
      (pss : render.PodSecurityStandard)
  | CopyToNamespace (ns : string) (s : corev1.Secret)
  | SecretObject (s : corev1.Secret)
  | ConfigMapObject (name ns : string) (data : gmap string string)
  | Rendered (h : helper) (c : fluentdComponent).

(** [c.s3CredentialSecret()], called when the credential is set. *)
Definition s3CredentialSecret (cred : S3Credential) : corev1.Secret :=
  {| corev1.SecretName := S3FluentdSecretName;
     corev1.SecretNamespace := LogCollectorNamespace;
     corev1.Data := {[ S3KeyIdName := KeyId cred; S3KeySecretName := KeySecret cred ]} |}.

(** [c.filtersConfigMap()], called when the filters are set. *)
Definition filtersConfigMap (f : FluentdFilters) : Object :=
  ConfigMapObject FluentdFilterConfigMapName LogCollectorNamespace
    {[ FluentdFilterFlowName := Flow f; FluentdFilterDNSName := DNS f ]}.

(** [c.splunkCredentialSecret()], called when the credential is set. *)
Definition splunkCredentialSecret (cred : SplunkCredential) : list corev1.Secret :=
  let token :=
    {| corev1.SecretName := SplunkFluentdTokenSecretName;
       corev1.SecretNamespace := LogCollectorNamespace;
       corev1.Data := {[ SplunkFluentdSecretTokenKey := Token cred ]} |} in
  if (String.length (Certificate cred) =? 0)%nat then [token]
  else
    [ token;
      {| corev1.SecretName := SplunkFluentdCertificateSecretName;
         corev1.SecretNamespace := LogCollectorNamespace;
         corev1.Data := {[ SplunkFluentdSecretCertificateKey := Certificate cred ]} |} ].

(** [(c *fluentdComponent).Objects()]. It writes to nothing, so the
    component is not returned. *)
Definition Objects (c : fluentdComponent) : list Object * list Object :=
  let f := cfg c in
  let provider := operatorv1.KubernetesProvider (Installation f) in
  let notOpenShift :=
    match provider with operatorv1.ProviderOpenShift => false | _ => true end in
  let linux := match OSType_ f with OSTypeLinux => true | OSTypeWindows => false end in
  let objs :=
    [ CreateNamespace LogCollectorNamespace provider render.PSSPrivileged;
      Rendered allowTigeraPolicy c ] in
  let objs := objs ++ map (CopyToNamespace LogCollectorNamespace) (PullSecrets f) in
  let objs := objs ++ [Rendered metricsService c] in
  let objs :=
    match provider with
    | operatorv1.ProviderGKE => objs ++ [Rendered fluentdResourceQuota c]
    | _ => objs
    end in
  let objs :=
    match S3Credential_ f with
    | Some cred => objs ++ [SecretObject (s3CredentialSecret cred)]
    | None => objs
    end in
  let objs :=
    match SplkCredential f with
    | Some cred =>
        objs ++ map (CopyToNamespace LogCollectorNamespace) (splunkCredentialSecret cred)
    | None => objs
    end in
  let objs :=
    match Filters f with
    | Some flt => objs ++ [filtersConfigMap flt]
    | None => objs
    end in
  let objs :=
    if bool_decide (is_Some (EKSConfig f)) && linux then
      let objs :=
        if notOpenShift then
          let objs := objs ++
            [ Rendered eksLogForwarderClusterRole c;
              Rendered eksLogForwarderClusterRoleBinding c ] in
          if UsePSP f then objs ++ [Rendered eksLogForwarderPodSecurityPolicy c] else objs
        else objs in
      objs ++
        [ Rendered eksLogForwarderServiceAccount c;
          Rendered eksLogForwarderSecret c;
          Rendered eksLogForwarderDeployment c ]
    else objs in
  let objs :=
    if notOpenShift && linux then
      let objs := objs ++
        [ Rendered fluentdClusterRole c; Rendered fluentdClusterRoleBinding c ] in
      if UsePSP f then objs ++ [Rendered fluentdPodSecurityPolicy c] else objs
    else objs in
  let objs := objs ++ map (CopyToNamespace LogCollectorNamespace) (ESSecrets f) in
  let objs := objs ++ [Rendered fluentdServiceAccount c] in
  let objs := objs ++
    [ Rendered packetCaptureApiRole c; Rendered packetCaptureApiRoleBinding c ] in
  let objs := objs ++ [Rendered daemonset c] in
  (objs, []).

End fluentd.

(** ** package utils: provider discovery *)

Module utils.

(** What the clientset answers to the queries of provider discovery. *)
Record Clientset : Type :=
  { (** [Discovery().ServerGroups()]: the names of the API groups. *)
    ServerGroups : api.result (list string);
    (** [Nodes().List] with the master role selector: the labels of each
        node. *)
    MasterNodes : api.result (list (gmap string string));
    (** [ConfigMaps("kube-system").Get(name)]: the pointer returned, which
        may be nil, or the error. *)
    GetKubeSystemConfigMap : string -> api.result (option (gmap string string)) }.

(** [autodetectFromGroup]. *)
Fixpoint providersOfGroups (groups : list string) : list operatorv1.Provider :=
  match groups with
  | [] => []
  | g :: groups' =>
      (if String.eqb g "config.openshift.io" then [operatorv1.ProviderOpenShift] else [])
      ++ (if String.eqb g "networking.gke.io" then [operatorv1.ProviderGKE] else [])
      ++ providersOfGroups groups'
  end.

Definition autodetectFromGroup (c : Clientset) : api.result (list operatorv1.Provider) :=
  match ServerGroups c with
  | inr err => inr err
  | inl groups => inl (providersOfGroups groups)
  end.

(** [isDockerEE]: some master node carries a label whose key starts with
    com.docker.ucp. The loop over the label map only looks for a witness,
    so its order does not matter. *)
Definition hasDockerLabel (labels : gmap string string) : bool :=
  existsb (fun kv => golang.HasPrefix (fst kv) "com.docker.ucp") (map_to_list labels).

Definition isDockerEE (c : Clientset) : api.result bool :=
  match MasterNodes c with
  | inr err => inr err
  | inl items => inl (existsb hasDockerLabel items)
  end.

Definition configMapPresent (c : Clientset) (name : string) : api.result bool :=
  match GetKubeSystemConfigMap c name with
  | inr err => if api.IsNotFound err then inl false else inr err
  | inl cm => inl (bool_decide (is_Some cm))
  end.

(** [isEKS]. *)
Definition isEKS (c : Clientset) : api.result bool :=
  configMapPresent c "eks-certificates-controller".

(** [isRKE2]. *)
Definition isRKE2 (c : Clientset) : api.result bool :=
  configMapPresent c "rke2".

(** The string behind each provider constant. *)
Definition providerName (p : operatorv1.Provider) : string :=
  match p with
  | operatorv1.ProviderNone => EmptyString
  | operatorv1.ProviderEKS => "EKS"
  | operatorv1.ProviderGKE => "GKE"
  | operatorv1.ProviderAKS => "AKS"
  | operatorv1.ProviderOpenShift => "OpenShift"
  | operatorv1.ProviderDockerEE => "DockerEnterprise"
  | operatorv1.ProviderRKE2 => "RKE2"
  end.

(** [AutoDiscoverProvider]: the provider and the error (nil is [None]). *)
Definition AutoDiscoverProvider (c : Clientset) : operatorv1.Provider * option api.error :=
  let detectedProviders := [] in
  match autodetectFromGroup c with
  | inr err =>
      (operatorv1.ProviderNone,
       Some (api.Errorf "Failed to check provider based on API groups: %s" [api.Error err]))
  | inl platform =>
      let detectedProviders := detectedProviders ++ platform in
      match isDockerEE c with
      | inr err =>
          (operatorv1.ProviderNone,
           Some (api.Errorf "Failed to check if Docker EE is the provider: %s" [api.Error err]))
      | inl dockeree =>
          let detectedProviders :=
            if dockeree then detectedProviders ++ [operatorv1.ProviderDockerEE]
            else detectedProviders in
          match isEKS c with
          | inr err =>
              (operatorv1.ProviderNone,
               Some (api.Errorf "Failed to check if EKS is the provider: %s" [api.Error err]))
          | inl eks =>
              let detectedProviders :=
                if eks then detectedProviders ++ [operatorv1.ProviderEKS]
                else detectedProviders in
              match isRKE2 c with
              | inr err =>
                  (operatorv1.ProviderNone,
                   Some (api.Errorf "Failed to check if RKE2 is the provider: %s" [api.Error err]))
              | inl rke2 =>
                  let detectedProviders :=
                    if rke2 then detectedProviders ++ [operatorv1.ProviderRKE2]
                    else detectedProviders in
                  if (1 <? length detectedProviders)%nat then
                    (* More than one provider was detected. *)
                    (operatorv1.ProviderNone,
                     Some (api.Errorf
                             "Failed to assert provider caused by detection of more than one. Detected providers: %s"
                             (map providerName detectedProviders)))
                  else if (length detectedProviders =? 1)%nat then
                    (* Only one provider was detected: detectedProviders[0]. *)
                    (default operatorv1.ProviderNone (head detectedProviders), None)
                  else
                    (operatorv1.ProviderNone, None)
              end
          end
      end
  end.

End utils.

(** ** pkg/controller/logcollector/logcollector_controller.go *)

Module logcollector.

(** [time.Duration], in nanoseconds. *)
Definition Second : Z := 1000000000.

(** [reconcile.Result]. *)
Record Result : Type := { Requeue : bool; RequeueAfter : Z }.

Definition Result_zero : Result := {| Requeue := false; RequeueAfter := 0 |}.
Definition RequeueAfter_ (d : Z) : Result := {| Requeue := false; RequeueAfter := d |}.

(** The components handed to the component handler. *)
Inductive Component : Type :=
  | FluentdComponent (c : fluentd.fluentdComponent)
  | CertificateManagement (keyPair : render.KeyPair) (trustedBundle : string).

(** [r.client], by what it answers in one run of [Reconcile]. *)
Record Client : Type :=
  { (** [Get] of the LogCollector named tigera-secure. *)
    GetInstance : api.result operatorv1.LogCollector;
    (** [Patch] of the defaulted instance; nil is [None]. *)
    Patch : operatorv1.LogCollector -> option api.error;
    (** [Get] of the allow-tigera Tier. *)
    GetTier : option api.error;
    (** [Get] of a Secret / a ConfigMap of the operator namespace. *)
    GetSecret : string -> api.result (gmap string string);
    GetConfigMap : string -> api.result (gmap string string);
    (** [List] of the nodes labelled kubernetes.io/os=windows: how many. *)
    ListWindowsNodes : api.result nat;
    (** [Status().Update]. *)
    StatusUpdate : operatorv1.LogCollector -> option api.error }.

(** Everything [Reconcile] reads from outside itself in one run: the
    reconciler's fields, the client, the two ready flags, and the answers
    of the helpers of other packages, which are not part of this
    development. *)
Record World : Type :=
  { client : Client;
    clusterDomain : string;
    usePSP : bool;
    tierWatchReady : bool;                    (* r.tierWatchReady.IsReady() *)
    licenseAPIReady : bool;                   (* r.licenseAPIReady.IsReady() *)
    ParseEndpoint : string -> option api.error;                (* url.ParseEndpoint *)
    IsAPIServerReady : bool;                                   (* utils.IsAPIServerReady *)
    FetchLicenseKey : api.result string;
    IsFeatureActive : string -> bool;         (* of the license, for export-logs *)
    GetInstallation : api.result (string * operatorv1.InstallationSpec);
    GetElasticsearchClusterConfig : api.result string;
    GetNetworkingPullSecrets : api.result (list corev1.Secret);
    ElasticsearchSecrets : api.result (list corev1.Secret);
    CertificateManagerCreate : option api.error;
    GetOrCreateKeyPair : api.result render.KeyPair;
    GetPrometheusCertificate : api.result (option string);
    GetESGatewayCertificate : api.result (option string);
    PublicCertSecret : string;
    CreateTrustedBundle : string -> string -> string;
    (** [utils.GetManagementClusterConnection]: both returned values. *)
    GetManagementClusterConnection : option string * option api.error;
    (** [imageset.ApplyImageSet] on a fluentd component: the image it
        resolves, or the error. *)
    ApplyImageSet : fluentd.fluentdComponent -> api.result string;
    (** [handler.CreateOrUpdateOrDelete]. *)
    CreateOrUpdateOrDelete : Component -> option api.error;
    IsAvailable : bool }.                     (* r.status.IsAvailable() *)

(** What a run does to the status manager and to the cluster, in order. *)
Inductive Event : Type :=
  | OnCRNotFound
  | OnCRFound
  | SetDegraded (reason msg : string)
  | ClearDegraded
  | AddToStatusManager
  | Patched (instance : operatorv1.LogCollector)
  | ImageSetApplied (os : fluentd.OSType)
  | Applied (comp : Component)          (* a call of CreateOrUpdateOrDelete *)
  | StatusUpdated (instance : operatorv1.LogCollector).

Definition Outcome : Type := Result * option api.error.

(** A run in progress: the events so far, and either a value to go on with
    or the values [Reconcile] has returned. *)
Definition Exec (A : Type) : Type := list Event -> list Event * (A + Outcome).

#[export] Instance Exec_ret : MRet Exec := fun A a t => (t, inl a).

#[export] Instance Exec_bind : MBind Exec := fun A B f m t =>
  match m t with
  | (t', inl a) => f a t'
  | (t', inr o) => (t', inr o)
  end.

Definition emit (e : Event) : Exec unit := fun t => (t ++ [e], inl tt).

(** [return res, err]. *)
Definition return_ {A : Type} (res : Result) (err : option api.error) : Exec A :=
  fun t => (t, inr (res, err)).

(** [r.status.SetDegraded(reason, msg)] followed by [return res, err]. *)
Definition degraded {A : Type} (reason msg : string) (res : Result)
  (err : option api.error) : Exec A :=
  emit (SetDegraded reason msg) ≫= fun _ => return_ res err.

(** A call returning (value, error): go on with the value, or leave through
    [onError]. *)
Definition try {A : Type} (r : api.result A) (onError : api.error -> Exec A) : Exec A :=
  match r with
  | inl a => mret a
  | inr err => onError err
  end.

(** [GetLogCollector]. *)
Definition GetLogCollector (w : World) : api.result operatorv1.LogCollector :=
  match GetInstance (client w) with
  | inr err => inr err
  | inl instance =>
      match operatorv1.AdditionalStores (operatorv1.LogCollectorSpec_ instance) with
      | Some stores =>
          match operatorv1.Syslog stores with
          | Some syslog =>
              match ParseEndpoint w (operatorv1.Endpoint syslog) with
              | Some err =>
                  inr (api.Errorf "Syslog config has invalid Endpoint: %s" [api.Error err])
              | None => inl instance
              end
          | None => inl instance
          end
      | None => inl instance
      end
  end.

Definition withSpec (instance : operatorv1.LogCollector) (spec : operatorv1.LogCollectorSpec)
  : operatorv1.LogCollector :=
  {| operatorv1.LogCollectorSpec_ := spec; operatorv1.State := operatorv1.State instance |}.

(** [fillDefaults]: the instance with its defaults set, and the names of
    the fields that were set. *)
Definition fillDefaults (instance : operatorv1.LogCollector)
  : operatorv1.LogCollector * list string :=
  let spec := operatorv1.LogCollectorSpec_ instance in
  let '(spec, modifiedFields) :=
    match operatorv1.CollectProcessPath spec with
    | None =>
        ({| operatorv1.AdditionalStores := operatorv1.AdditionalStores spec;
            operatorv1.AdditionalSources := operatorv1.AdditionalSources spec;
            operatorv1.CollectProcessPath := Some operatorv1.CollectProcessPathEnable |},
         ["CollectProcessPath"])
    | Some _ => (spec, [])
    end in
  let '(spec, modifiedFields) :=
    match operatorv1.AdditionalStores spec with
    | Some stores =>
        match operatorv1.Syslog stores with
        | Some syslog =>
            if match operatorv1.LogTypes syslog with
               | None => true
               | Some l => (length l =? 0)%nat
               end
            then
              ({| operatorv1.AdditionalStores :=
                    Some {| operatorv1.S3 := operatorv1.S3 stores;
                            operatorv1.Syslog :=
                              Some {| operatorv1.Endpoint := operatorv1.Endpoint syslog;
                                      operatorv1.LogTypes :=
                                        Some [ operatorv1.SyslogLogAudit;
                                               operatorv1.SyslogLogDNS;
                                               operatorv1.SyslogLogFlows ] |};
                            operatorv1.Splunk := operatorv1.Splunk stores |};
                  operatorv1.AdditionalSources := operatorv1.AdditionalSources spec;
                  operatorv1.CollectProcessPath := operatorv1.CollectProcessPath spec |},
               modifiedFields ++ ["AdditionalStores.Syslog.LogTypes"])
            else (spec, modifiedFields)
        | None => (spec, modifiedFields)
        end
    | None => (spec, modifiedFields)
    end in
  (withSpec instance spec, modifiedFields).

(** A secret entry that is present and not empty. *)
Definition field (data : gmap string string) (key : string) : option string :=
  match data !! key with
  | Some v => if (String.length v =? 0)%nat then None else Some v
  | None => None
  end.

(** [getS3Credential]. *)
Definition getS3Credential (c : Client) : api.result (option fluentd.S3Credential) :=
  match GetSecret c fluentd.S3FluentdSecretName with
  | inr err =>
      if api.IsNotFound err then inl None
      else inr (api.Errorf "Failed to read secret %q: %s"
                  [fluentd.S3FluentdSecretName; api.Error err])
  | inl data =>
      match field data fluentd.S3KeyIdName with
      | None => inr (api.Errorf "Expected secret %q to have a field named %q"
                       [fluentd.S3FluentdSecretName; fluentd.S3KeyIdName])
      | Some kId =>
          match field data fluentd.S3KeySecretName with
          | None => inr (api.Errorf "Expected secret %q to have a field named %q"
                           [fluentd.S3FluentdSecretName; fluentd.S3KeySecretName])
          | Some kSecret =>
              inl (Some {| fluentd.KeyId := kId; fluentd.KeySecret := kSecret |})
          end
      end
  end.

(** [getSplunkCredential]. *)
Definition getSplunkCredential (c : Client) : api.result (option fluentd.SplunkCredential) :=
  match GetSecret c fluentd.SplunkFluentdTokenSecretName with
  | inr err =>
      if api.IsNotFound err then inl None
      else inr (api.Errorf "Failed to read secret %q: %s"
                  [fluentd.SplunkFluentdTokenSecretName; api.Error err])
  | inl data =>
      match field data fluentd.SplunkFluentdSecretTokenKey with
      | None => inr (api.Errorf "Expected secret %q to have a field named %q"
                       [fluentd.SplunkFluentdTokenSecretName;
                        fluentd.SplunkFluentdSecretTokenKey])
      | Some token =>
          match GetSecret c fluentd.SplunkFluentdCertificateSecretName with
          | inr err =>
              if api.IsNotFound err
              then inl (Some {| fluentd.Token := token; fluentd.Certificate := EmptyString |})
              else inr (api.Errorf "Failed to read secret %q: %s"
                          [fluentd.SplunkFluentdCertificateSecretName; api.Error err])
          | inl certData =>
              match field certData fluentd.SplunkFluentdSecretCertificateKey with
              | None => inr (api.Errorf "Expected secret %q to have a field named %q"
                               [fluentd.SplunkFluentdCertificateSecretName;
                                fluentd.SplunkFluentdSecretCertificateKey])
              | Some certificate =>
                  inl (Some {| fluentd.Token := token; fluentd.Certificate := certificate |})
              end
          end
      end
  end.

(** [getFluentdFilters]. *)
Definition getFluentdFilters (c : Client) : api.result (option fluentd.FluentdFilters) :=
  match GetConfigMap c fluentd.FluentdFilterConfigMapName with
  | inr err =>
      if api.IsNotFound err then inl None
      else inr (api.Errorf "Failed to read ConfigMap %q: %s"
                  [fluentd.FluentdFilterConfigMapName; api.Error err])
  | inl data =>
      inl (Some {| fluentd.Flow := default EmptyString (data !! fluentd.FluentdFilterFlowName);
                   fluentd.DNS := default EmptyString (data !! fluentd.FluentdFilterDNSName) |})
  end.

(** [getEksCloudwatchLogConfig]. *)
Definition getEksCloudwatchLogConfig (c : Client) (interval : Z) (region group pre : string)
  : api.result (option fluentd.EksCloudwatchLogConfig) :=
  if (String.length region =? 0)%nat then inr (api.Errorf "Missing AWS region info" [])
  else if (String.length group =? 0)%nat
  then inr (api.Errorf "Missing Cloudwatch log group name" [])
  else
    let pre := if (String.length pre =? 0)%nat then "kube-apiserver-audit-" else pre in
    let interval := if interval =? 0 then 60 else interval in
    match GetSecret c fluentd.EksLogForwarderSecret with
    | inr err =>
        if api.IsNotFound err then inl None
        else inr (api.Errorf "Failed to read Secret %q: %s"
                    [fluentd.EksLogForwarderSecret; api.Error err])
    | inl data =>
        let awsId := default EmptyString (data !! fluentd.EksLogForwarderAwsId) in
        let awsKey := default EmptyString (data !! fluentd.EksLogForwarderAwsKey) in
        if (String.length awsId =? 0)%nat || (String.length awsKey =? 0)%nat
        then inr (api.Errorf "Incomplete Cloudwatch credentials" [])
        else inl (Some {| fluentd.AwsId := awsId; fluentd.AwsKey := awsKey;
                          fluentd.AwsRegion := region; fluentd.GroupName := group;
                          fluentd.StreamPrefix := pre; fluentd.FetchInterval := interval |})
    end.

(** [hasWindowsNodes]. *)
Definition hasWindowsNodes (c : Client) : api.result bool :=
  match ListWindowsNodes c with
  | inr err => inr err
  | inl n => inl (0 <? n)%nat
  end.

Definition hasIDSEvents (l : list operatorv1.SyslogLogType) : bool :=
  existsb (fun t => match t with operatorv1.SyslogLogIDSEvents => true | _ => false end) l.

Definition withImage (c : fluentd.fluentdComponent) (img : string) : fluentd.fluentdComponent :=
  {| fluentd.cfg := fluentd.cfg c; fluentd.image := img;
     fluentd.probeTimeout := fluentd.probeTimeout c;
     fluentd.probePeriod := fluentd.probePeriod c |}.

(** The loop [for _, comp := range components] over the calls of
    [handler.CreateOrUpdateOrDelete]. *)
Fixpoint applyAll (w : World) (components : list Component) : Exec unit :=
  match components with
  | [] => mret tt
  | comp :: components' =>
      _ ← emit (Applied comp);
      match CreateOrUpdateOrDelete w comp with
      | Some err =>
          degraded "Error creating / updating resource" (api.Error err) Result_zero (Some err)
      | None => applyAll w components'
      end
  end.

(** [Reconcile], first part: fetch the LogCollector instance and set its
    defaults. *)
Definition fetchInstance (w : World) : Exec operatorv1.LogCollector :=
  (* Fetch the LogCollector instance *)
  instance ← try (GetLogCollector w) (fun err =>
    if api.IsNotFound err then
      _ ← emit OnCRNotFound; return_ Result_zero None
    else degraded "Error querying for LogCollector" (api.Error err) Result_zero (Some err));
  _ ← emit OnCRFound;
  (* Default fields on the LogCollector instance if needed. *)
  let '(instance, modifiedFields) := fillDefaults instance in
  _ ← (if (0 <? length modifiedFields)%nat then
         _ ← emit (Patched instance);
         match Patch (client w) instance with
         | Some err =>
             degraded
               ("Failed to set defaults for LogCollector fields: ["
                +:+ golang.Join modifiedFields ", " +:+ "]")
               (api.Error err) Result_zero (Some err)
         | None => mret tt
         end
       else mret tt);
  mret instance.

(** [Reconcile], second part: the prerequisites. It yields the license. *)
Definition prerequisites (w : World) : Exec string :=
  _ ← (if negb (IsAPIServerReady w)
       then degraded "Waiting for Tigera API server to be ready" EmptyString Result_zero None
       else mret tt);
  (* Validate that the tier watch is ready before querying the tier. *)
  _ ← (if negb (tierWatchReady w)
       then degraded "Waiting for Tier watch to be established" EmptyString
              (RequeueAfter_ (10 * Second)) None
       else mret tt);
  (* Ensure the allow-tigera tier exists. *)
  _ ← match GetTier (client w) with
      | Some err =>
          if api.IsNotFound err
          then degraded "Waiting for allow-tigera tier to be created" (api.Error err)
                 (RequeueAfter_ (10 * Second)) None
          else degraded "Error querying allow-tigera tier" (api.Error err)
                 Result_zero (Some err)
      | None => mret tt
      end;
  _ ← (if negb (licenseAPIReady w)
       then degraded "Waiting for LicenseKeyAPI to be ready" EmptyString
              (RequeueAfter_ (10 * Second)) None
       else mret tt);
  try (FetchLicenseKey w) (fun err =>
    if api.IsNotFound err
    then degraded "License not found" (api.Error err) (RequeueAfter_ (10 * Second)) None
    else degraded "Error querying license" (api.Error err) (RequeueAfter_ (10 * Second)) None).

(** [Reconcile], third part: gather what the renderer needs, render, apply
    and report. *)
Definition renderAndApply (w : World) (instance : operatorv1.LogCollector)
  (license : string) : Exec Outcome :=
  (* Fetch the Installation instance. *)
  '(variant, installation) ← try (GetInstallation w) (fun err =>
    if api.IsNotFound err
    then degraded "Installation not found" (api.Error err) Result_zero (Some err)
    else degraded "Error querying installation" (api.Error err) Result_zero (Some err));
  esClusterConfig ← try (GetElasticsearchClusterConfig w) (fun err =>
    if api.IsNotFound err
    then degraded
           "Elasticsearch cluster configuration is not available, waiting for it to become available"
           (api.Error err) Result_zero None
    else degraded "Failed to get the elasticsearch cluster configuration" (api.Error err)
           Result_zero (Some err));
  pullSecrets ← try (GetNetworkingPullSecrets w) (fun err =>
    degraded "Error retrieving pull secrets" (api.Error err) Result_zero (Some err));
  esSecrets ← try (ElasticsearchSecrets w) (fun err =>
    if api.IsNotFound err
    then degraded
           "Elasticsearch secrets are not available yet, waiting until they become available"
           (api.Error err) (RequeueAfter_ (5 * Second)) None
    else degraded "Failed to get Elasticsearch credentials" (api.Error err)
           Result_zero (Some err));
  _ ← match CertificateManagerCreate w with
      | Some err => degraded "Unable to create the Tigera CA" (api.Error err)
                      Result_zero (Some err)
      | None => mret tt
      end;
  fluentdPrometheusTLS ← try (GetOrCreateKeyPair w) (fun err =>
    degraded "Error creating TLS certificate" (api.Error err) Result_zero (Some err));
  prometheusCertificate ← try (GetPrometheusCertificate w) (fun err =>
    degraded "Failed to get certificate" (api.Error err) Result_zero (Some err));
  prometheusCertificate ← match prometheusCertificate with
    | None =>
        degraded
          "Prometheus secrets are not available yet, waiting until they become available"
          EmptyString (RequeueAfter_ (5 * Second)) None
    | Some cert => mret cert
    end;
  esgwCertificate ← try (GetESGatewayCertificate w) (fun err =>
    degraded ("Failed to retrieve / validate  " +:+ PublicCertSecret w) (api.Error err)
      Result_zero (Some err));
  esgwCertificate ← match esgwCertificate with
    | None =>
        degraded
          "Elasticsearch gateway certificate are not available yet, waiting until they become available"
          EmptyString Result_zero None
    | Some cert => mret cert
    end;
  let trustedBundle := CreateTrustedBundle w prometheusCertificate esgwCertificate in
  _ ← emit AddToStatusManager;
  let spec := operatorv1.LogCollectorSpec_ instance in
  let exportLogs := IsFeatureActive w license in
  (* err is still the nil of the last call here. *)
  _ ← (if negb exportLogs && bool_decide (is_Some (operatorv1.AdditionalStores spec))
       then degraded "Feature is not active" "License does not support feature: export-logs"
              Result_zero None
       else mret tt);
  let wantsS3 :=
    match operatorv1.AdditionalStores spec with
    | Some stores => bool_decide (is_Some (operatorv1.S3 stores))
    | None => false
    end in
  s3Credential ←
    (if wantsS3 then
       cred ← try (getS3Credential (client w)) (fun err =>
         degraded "Error with S3 credential secret" (api.Error err) Result_zero (Some err));
       match cred with
       | None => degraded "S3 credential secret does not exist" EmptyString Result_zero None
       | Some _ => mret cred
       end
     else mret None);
  let wantsSplunk :=
    match operatorv1.AdditionalStores spec with
    | Some stores => bool_decide (is_Some (operatorv1.Splunk stores))
    | None => false
    end in
  splunkCredential ←
    (if wantsSplunk then
       cred ← try (getSplunkCredential (client w)) (fun err =>
         degraded "Error with Splunk credential secret" (api.Error err) Result_zero (Some err));
       match cred with
       | None => degraded "Splunk credential secret does not exist" EmptyString Result_zero None
       | Some _ => mret cred
       end
     else mret None);
  (* Try to grab the ManagementClusterConnection CR. *)
  let '(managementClusterConnection, err) := GetManagementClusterConnection w in
  _ ← match err with
      | Some e =>
          if negb (api.IsNotFound e)
          then degraded "An error occurred while looking for a ManagementClusterConnection"
                 (api.Error e) Result_zero (Some e)
          else mret tt
      | None => mret tt
      end;
  let managedCluster := bool_decide (is_Some managementClusterConnection) in
  _ ← match operatorv1.AdditionalStores spec with
      | Some stores =>
          match operatorv1.Syslog stores with
          | Some syslog =>
              match operatorv1.LogTypes syslog with
              | Some logTypes =>
                  if bool_decide (err = None) && managedCluster && hasIDSEvents logTypes
                  then degraded
                         "IDSEvents option is not supported for Syslog config in a managed cluster"
                         EmptyString Result_zero err
                  else mret tt
              | None => mret tt
              end
          | None => mret tt
          end
      | None => mret tt
      end;
  filters ← try (getFluentdFilters (client w)) (fun err =>
    degraded "Error retrieving Fluentd filters" (api.Error err) Result_zero (Some err));
  eksConfig ←
    match operatorv1.KubernetesProvider installation with
    | operatorv1.ProviderEKS =>
        match operatorv1.AdditionalSources spec with
        | Some sources =>
            match operatorv1.EksCloudwatchLog sources with
            | Some eks =>
                try (getEksCloudwatchLogConfig (client w)
                       (operatorv1.FetchInterval eks) (operatorv1.Region eks)
                       (operatorv1.GroupName eks) (operatorv1.StreamPrefix eks))
                  (fun err =>
                     degraded "Error retrieving EKS Cloudwatch Logs configuration"
                       (api.Error err) Result_zero (Some err))
            | None => mret None
            end
        | None => mret None
        end
    | _ => mret None
    end;
  let fluentdCfg :=
    {| fluentd.LogCollector := instance;
       fluentd.ESSecrets := esSecrets;
       fluentd.ESClusterConfig := esClusterConfig;
       fluentd.S3Credential_ := s3Credential;
       fluentd.SplkCredential := splunkCredential;
       fluentd.Filters := filters;
       fluentd.EKSConfig := eksConfig;
       fluentd.PullSecrets := pullSecrets;
       fluentd.Installation := installation;
       fluentd.ClusterDomain := clusterDomain w;
       fluentd.OSType_ := fluentd.OSTypeLinux;
       fluentd.MetricsServerTLS := Some fluentdPrometheusTLS;
       fluentd.TrustedBundle := trustedBundle;
       fluentd.ManagedCluster := managedCluster;
       fluentd.UsePSP := usePSP w |} in
  (* Render the fluentd component for Linux *)
  let comp := fluentd.Fluentd fluentdCfg in
  _ ← emit (ImageSetApplied fluentd.OSTypeLinux);
  img ← try (ApplyImageSet w comp) (fun err =>
    degraded "Error with images from ImageSet" (api.Error err) Result_zero (Some err));
  let comp := withImage comp img in
  let components :=
    [ FluentdComponent comp; CertificateManagement fluentdPrometheusTLS trustedBundle ] in
  _ ← applyAll w components;
  (* Render a fluentd component for Windows if the cluster has Windows nodes. *)
  hasWindows ← try (hasWindowsNodes (client w)) (fun err => return_ Result_zero (Some err));
  _ ← (if (hasWindows : bool) then
         let fluentdCfg :=
           {| fluentd.LogCollector := instance;
              fluentd.ESSecrets := esSecrets;
              fluentd.ESClusterConfig := esClusterConfig;
              fluentd.S3Credential_ := s3Credential;
              fluentd.SplkCredential := splunkCredential;
              fluentd.Filters := filters;
              fluentd.EKSConfig := eksConfig;
              fluentd.PullSecrets := pullSecrets;
              fluentd.Installation := installation;
              fluentd.ClusterDomain := clusterDomain w;
              fluentd.OSType_ := fluentd.OSTypeWindows;
              fluentd.MetricsServerTLS := None;
              fluentd.TrustedBundle := trustedBundle;
              fluentd.ManagedCluster := managedCluster;
              fluentd.UsePSP := usePSP w |} in
         let comp := fluentd.Fluentd fluentdCfg in
         _ ← emit (ImageSetApplied fluentd.OSTypeWindows);
         img ← try (ApplyImageSet w comp) (fun err =>
           degraded "Error with images from ImageSet" (api.Error err) Result_zero (Some err));
         applyAll w [FluentdComponent (withImage comp img)]
       else mret tt);
  (* Clear the degraded bit if we've reached this far. *)
  _ ← emit ClearDegraded;
  if negb (IsAvailable w) then return_ (RequeueAfter_ (30 * Second)) None
  else
    (* Everything is available - update the CR status. *)
    let instance :=
      {| operatorv1.LogCollectorSpec_ := operatorv1.LogCollectorSpec_ instance;
         operatorv1.State := "Ready" |} in
    _ ← emit (StatusUpdated instance);
    match StatusUpdate (client w) instance with
    | Some err => return_ Result_zero (Some err)
    | None => return_ Result_zero None
    end.

(** The body of [Reconcile]. *)
Definition reconcile (w : World) : Exec Outcome :=
  instance ← fetchInstance w;
  license ← prerequisites w;
  renderAndApply w instance license.

(** [(r *ReconcileLogCollector).Reconcile]: the events of the run and the
    values returned. *)
Definition Reconcile (w : World) : list Event * Outcome :=
  match reconcile w [] with
  | (t, inl o) => (t, o)
  | (t, inr o) => (t, o)
  end.

End logcollector.

(** ** Specification vocabulary *)

Module spec.

(** A heap size in bytes, over the rationals: half of the quantity [q],
    rounded down to a multiple of 1024, kept between 2 MiB and 26 GiB. *)
Definition half_rounded_down_to_1024 (q : resource.Quantity) : Z :=
  1024 * Qfloor (inf.value (resource.AsDec q) / 2 / 1024).

Definition clamp (lo hi z : Z) : Z :=
  if z <? lo then lo else if hi <? z then hi else z.

Definition jvm_heap_bytes (q : resource.Quantity) : Z :=
  clamp 2097152 27917287424 (half_rounded_down_to_1024 q).

(** The unit letter the JVM reads for [1024^e] bytes, for the exponents a
    heap size can have. *)
Definition unitLetter (e : Z) : string :=
  match e with
  | 1 => "K"
  | 2 => "M"
  | _ => "G"
  end.

(** The 64-bit FNV-1a hash of a byte string, as it is defined: start from
    the offset basis; for each byte, xor it in and multiply by the FNV
    prime modulo 2^64. *)
Definition fnv1a_64 (data : list Byte.byte) : Z :=
  fold_left (fun h c => (Z.lxor h (Z.of_N (Byte.to_N c)) * fnv.prime64) mod 2 ^ 64)
    data fnv.offset64.

(** The [n] low hexadecimal digits of [v], most significant first, in lower
    case. *)
Fixpoint hexDigits (n : nat) (v : Z) : string :=
  match n with
  | O => EmptyString
  | S n' => String (hex.hextable ((v / 16 ^ Z.of_nat n') mod 16)) (hexDigits n' v)
  end.

(** The hexadecimal encoding of a 64-bit number. *)
Definition hex64 (v : Z) : string := hexDigits 16 v.

(** The sum of the node counts of a list of NodeSets. *)
Definition sumCounts (sets : list esv1.NodeSet) : Z :=
  foldr Z.add 0 (esv1.Count <$> sets).

(** An even distribution of [N] nodes over [K] configured NodeSets: the
    counts add up to [N]; the NodeSet at index [i] holds [N/K + 1] nodes
    when [i < N mod K] and [N/K] nodes otherwise; none holds fewer than
    one. *)
Definition evenly_distributed (N K : Z) (sets : list esv1.NodeSet) : Prop :=
  sumCounts sets = N
  /\ (forall (i : nat) (ns : esv1.NodeSet), sets !! i = Some ns ->
        esv1.Count ns = if Z.of_nat i <? N mod K then N / K + 1 else N / K)
  /\ (forall ns : esv1.NodeSet, ns ∈ sets -> 1 <= esv1.Count ns).

Section Writes.
Import render.

Definition fipsEnabled (es : elasticsearchComponent) : bool :=
  operatorv1.IsFIPSModeEnabled (operatorv1.FIPSMode_ (Installation (cfg es))).

(** The one write [Objects] makes: the Java options stored in the keystore
    secret of the configuration. *)
Definition writesJavaOpts (es es' : elasticsearchComponent) : Prop :=
  exists ks opts,
    ManagementClusterConnection (cfg es) = None
    /\ fipsEnabled es = true
    /\ KeyStoreSecret (cfg es) = Some ks
    /\ javaOpts es = Some opts
    /\ es' = setKeyStoreData es ks "ES_JAVA_OPTS" opts.

(** The Data of the keystore secret, empty when there is none. *)
Definition keyStoreData (es : elasticsearchComponent) : gmap string string :=
  match KeyStoreSecret (cfg es) with
  | Some ks => corev1.Data ks
  | None => ∅
  end.

End Writes.

Section Discovery.
Import utils.

(** What it means for the cluster to show a provider. *)
Definition configMapExists (c : Clientset) (name : string) : Prop :=
  exists cm, GetKubeSystemConfigMap c name = inl (Some cm).

Definition detected (c : Clientset) (p : operatorv1.Provider) : Prop :=
  match p with
  | operatorv1.ProviderOpenShift =>
      exists groups, ServerGroups c = inl groups /\ "config.openshift.io" ∈ groups
  | operatorv1.ProviderGKE =>
      exists groups, ServerGroups c = inl groups /\ "networking.gke.io" ∈ groups
  | operatorv1.ProviderDockerEE =>
      exists items labels key val,
        MasterNodes c = inl items /\ labels ∈ items /\ labels !! key = Some val
        /\ golang.HasPrefix key "com.docker.ucp" = true
  | operatorv1.ProviderEKS => configMapExists c "eks-certificates-controller"
  | operatorv1.ProviderRKE2 => configMapExists c "rke2"
  | _ => False
  end.

(** No query fails: the group and node lists are returned, and each
    ConfigMap is either returned or reported as not found. *)
Definition answered (c : Clientset) (name : string) : Prop :=
  match GetKubeSystemConfigMap c name with
  | inl _ => True
  | inr err => api.IsNotFound err = true
  end.

Definition queriesSucceed (c : Clientset) : Prop :=
  (exists groups, ServerGroups c = inl groups)
  /\ (exists items, MasterNodes c = inl items)
  /\ answered c "eks-certificates-controller"
  /\ answered c "rke2".

(** The discovery document names each API group once. *)
Definition groupsListedOnce (c : Clientset) : Prop :=
  forall groups, ServerGroups c = inl groups -> NoDup groups.

(** A provider, listed when its test is positive. *)
Definition optional (b : bool) (p : operatorv1.Provider) : list operatorv1.Provider :=
  if b then [p] else [].

End Discovery.

Section Reconciling.
Import logcollector.

(** The prerequisites of rendering. *)
Definition gatesPass (w : World) : Prop :=
  IsAPIServerReady w = true
  /\ tierWatchReady w = true
  /\ GetTier (client w) = None
  /\ licenseAPIReady w = true
  /\ exists license, FetchLicenseKey w = inl license.

(** Some rendered component was handed to CreateOrUpdateOrDelete. *)
Definition applies (t : list Event) : Prop := exists comp, Applied comp ∈ t.

(** The last thing the run did was to set a degraded status. *)
Definition endsDegraded (t : list Event) : Prop :=
  exists reason msg, last t = Some (SetDegraded reason msg).

(** The run gets as far as the prerequisites: the instance was fetched and
    its defaults, if any, were saved. *)
Definition reachesPrerequisites (w : World) : Prop :=
  exists t instance, fetchInstance w [] = (t, inl instance).

(** The four reasons to come back in ten seconds, each with the
    prerequisites before it met. *)
Definition mustWait (w : World) : Prop :=
  tierWatchReady w = false
  \/ (tierWatchReady w = true
      /\ exists err, GetTier (client w) = Some err /\ api.IsNotFound err = true)
  \/ (tierWatchReady w = true /\ GetTier (client w) = None /\ licenseAPIReady w = false)
  \/ (tierWatchReady w = true /\ GetTier (client w) = None /\ licenseAPIReady w = true
      /\ exists err, FetchLicenseKey w = inr err /\ api.IsNotFound err = true).

(** Every event but a call of CreateOrUpdateOrDelete. *)
Definition notApplied (e : Event) : Prop :=
  match e with
  | Applied _ => False
  | _ => True
  end.

End Reconciling.

End spec.

(** ** Sample inputs *)

Module samples.

Definition installation (fips : option operatorv1.FIPSMode) : operatorv1.InstallationSpec :=
  {| operatorv1.KubernetesProvider := operatorv1.ProviderNone;
     operatorv1.FIPSMode_ := fips;
     operatorv1.CertificateManagement := None;
     operatorv1.Registry := "quay.io/";
     operatorv1.ImagePath := "tigera";
     operatorv1.ImagePrefix := EmptyString |}.

(** A LogStorage asking for [n] nodes over [k] NodeSets without selection
    attributes. *)
Definition nodes (n : Z) (k : nat) : operatorv1.Nodes :=
  {| operatorv1.Count := n;
     operatorv1.NodeSets := repeat {| operatorv1.SelectionAttributes := None |} k;
     operatorv1.ResourceRequirements := None |}.

Definition logStorage (deletion : option Z) (n : Z) (k : nat) : operatorv1.LogStorage :=
  {| operatorv1.DeletionTimestamp := deletion;
     operatorv1.Spec :=
       {| operatorv1.Nodes_ := Some (nodes n k);
          operatorv1.StorageClassName := "tigera-elasticsearch";
          operatorv1.Rest := EmptyString |} |}.

Definition keyStoreSecret : corev1.Secret :=
  {| corev1.SecretName := render.ElasticsearchKeystoreSecret;
     corev1.SecretNamespace := "tigera-operator";
     corev1.Data := {[ render.ElasticsearchKeystoreEnvName := "s3cr3t" ]} |}.

Definition configuration (ls : option operatorv1.LogStorage)
  (fips : option operatorv1.FIPSMode) (ks : option corev1.Secret)
  (es : option eck.Elasticsearch) (kb : option eck.Kibana)
  : render.ElasticsearchConfiguration :=
  {| render.LogStorage_ := ls;
     render.Installation := installation fips;
     render.ManagementCluster := None;
     render.ManagementClusterConnection := None;
     render.Elasticsearch := es;
     render.Kibana := kb;
     render.ClusterConfig := "cluster";
     render.ElasticsearchUserSecret := None;
     render.ElasticsearchKeyPair :=
       {| render.KeyPairName := "tigera-secure-elasticsearch-cert";
          render.UseCertificateManagement := false |};
     render.KibanaKeyPair := None;
     render.PullSecrets := [];
     render.Provider := operatorv1.ProviderNone;
     render.CuratorSecrets := [];
     render.ESService := None;
     render.KbService := None;
     render.ClusterDomain := "cluster.local";
     render.BaseURL := EmptyString;
     render.ElasticLicenseType := "basic";
     render.TrustedBundle := "tigera-ca-bundle";
     render.UnusedTLSSecret := None;
     render.ApplyTrial := false;
     render.KeyStoreSecret := ks;
     render.UsePSP := false |}.

(** A component that renders [n] nodes over [k] NodeSets. *)
Definition component (n : Z) (k : nat) : render.elasticsearchComponent :=
  render.LogStorage (configuration (Some (logStorage None n k)) None None None None).

(** A stand-in for json.Marshal that succeeds with the storage class name
    as its bytes. *)
Definition marshal (pvc : corev1.PersistentVolumeClaim) : option (list Byte.byte) :=
  Some (list_byte_of_string (corev1.StorageClassName pvc)).

(** A component in FIPS mode with a keystore secret. *)
Definition fipsComponent : render.elasticsearchComponent :=
  render.LogStorage
    (configuration (Some (logStorage None 3 0))
       (Some operatorv1.FIPSModeEnabled) (Some keyStoreSecret) None None).

(** A component whose LogStorage is being deleted, with an Elasticsearch
    still present and a Kibana already on its way out. *)
Definition finalizingComponent : render.elasticsearchComponent :=
  render.LogStorage
    (configuration (Some (logStorage (Some 1700000000) 3 0)) None None
       (Some {| eck.EsDeletionTimestamp := None; eck.EsGeneration := 4 |})
       (Some {| eck.KbDeletionTimestamp := Some 1700000001; eck.KbGeneration := 2 |})).

(** The defaults of [resourceRequirements]. *)
Definition defaultRequirements : corev1.ResourceRequirements :=
  {| corev1.Limits := {[ "cpu" := render.MustParse_1; "memory" := render.MustParse_4Gi ]};
     corev1.Requests :=
       {[ "cpu" := render.MustParse_250m; "memory" := render.MustParse_4Gi ]} |}.

(** A user override that sets only a cpu limit, of 100m. *)
Definition MustParse_100m : resource.Quantity := render.quantity 100 (-3) resource.DecimalSI.

Definition cpuLimitOnly : corev1.ResourceRequirements :=
  {| corev1.Limits := {[ "cpu" := MustParse_100m ]}; corev1.Requests := ∅ |}.

(** A cluster answering the discovery queries: its API groups, the labels
    of its master nodes, and whether the two ConfigMaps exist. *)
Definition sampleClientset (groups : list string) (nodes : list (gmap string string))
  (eks rke2 : bool) : utils.Clientset :=
  {| utils.ServerGroups := inl groups;
     utils.MasterNodes := inl nodes;
     utils.GetKubeSystemConfigMap := fun name =>
       if String.eqb name "eks-certificates-controller" then
         if eks then inl (Some ∅) else inr (api.StatusError true "configmaps not found")
       else if String.eqb name "rke2" then
         if rke2 then inl (Some ∅) else inr (api.StatusError true "configmaps not found")
       else inr (api.StatusError true "configmaps not found") |}.

(** An OpenShift cluster whose discovery document lists the group twice. *)
Definition repeatedGroupClientset : utils.Clientset :=
  sampleClientset ["config.openshift.io"; "apps"; "config.openshift.io"] [] false false.

Definition eksClientset : utils.Clientset :=
  sampleClientset ["apps"; "batch"] [{[ "node-role.kubernetes.io/master" := EmptyString ]}] true false.

Section Worlds.
Import logcollector.

Definition sampleInstance : operatorv1.LogCollector :=
  {| operatorv1.LogCollectorSpec_ :=
       {| operatorv1.AdditionalStores := None;
          operatorv1.AdditionalSources := None;
          operatorv1.CollectProcessPath := Some operatorv1.CollectProcessPathEnable |};
     operatorv1.State := EmptyString |}.

Definition notFound : api.error := api.StatusError true "not found".

(** A cluster in which everything [Reconcile] asks for is there, except for
    what the four arguments say about the prerequisites. *)
Definition sampleWorld (tierWatch : bool) (tier : option api.error) (licenseAPI : bool)
  (license : api.result string) : World :=
  {| client :=
       {| GetInstance := inl sampleInstance;
          Patch := fun _ => None;
          GetTier := tier;
          GetSecret := fun _ => inr notFound;
          GetConfigMap := fun _ => inr notFound;
          ListWindowsNodes := inl 0%nat;
          StatusUpdate := fun _ => None |};
     clusterDomain := "cluster.local";
     usePSP := false;
     tierWatchReady := tierWatch;
     licenseAPIReady := licenseAPI;
     ParseEndpoint := fun _ => None;
     IsAPIServerReady := true;
     FetchLicenseKey := license;
     IsFeatureActive := fun _ => true;
     GetInstallation := inl ("TigeraSecureEnterprise", installation None);
     GetElasticsearchClusterConfig := inl "cluster";
     GetNetworkingPullSecrets := inl [];
     ElasticsearchSecrets := inl [];
     CertificateManagerCreate := None;
     GetOrCreateKeyPair :=
       inl {| render.KeyPairName := fluentd.FluentdPrometheusTLSSecretName;
              render.UseCertificateManagement := false |};
     GetPrometheusCertificate := inl (Some "prometheus-client-tls");
     GetESGatewayCertificate := inl (Some "es-gateway-public");
     PublicCertSecret := "tigera-secure-es-gateway-http-certs-public";
     CreateTrustedBundle := fun a b => a +:+ "," +:+ b;
     GetManagementClusterConnection := (None, Some notFound);
     ApplyImageSet := fun _ => inl "quay.io/tigera/fluentd";
     CreateOrUpdateOrDelete := fun _ => None;
     IsAvailable := true |}.

Definition readyWorld : World := sampleWorld true None true (inl "license").
Definition noLicenseWorld : World := sampleWorld true None true (inr notFound).

End Worlds.

End samples.

(** ** pkg/render/fluentd.go: the pod of the fluentd daemonset *)

Module fluentd_pod.
Import fluentd.

Definition fluentdDefaultFlush : string := "5s".
Definition SplunkFluentdSecretsVolName : string := "splunk-certificates".
Definition SplunkFluentdDefaultCertDir : string := "/etc/ssl/splunk/".
Definition SplunkFluentdDefaultCertPath : string :=
  SplunkFluentdDefaultCertDir +:+ SplunkFluentdSecretCertificateKey.
Definition FluentdMetricsPort : Z := 9081.
Definition probeFailureThreshold : Z := 3.
Definition startupProbeFailureThreshold : Z := 10.

(** [corev1.EnvVar]: a literal value, or a reference to a field of the pod
    or to a key of a secret. *)
Inductive EnvVarSource : Type :=
  | FieldRef (fieldPath : string)
  | SecretKeyRef (name key : string).

Record EnvVar : Type :=
  { Name : string; Value : string; ValueFrom : option EnvVarSource }.

Definition env (name value : string) : EnvVar :=
  {| Name := name; Value := value; ValueFrom := None |}.

Definition envFrom (name : string) (source : EnvVarSource) : EnvVar :=
  {| Name := name; Value := EmptyString; ValueFrom := Some source |}.

(** [corev1.Probe] with an exec action. *)
Record Probe : Type :=
  { Command : list string;
    TimeoutSeconds : Z;                               (* int32 *)
    PeriodSeconds : Z;                                (* int32 *)
    FailureThreshold : Z }.

Record VolumeMount : Type :=
  { MountName : string; MountPath : string; SubPath : string }.

(** [corev1.VolumeSource], for the sources set in this file; items are
    (key, path) pairs. *)
Inductive VolumeSource : Type :=
  | HostPathDirectoryOrCreate (path : string)
  | ConfigMapSource (name : string) (items : list (string * string))
  | SecretSource (secretName : string) (items : list (string * string))
  | OtherSource (description : string).

Record Volume : Type := { VolumeName : string; Source : VolumeSource }.

Record Container : Type :=
  { ContainerName : string;
    Image : string;
    Env : list EnvVar;
    Privileged : bool;
    VolumeMounts : list VolumeMount;
    StartupProbe : Probe;
    LivenessProbe : Probe;
    ReadinessProbe : Probe;
    Ports : list (string * Z) }.

(** What the renderer takes from other packages and from the parts of the
    LogCollector spec that [operatorv1] above keeps opaque. *)
Record Externals : Type :=
  { (** the fields of S3StoreSpec and SplunkStoreSpec, and the PacketSize
        of SyslogStoreSpec (a pointer) *)
    BucketName : string -> string;
    Region : string -> string;
    BucketPath : string -> string;
    SplunkEndpoint : string -> string;
    PacketSize : operatorv1.SyslogStoreSpec -> option Z;
    (** [url.ParseEndpoint]: proto, host and port; its error is dropped *)
    ParseEndpoint : string -> string * string * string;
    (** the methods of relasticsearch.ClusterConfig *)
    ClusterName : string -> string;
    Replicas : string -> Z;
    Shards : string -> Z;
    FlowShards : string -> Z;
    (** certificatemanagement: the trusted bundle and the key pair *)
    TrustedCertConfigMapName : string;
    TrustedCertConfigMapKeyName : string;
    BundleMountPath : string -> string;
    BundleVolume : string -> Volume;
    BundleVolumeMount : string -> OSType -> VolumeMount;
    VolumeMountKeyFilePath : render.KeyPair -> string;
    VolumeMountCertificateFilePath : render.KeyPair -> string;
    KeyPairVolume : render.KeyPair -> Volume;
    KeyPairVolumeMount : render.KeyPair -> OSType -> VolumeMount;
    (** [relasticsearch.ContainerDecorateENVVars] *)
    ContainerDecorateENVVars :
      Container -> string -> string -> string -> OSType -> Container }.

Section Pod.

Variable x : Externals.

(** [c.readinessCmd()] and [c.livenessCmd()]. *)
Definition readinessCmd (c : fluentdComponent) : list string :=
  match OSType_ (cfg c) with
  | OSTypeWindows => ["c:\ruby\msys64\usr\bin\bash.exe"; "-lc"; "/c/bin/readiness.sh"]
  | OSTypeLinux => ["sh"; "-c"; "/bin/readiness.sh"]
  end.

Definition livenessCmd (c : fluentdComponent) : list string :=
  match OSType_ (cfg c) with
  | OSTypeWindows => ["c:\ruby\msys64\usr\bin\bash.exe"; "-lc"; "/c/bin/liveness.sh"]
  | OSTypeLinux => ["sh"; "-c"; "/bin/liveness.sh"]
  end.

(** [c.volumeHostPath()]. *)
Definition volumeHostPath (c : fluentdComponent) : string :=
  match OSType_ (cfg c) with
  | OSTypeWindows => "c:/TigeraCalico"
  | OSTypeLinux => "/var/log/calico"
  end.

(** [c.path(path)]: the c: prefix on Windows. *)
Definition path (c : fluentdComponent) (p : string) : string :=
  match OSType_ (cfg c) with
  | OSTypeWindows => "c:" +:+ p
  | OSTypeLinux => p
  end.

(** [c.startup()], [c.liveness()] and [c.readiness()]. *)
Definition startup (c : fluentdComponent) : Probe :=
  {| Command := livenessCmd c;
     TimeoutSeconds := golang.int32 (probeTimeout c * 2);
     PeriodSeconds := golang.int32 (probePeriod c * 2);
     FailureThreshold := startupProbeFailureThreshold |}.

Definition liveness (c : fluentdComponent) : Probe :=
  {| Command := livenessCmd c;
     TimeoutSeconds := probeTimeout c;
     PeriodSeconds := probePeriod c;
     FailureThreshold := probeFailureThreshold |}.

Definition readiness (c : fluentdComponent) : Probe :=
  {| Command := readinessCmd c;
     TimeoutSeconds := probeTimeout c;
     PeriodSeconds := probePeriod c;
     FailureThreshold := probeFailureThreshold |}.

(** The body of the loop over [syslog.LogTypes] in [envvars]. *)
Definition syslogLogTypeEnvs (t : operatorv1.SyslogLogType) : list EnvVar :=
  match t with
  | operatorv1.SyslogLogAudit =>
      [env "SYSLOG_AUDIT_EE_LOG" "true"; env "SYSLOG_AUDIT_KUBE_LOG" "true"]
  | operatorv1.SyslogLogDNS => [env "SYSLOG_DNS_LOG" "true"]
  | operatorv1.SyslogLogFlows => [env "SYSLOG_FLOW_LOG" "true"]
  | operatorv1.SyslogLogIDSEvents => [env "SYSLOG_IDS_EVENT_LOG" "true"]
  | operatorv1.SyslogLogOther _ => []
  end.

(** [c.envvars()]. [None] is a run-time panic: [SplkCredential] is read
    while nil when the Splunk store is set, or a method of the nil
    [MetricsServerTLS] is called off Windows. [LogCollector],
    [ESClusterConfig] and [TrustedBundle] are present at every call. *)
Definition envvars (c : fluentdComponent) : option (list EnvVar) :=
  let f := cfg c in
  let envs :=
    [ env "FLUENT_UID" "0";
      env "FLOW_LOG_FILE" (path c "/var/log/calico/flowlogs/flows.log");
      env "DNS_LOG_FILE" (path c "/var/log/calico/dnslogs/dns.log");
      env "FLUENTD_ES_SECURE" "true";
      envFrom "NODENAME" (FieldRef "spec.nodeName") ] in
  envs ←
    match operatorv1.AdditionalStores (operatorv1.LogCollectorSpec_ (LogCollector f)) with
    | Some stores =>
        let envs :=
          match operatorv1.S3 stores with
          | Some s3 =>
              envs ++
                [ envFrom "AWS_KEY_ID" (SecretKeyRef S3FluentdSecretName S3KeyIdName);
                  envFrom "AWS_SECRET_KEY" (SecretKeyRef S3FluentdSecretName S3KeySecretName);
                  env "S3_STORAGE" "true";
                  env "S3_BUCKET_NAME" (BucketName x s3);
                  env "AWS_REGION" (Region x s3);
                  env "S3_BUCKET_PATH" (BucketPath x s3);
                  env "S3_FLUSH_INTERVAL" fluentdDefaultFlush ]
          | None => envs
          end in
        let envs :=
          match operatorv1.Syslog stores with
          | Some syslog =>
              let '(proto, host, port) := ParseEndpoint x (operatorv1.Endpoint syslog) in
              let envs :=
                envs ++
                  [ env "SYSLOG_HOST" host;
                    env "SYSLOG_PORT" port;
                    env "SYSLOG_PROTOCOL" proto;
                    env "SYSLOG_FLUSH_INTERVAL" fluentdDefaultFlush;
                    envFrom "SYSLOG_HOSTNAME" (FieldRef "spec.nodeName") ] in
              let envs :=
                match PacketSize x syslog with
                | Some size => envs ++ [env "SYSLOG_PACKET_SIZE" (golang.itoa size)]
                | None => envs
                end in
              match operatorv1.LogTypes syslog with
              | Some logTypes => envs ++ concat (syslogLogTypeEnvs <$> logTypes)
              | None => envs
              end
          | None => envs
          end in
        match operatorv1.Splunk stores with
        | Some splunk =>
            let '(proto, host, port) := ParseEndpoint x (SplunkEndpoint x splunk) in
            let envs :=
              envs ++
                [ envFrom "SPLUNK_HEC_TOKEN"
                    (SecretKeyRef SplunkFluentdTokenSecretName SplunkFluentdSecretTokenKey);
                  env "SPLUNK_FLOW_LOG" "true";
                  env "SPLUNK_AUDIT_LOG" "true";
                  env "SPLUNK_DNS_LOG" "true";
                  env "SPLUNK_HEC_HOST" host;
                  env "SPLUNK_HEC_PORT" port;
                  env "SPLUNK_PROTOCOL" proto;
                  env "SPLUNK_FLUSH_INTERVAL" fluentdDefaultFlush ] in
            cred ← SplkCredential f;
            Some (if (String.length (Certificate cred) =? 0)%nat then envs
                  else envs ++ [env "SPLUNK_CA_FILE" SplunkFluentdDefaultCertPath])
        | None => Some envs
        end
    | None => Some envs
    end;
  let envs :=
    match Filters f with
    | Some filters =>
        let envs :=
          if (String.length (Flow filters) =? 0)%nat then envs
          else envs ++ [env "FLUENTD_FLOW_FILTERS" "true"] in
        if (String.length (DNS filters) =? 0)%nat then envs
        else envs ++ [env "FLUENTD_DNS_FILTERS" "true"]
    | None => envs
    end in
  let es := ESClusterConfig f in
  let envs :=
    envs ++
      [ env "ELASTIC_FLOWS_INDEX_REPLICAS" (golang.itoa (Replicas x es));
        env "ELASTIC_DNS_INDEX_REPLICAS" (golang.itoa (Replicas x es));
        env "ELASTIC_AUDIT_INDEX_REPLICAS" (golang.itoa (Replicas x es));
        env "ELASTIC_BGP_INDEX_REPLICAS" (golang.itoa (Replicas x es));
        env "ELASTIC_FLOWS_INDEX_SHARDS" (golang.itoa (FlowShards x es));
        env "ELASTIC_DNS_INDEX_SHARDS" (golang.itoa (Shards x es));
        env "ELASTIC_AUDIT_INDEX_SHARDS" (golang.itoa (Shards x es));
        env "ELASTIC_BGP_INDEX_SHARDS" (golang.itoa (Shards x es)) ] in
  match OSType_ f with
  | OSTypeWindows => Some envs
  | OSTypeLinux =>
      tls ← MetricsServerTLS f;
      Some (envs ++
              [ env "CA_CRT_PATH" (BundleMountPath x (TrustedBundle f));
                env "TLS_KEY_PATH" (VolumeMountKeyFilePath x tls);
                env "TLS_CRT_PATH" (VolumeMountCertificateFilePath x tls) ])
  end.

(** [trustedBundleVolume(bundle)]. Writing the items panics ([None]) when
    the volume of the bundle is not a ConfigMap volume. *)
Definition trustedBundleVolume (bundle : string) : option Volume :=
  let volume := BundleVolume x bundle in
  match Source volume with
  | ConfigMapSource name _ =>
      Some {| VolumeName := VolumeName volume;
              Source :=
                ConfigMapSource name
                  [ (TrustedCertConfigMapKeyName x, TrustedCertConfigMapKeyName x);
                    (TrustedCertConfigMapKeyName x, SplunkFluentdSecretCertificateKey) ] |}
  | _ => None
  end.

(** Whether the Splunk credential carries a certificate:
    [c.cfg.SplkCredential != nil && len(c.cfg.SplkCredential.Certificate) != 0]. *)
Definition hasSplunkCertificate (c : fluentdComponent) : bool :=
  match SplkCredential (cfg c) with
  | Some cred => negb (String.length (Certificate cred) =? 0)%nat
  | None => false
  end.

(** [c.volumes()]. *)
Definition volumes (c : fluentdComponent) : option (list Volume) :=
  let f := cfg c in
  let volumes :=
    [ {| VolumeName := "var-log-calico";
         Source := HostPathDirectoryOrCreate (volumeHostPath c) |} ] in
  let volumes :=
    match Filters f with
    | Some _ =>
        volumes ++
          [ {| VolumeName := "fluentd-filters";
               Source := ConfigMapSource FluentdFilterConfigMapName [] |} ]
    | None => volumes
    end in
  let volumes :=
    if hasSplunkCertificate c then
      volumes ++
        [ {| VolumeName := SplunkFluentdSecretsVolName;
             Source :=
               SecretSource SplunkFluentdCertificateSecretName
                 [ (SplunkFluentdSecretCertificateKey, SplunkFluentdSecretCertificateKey) ] |} ]
    else volumes in
  let volumes :=
    match MetricsServerTLS f with
    | Some tls => volumes ++ [KeyPairVolume x tls]
    | None => volumes
    end in
  bundle ← trustedBundleVolume (TrustedBundle f);
  Some (volumes ++ [bundle]).

(** The volume mounts that [c.container()] collects. *)
Definition volumeMounts (c : fluentdComponent) : list VolumeMount :=
  let f := cfg c in
  let volumeMounts :=
    [ {| MountName := "var-log-calico"; MountPath := path c "/var/log/calico";
         SubPath := EmptyString |};
      {| MountName := TrustedCertConfigMapName x; MountPath := path c "/etc/fluentd/elastic";
         SubPath := EmptyString |} ] in
  let volumeMounts :=
    match Filters f with
    | Some filters =>
        let volumeMounts :=
          if (String.length (Flow filters) =? 0)%nat then volumeMounts
          else volumeMounts ++
                 [ {| MountName := "fluentd-filters";
                      MountPath := path c "/etc/fluentd/flow-filters.conf";
                      SubPath := FluentdFilterFlowName |} ] in
        if (String.length (DNS filters) =? 0)%nat then volumeMounts
        else volumeMounts ++
               [ {| MountName := "fluentd-filters";
                    MountPath := path c "/etc/fluentd/dns-filters.conf";
                    SubPath := FluentdFilterDNSName |} ]
    | None => volumeMounts
    end in
  let volumeMounts :=
    if hasSplunkCertificate c then
      volumeMounts ++
        [ {| MountName := SplunkFluentdSecretsVolName;
             MountPath := path c SplunkFluentdDefaultCertDir;
             SubPath := EmptyString |} ]
    else volumeMounts in
  let volumeMounts := volumeMounts ++ [BundleVolumeMount x (TrustedBundle f) (OSType_ f)] in
  match MetricsServerTLS f with
  | Some tls => volumeMounts ++ [KeyPairVolumeMount x tls (OSType_ f)]
  | None => volumeMounts
  end.

(** [c.container()]. *)
Definition container (c : fluentdComponent) : option Container :=
  let f := cfg c in
  envs ← envvars c;
  let isPrivileged :=
    match operatorv1.KubernetesProvider (Installation f) with
    | operatorv1.ProviderOpenShift => true
    | _ => false
    end in
  Some (ContainerDecorateENVVars x
          {| ContainerName := "fluentd";
             Image := image c;
             Env := envs;
             Privileged := isPrivileged;
             VolumeMounts := volumeMounts c;
             StartupProbe := startup c;
             LivenessProbe := liveness c;
             ReadinessProbe := readiness c;
             Ports := [("metrics-port", FluentdMetricsPort)] |}
          (ClusterName x (ESClusterConfig f)) ElasticsearchLogCollectorUserSecret
          (ClusterDomain f) (OSType_ f)).

End Pod.

End fluentd_pod.

(** ** package utils: which controllers and policies the cluster calls for *)

Module discovery.

(** [clientset.Discovery()], by what it answers: the kinds of the API
    resources of a group version, or the error. *)
Record Clientset : Type :=
  { ServerResourcesForGroupVersion : string -> api.result (list string) }.

(** The switch of [RequiresTigeraSecure], whose cases all fall through to
    the last. *)
Definition isTigeraSecureKind (kind : string) : bool :=
  bool_decide (kind ∈ [ "LogCollector"; "LogStorage"; "AmazonCloudIntegration";
                        "Compliance"; "IntrusionDetection"; "ApplicationLayer";
                        "Monitor"; "ManagementCluster"; "ManagementClusterConnection" ]).

(** [RequiresTigeraSecure(cfg)]; [NewForConfig] is what
    [kubernetes.NewForConfig(cfg)] returns. *)
Definition RequiresTigeraSecure (NewForConfig : api.result Clientset) : bool * option api.error :=
  match NewForConfig with
  | inr err => (false, Some err)
  | inl clientset =>
      match ServerResourcesForGroupVersion clientset "operator.tigera.io/v1" with
      | inr err => (false, Some err)
      | inl resources => (existsb isTigeraSecureKind resources, None)
      end
  end.

(** [RequiresAmazonController(cfg)]. *)
Definition RequiresAmazonController (NewForConfig : api.result Clientset)
  : bool * option api.error :=
  match NewForConfig with
  | inr err => (false, Some err)
  | inl clientset =>
      match ServerResourcesForGroupVersion clientset "operator.tigera.io/v1" with
      | inr err => (false, Some err)
      | inl resources => (existsb (String.eqb "AmazonCloudIntegration") resources, None)
      end
  end.

(** [SupportsPodSecurityPolicies(c)]. *)
Definition SupportsPodSecurityPolicies (c : Clientset) : bool * option api.error :=
  match ServerResourcesForGroupVersion c "policy/v1beta1" with
  | inr err => if api.IsNotFound err then (false, None) else (false, Some err)
  | inl resources => (existsb (String.eqb "PodSecurityPolicy") resources, None)
  end.

End discovery.

(** ** Further vocabulary *)

Module props.

(** A quantity that is a whole number of its unit (of cores, of bytes) and
    fits an int64: [Value()] then returns it without rounding. *)
Definition whole (q : resource.Quantity) : Prop :=
  0 <= resource.scale (resource.i q)
  /\ golang.fits_int64
       (resource.value (resource.i q) * 10 ^ resource.scale (resource.i q)) = true.

(** -1, 0 or 1 for a comparison. *)
Definition sign (c : comparison) : Z :=
  match c with Lt => -1 | Eq => 0 | Gt => 1 end.

(** The configuration key and the node selector requirement that the loop
    over the selection attributes of a NodeSet writes for an attribute, and
    the key that lists the attribute names. *)
Definition attrKey (a : operatorv1.NodeSetSelectionAttribute) : string :=
  "node.attr." +:+ operatorv1.Name a.

Definition requirement (a : operatorv1.NodeSetSelectionAttribute)
  : corev1.NodeSelectorRequirement :=
  {| corev1.Key := operatorv1.NodeLabel a; corev1.Values := [operatorv1.Value a] |}.

Definition awarenessKey : string := "cluster.routing.allocation.awareness.attributes".

Section Runs.
Import logcollector.

(** The cluster has Windows nodes, by what [Reconcile] sees of it. *)
Definition windowsNodesListed (w : World) : Prop :=
  exists n, ListWindowsNodes (client w) = inl n /\ (0 < n)%nat.

(** The LogCollector asks for the S3 store (the Splunk store). *)
Definition wantsS3 (instance : operatorv1.LogCollector) : Prop :=
  exists stores s3,
    operatorv1.AdditionalStores (operatorv1.LogCollectorSpec_ instance) = Some stores
    /\ operatorv1.S3 stores = Some s3.

Definition wantsSplunk (instance : operatorv1.LogCollector) : Prop :=
  exists stores splunk,
    operatorv1.AdditionalStores (operatorv1.LogCollectorSpec_ instance) = Some stores
    /\ operatorv1.Splunk stores = Some splunk.

(** A fluentd component that has what its renderer reads without a check:
    a metrics key pair on Linux, and the credential of every store the
    LogCollector asks for. *)
Definition wellConfigured (c : fluentd.fluentdComponent) : Prop :=
  let f := fluentd.cfg c in
  (fluentd.OSType_ f = fluentd.OSTypeLinux -> is_Some (fluentd.MetricsServerTLS f))
  /\ (wantsS3 (fluentd.LogCollector f) -> is_Some (fluentd.S3Credential_ f))
  /\ (wantsSplunk (fluentd.LogCollector f) -> is_Some (fluentd.SplkCredential f)).

(** What holds of a component when it is handed to the component handler. *)
Definition sound (w : World) (comp : Component) : Prop :=
  match comp with
  | FluentdComponent c =>
      wellConfigured c
      /\ (fluentd.OSType_ (fluentd.cfg c) = fluentd.OSTypeWindows -> windowsNodesListed w)
  | CertificateManagement _ _ => True
  end.

(** The events of a run that goes on: the instance was found, a defaulted
    instance is saved, certificates are registered, an image set is applied,
    or a component was handed over and the call succeeded. *)
Definition calm (w : World) (e : Event) : Prop :=
  match e with
  | OnCRFound | AddToStatusManager | ImageSetApplied _ => True
  | Patched instance =>
      exists fetched,
        GetLogCollector w = inl fetched
        /\ instance = fst (fillDefaults fetched)
        /\ snd (fillDefaults fetched) <> []
  | Applied comp => sound w comp /\ CreateOrUpdateOrDelete w comp = None
  | _ => False
  end.

(** A Result that asks for no retry, or for one in five or ten seconds. *)
Definition waits (res : Result) : Prop :=
  Requeue res = false
  /\ (RequeueAfter res = 0 \/ RequeueAfter res = 5 * Second
      \/ RequeueAfter res = 10 * Second).

(** The six ways a run ends: the last events, and what is returned. *)
Definition ending (w : World) (post : list Event) (o : Outcome) : Prop :=
  (post = [OnCRNotFound] /\ o = (Result_zero, None))
  \/ (exists reason msg,
        post = [SetDegraded reason msg]
        /\ waits (fst o) /\ (is_Some (snd o) -> fst o = Result_zero))
  \/ (exists comp reason msg err,
        post = [Applied comp; SetDegraded reason msg]
        /\ sound w comp /\ CreateOrUpdateOrDelete w comp = Some err
        /\ o = (Result_zero, Some err))
  \/ (exists err,
        post = [] /\ ListWindowsNodes (client w) = inr err /\ o = (Result_zero, Some err))
  \/ (post = [ClearDegraded] /\ IsAvailable w = false
      /\ o = (RequeueAfter_ (30 * Second), None))
  \/ (exists instance,
        post = [ClearDegraded; StatusUpdated instance]
        /\ IsAvailable w = true /\ operatorv1.State instance = "Ready"
        /\ o = (Result_zero, StatusUpdate (client w) instance)).

(** A step of a run keeps the discipline: the events it adds are calm when
    it goes on, with [Q] holding of its value, and are calm events followed
    by an ending when it returns. *)
Definition keeps {A : Type} (w : World) (m : Exec A) (Q : A -> Prop) : Prop :=
  forall t, exists evs,
    fst (m t) = t ++ evs
    /\ match snd (m t) with
       | inl a => Forall (calm w) evs /\ Q a
       | inr o => exists pre post, evs = pre ++ post /\ Forall (calm w) pre /\ ending w post o
       end.

(** A step can go on with the value [a]. *)
Definition yields {A : Type} (m : Exec A) (a : A) : Prop :=
  exists t, snd (m t) = inl a.

End Runs.

Section Environment.
Import fluentd fluentd_pod.

Variable x : Externals.

(** The environment of the fluentd container, block by block: the fixed
    head, the blocks of the three stores, of the filters, of the indices
    and of the metrics certificates. *)
Definition baseEnvs (c : fluentdComponent) : list EnvVar :=
  [ env "FLUENT_UID" "0";
    env "FLOW_LOG_FILE" (path c "/var/log/calico/flowlogs/flows.log");
    env "DNS_LOG_FILE" (path c "/var/log/calico/dnslogs/dns.log");
    env "FLUENTD_ES_SECURE" "true";
    envFrom "NODENAME" (FieldRef "spec.nodeName") ].

Definition s3Envs (stores : operatorv1.AdditionalLogStoreSpec) : list EnvVar :=
  match operatorv1.S3 stores with
  | Some s3 =>
      [ envFrom "AWS_KEY_ID" (SecretKeyRef S3FluentdSecretName S3KeyIdName);
        envFrom "AWS_SECRET_KEY" (SecretKeyRef S3FluentdSecretName S3KeySecretName);
        env "S3_STORAGE" "true";
        env "S3_BUCKET_NAME" (BucketName x s3);
        env "AWS_REGION" (Region x s3);
        env "S3_BUCKET_PATH" (BucketPath x s3);
        env "S3_FLUSH_INTERVAL" fluentdDefaultFlush ]
  | None => []
  end.

Definition syslogEnvs (stores : operatorv1.AdditionalLogStoreSpec) : list EnvVar :=
  match operatorv1.Syslog stores with
  | Some syslog =>
      [ env "SYSLOG_HOST" (snd (fst (ParseEndpoint x (operatorv1.Endpoint syslog))));
        env "SYSLOG_PORT" (snd (ParseEndpoint x (operatorv1.Endpoint syslog)));
        env "SYSLOG_PROTOCOL" (fst (fst (ParseEndpoint x (operatorv1.Endpoint syslog))));
        env "SYSLOG_FLUSH_INTERVAL" fluentdDefaultFlush;
        envFrom "SYSLOG_HOSTNAME" (FieldRef "spec.nodeName") ]
      ++ match PacketSize x syslog with
         | Some size => [env "SYSLOG_PACKET_SIZE" (golang.itoa size)]
         | None => []
         end
      ++ concat (syslogLogTypeEnvs <$> default [] (operatorv1.LogTypes syslog))
  | None => []
  end.

Definition splunkEnvs (stores : operatorv1.AdditionalLogStoreSpec)
  (credential : option SplunkCredential) : option (list EnvVar) :=
  match operatorv1.Splunk stores with
  | Some splunk =>
      cred ← credential;
      Some ([ envFrom "SPLUNK_HEC_TOKEN"
                (SecretKeyRef SplunkFluentdTokenSecretName SplunkFluentdSecretTokenKey);
              env "SPLUNK_FLOW_LOG" "true";
              env "SPLUNK_AUDIT_LOG" "true";
              env "SPLUNK_DNS_LOG" "true";
              env "SPLUNK_HEC_HOST" (snd (fst (ParseEndpoint x (SplunkEndpoint x splunk))));
              env "SPLUNK_HEC_PORT" (snd (ParseEndpoint x (SplunkEndpoint x splunk)));
              env "SPLUNK_PROTOCOL" (fst (fst (ParseEndpoint x (SplunkEndpoint x splunk))));
              env "SPLUNK_FLUSH_INTERVAL" fluentdDefaultFlush ]
            ++ if (String.length (Certificate cred) =? 0)%nat then []
               else [env "SPLUNK_CA_FILE" SplunkFluentdDefaultCertPath])
  | None => Some []
  end.

Definition filterEnvs (filters : option FluentdFilters) : list EnvVar :=
  match filters with
  | Some filters =>
      (if (String.length (Flow filters) =? 0)%nat then []
       else [env "FLUENTD_FLOW_FILTERS" "true"])
      ++ (if (String.length (DNS filters) =? 0)%nat then []
          else [env "FLUENTD_DNS_FILTERS" "true"])
  | None => []
  end.

Definition elasticEnvs (es : string) : list EnvVar :=
  [ env "ELASTIC_FLOWS_INDEX_REPLICAS" (golang.itoa (Replicas x es));
    env "ELASTIC_DNS_INDEX_REPLICAS" (golang.itoa (Replicas x es));
    env "ELASTIC_AUDIT_INDEX_REPLICAS" (golang.itoa (Replicas x es));
    env "ELASTIC_BGP_INDEX_REPLICAS" (golang.itoa (Replicas x es));
    env "ELASTIC_FLOWS_INDEX_SHARDS" (golang.itoa (FlowShards x es));
    env "ELASTIC_DNS_INDEX_SHARDS" (golang.itoa (Shards x es));
    env "ELASTIC_AUDIT_INDEX_SHARDS" (golang.itoa (Shards x es));
    env "ELASTIC_BGP_INDEX_SHARDS" (golang.itoa (Shards x es)) ].

Definition tlsEnvs (c : fluentdComponent) : option (list EnvVar) :=
  match OSType_ (cfg c) with
  | OSTypeWindows => Some []
  | OSTypeLinux =>
      tls ← MetricsServerTLS (cfg c);
      Some [ env "CA_CRT_PATH" (BundleMountPath x (TrustedBundle (cfg c)));
             env "TLS_KEY_PATH" (VolumeMountKeyFilePath x tls);
             env "TLS_CRT_PATH" (VolumeMountCertificateFilePath x tls) ]
  end.

Definition storeEnvs (c : fluentdComponent) : option (list EnvVar) :=
  match operatorv1.AdditionalStores (operatorv1.LogCollectorSpec_ (LogCollector (cfg c))) with
  | Some stores =>
      splunk ← splunkEnvs stores (SplkCredential (cfg c));
      Some (s3Envs stores ++ syslogEnvs stores ++ splunk)
  | None => Some []
  end.

Definition envBlocks (c : fluentdComponent) : option (list EnvVar) :=
  stores ← storeEnvs c;
  tls ← tlsEnvs c;
  Some (baseEnvs c ++ stores ++ filterEnvs (Filters (cfg c))
        ++ elasticEnvs (ESClusterConfig (cfg c)) ++ tls).

(** The secret and the key an environment variable takes its value from. *)
Definition secretKeyRef (e : EnvVar) : option (string * string) :=
  match ValueFrom e with
  | Some (SecretKeyRef name key) => Some (name, key)
  | _ => None
  end.

(** The secrets among the objects that [Objects] returns to create, all in
    the namespace of the log collector. *)
Definition renderedSecret (o : fluentd.Object) : option corev1.Secret :=
  match o with
  | fluentd.SecretObject s => Some s
  | fluentd.CopyToNamespace ns s =>
      Some {| corev1.SecretName := corev1.SecretName s;
              corev1.SecretNamespace := ns;
              corev1.Data := corev1.Data s |}
  | _ => None
  end.

(** A secret of that name, holding that key, is created in the namespace
    of the log collector. *)
Definition rendersSecret (c : fluentdComponent) (name key : string) : Prop :=
  exists o s,
    o ∈ fst (fluentd.Objects c)
    /\ renderedSecret o = Some s
    /\ corev1.SecretName s = name
    /\ corev1.SecretNamespace s = LogCollectorNamespace
    /\ is_Some (corev1.Data s !! key).

(** An environment variable with a literal value or a field reference. *)
Definition plain (e : EnvVar) : Prop := secretKeyRef e = None.

(** The names of the variables that the loop over the syslog log types
    adds. *)
Definition typeNames (types : list operatorv1.SyslogLogType) : list string :=
  Name <$> concat (syslogLogTypeEnvs <$> types).

Definition nBase : list string :=
  ["FLUENT_UID"; "FLOW_LOG_FILE"; "DNS_LOG_FILE"; "FLUENTD_ES_SECURE"; "NODENAME"].
Definition nS3 : list string :=
  [ "AWS_KEY_ID"; "AWS_SECRET_KEY"; "S3_STORAGE"; "S3_BUCKET_NAME"; "AWS_REGION";
    "S3_BUCKET_PATH"; "S3_FLUSH_INTERVAL" ].
Definition nSyslog : list string :=
  [ "SYSLOG_HOST"; "SYSLOG_PORT"; "SYSLOG_PROTOCOL"; "SYSLOG_FLUSH_INTERVAL";
    "SYSLOG_HOSTNAME"; "SYSLOG_PACKET_SIZE" ].
Definition nSplunk : list string :=
  [ "SPLUNK_HEC_TOKEN"; "SPLUNK_FLOW_LOG"; "SPLUNK_AUDIT_LOG"; "SPLUNK_DNS_LOG";
    "SPLUNK_HEC_HOST"; "SPLUNK_HEC_PORT"; "SPLUNK_PROTOCOL"; "SPLUNK_FLUSH_INTERVAL";
    "SPLUNK_CA_FILE" ].
Definition nFilters : list string := ["FLUENTD_FLOW_FILTERS"; "FLUENTD_DNS_FILTERS"].
Definition nElastic : list string :=
  [ "ELASTIC_FLOWS_INDEX_REPLICAS"; "ELASTIC_DNS_INDEX_REPLICAS";
    "ELASTIC_AUDIT_INDEX_REPLICAS"; "ELASTIC_BGP_INDEX_REPLICAS";
    "ELASTIC_FLOWS_INDEX_SHARDS"; "ELASTIC_DNS_INDEX_SHARDS";
    "ELASTIC_AUDIT_INDEX_SHARDS"; "ELASTIC_BGP_INDEX_SHARDS" ].
Definition nTLS : list string := ["CA_CRT_PATH"; "TLS_KEY_PATH"; "TLS_CRT_PATH"].

(** Every name [envvars] can give, in the order it gives them; the names
    for the syslog log types depend on the types listed. *)
Definition allNames (types : list operatorv1.SyslogLogType) : list string :=
  nBase ++ (nS3 ++ (nSyslog ++ typeNames types) ++ nSplunk) ++ nFilters ++ nElastic ++ nTLS.

(** The log types of the syslog store, when it is set. *)
Definition syslogLogTypes (c : fluentdComponent) : list operatorv1.SyslogLogType :=
  match operatorv1.AdditionalStores (operatorv1.LogCollectorSpec_ (LogCollector (cfg c))) with
  | Some stores =>
      match operatorv1.Syslog stores with
      | Some syslog => default [] (operatorv1.LogTypes syslog)
      | None => []
      end
  | None => []
  end.

End Environment.

End props.

(** ** Further sample inputs *)

Module fixtures.

(** A user override that sets only a memory limit, of 2Gi. *)
Definition memoryLimitOnly : corev1.ResourceRequirements :=
  {| corev1.Limits := {[ "memory" := render.MustParse_Gi 2 ]}; corev1.Requests := ∅ |}.

(** A NodeSet for one availability zone. *)
Definition zone (name : string) : operatorv1.NodeSet :=
  {| operatorv1.SelectionAttributes :=
       Some [ {| operatorv1.Name := "zone";
                 operatorv1.NodeLabel := "failure-domain.beta.kubernetes.io/zone";
                 operatorv1.Value := name |} ] |}.

Definition zonedNodes : operatorv1.Nodes :=
  {| operatorv1.Count := 5;
     operatorv1.NodeSets := [zone "us-west-2a"; zone "us-west-2b"];
     operatorv1.ResourceRequirements := None |}.

Definition zonedLogStorage : operatorv1.LogStorage :=
  {| operatorv1.DeletionTimestamp := None;
     operatorv1.Spec :=
       {| operatorv1.Nodes_ := Some zonedNodes;
          operatorv1.StorageClassName := "tigera-elasticsearch";
          operatorv1.Rest := EmptyString |} |}.

(** Five nodes over two zones. *)
Definition zonedComponent : render.elasticsearchComponent :=
  render.LogStorage (samples.configuration (Some zonedLogStorage) None None None None).

Section Clusters.
Import logcollector.

(** A client for a cluster holding these secrets, by name, and nothing
    else. *)
Definition secretsClient (instance : operatorv1.LogCollector)
  (secrets : gmap string (gmap string string)) : Client :=
  {| GetInstance := inl instance;
     Patch := fun _ => None;
     GetTier := None;
     GetSecret := fun name =>
       match secrets !! name with
       | Some data => inl data
       | None => inr samples.notFound
       end;
     GetConfigMap := fun _ => inr samples.notFound;
     ListWindowsNodes := inl 0%nat;
     StatusUpdate := fun _ => None |}.

Definition splunkClient : Client :=
  secretsClient samples.sampleInstance
    {[ fluentd.SplunkFluentdTokenSecretName
         := {[ fluentd.SplunkFluentdSecretTokenKey := "hec-token" ]} ]}.

Definition eksClient : Client :=
  secretsClient samples.sampleInstance
    {[ fluentd.EksLogForwarderSecret
         := {[ fluentd.EksLogForwarderAwsId := "AKIAEXAMPLE";
               fluentd.EksLogForwarderAwsKey := "secret" ]} ]}.

(** A LogCollector as a user creates it, before any default is set. *)
Definition newInstance : operatorv1.LogCollector :=
  {| operatorv1.LogCollectorSpec_ :=
       {| operatorv1.AdditionalStores := None;
          operatorv1.AdditionalSources := None;
          operatorv1.CollectProcessPath := None |};
     operatorv1.State := EmptyString |}.

Definition withClient (w : World) (c : Client) : World :=
  {| client := c;
     clusterDomain := clusterDomain w;
     usePSP := usePSP w;
     tierWatchReady := tierWatchReady w;
     licenseAPIReady := licenseAPIReady w;
     ParseEndpoint := ParseEndpoint w;
     IsAPIServerReady := IsAPIServerReady w;
     FetchLicenseKey := FetchLicenseKey w;
     IsFeatureActive := IsFeatureActive w;
     GetInstallation := GetInstallation w;
     GetElasticsearchClusterConfig := GetElasticsearchClusterConfig w;
     GetNetworkingPullSecrets := GetNetworkingPullSecrets w;
     ElasticsearchSecrets := ElasticsearchSecrets w;
     CertificateManagerCreate := CertificateManagerCreate w;
     GetOrCreateKeyPair := GetOrCreateKeyPair w;
     GetPrometheusCertificate := GetPrometheusCertificate w;
     GetESGatewayCertificate := GetESGatewayCertificate w;
     PublicCertSecret := PublicCertSecret w;
     CreateTrustedBundle := CreateTrustedBundle w;
     GetManagementClusterConnection := GetManagementClusterConnection w;
     ApplyImageSet := ApplyImageSet w;
     CreateOrUpdateOrDelete := CreateOrUpdateOrDelete w;
     IsAvailable := IsAvailable w |}.

(** The ready cluster, with a LogCollector that has no defaults yet. *)
Definition newInstanceWorld : World :=
  withClient samples.readyWorld (secretsClient newInstance ∅).

End Clusters.

Section Pods.
Import fluentd fluentd_pod.

(** A LogCollector with the three stores set. *)
Definition storesInstance : operatorv1.LogCollector :=
  {| operatorv1.LogCollectorSpec_ :=
       {| operatorv1.AdditionalStores :=
            Some {| operatorv1.S3 := Some "s3://logs";
                    operatorv1.Syslog :=
                      Some {| operatorv1.Endpoint := "tcp://syslog.example.com:514";
                              operatorv1.LogTypes :=
                                Some [operatorv1.SyslogLogAudit; operatorv1.SyslogLogDNS] |};
                    operatorv1.Splunk := Some "https://splunk.example.com:8088" |};
          operatorv1.AdditionalSources := None;
          operatorv1.CollectProcessPath := Some operatorv1.CollectProcessPathEnable |};
     operatorv1.State := EmptyString |}.

Definition storesConfiguration : FluentdConfiguration :=
  {| LogCollector := storesInstance;
     ESSecrets := [];
     ESClusterConfig := "cluster";
     S3Credential_ := Some {| KeyId := "AKIAEXAMPLE"; KeySecret := "secret" |};
     SplkCredential := Some {| Token := "hec-token"; Certificate := "-----BEGIN" |};
     Filters := Some {| Flow := "<filter>"; DNS := EmptyString |};
     EKSConfig := None;
     PullSecrets := [];
     Installation := samples.installation None;
     ClusterDomain := "cluster.local";
     OSType_ := OSTypeLinux;
     MetricsServerTLS :=
       Some {| render.KeyPairName := FluentdPrometheusTLSSecretName;
               render.UseCertificateManagement := false |};
     TrustedBundle := "tigera-ca-bundle";
     ManagedCluster := false;
     UsePSP := false |}.

Definition storesComponent : fluentdComponent := Fluentd storesConfiguration.

(** Collaborators that answer with fixed values. *)
Definition sampleExternals : Externals :=
  {| BucketName := fun _ => "logs";
     Region := fun _ => "us-west-2";
     BucketPath := fun _ => "/calico";
     SplunkEndpoint := fun s => s;
     PacketSize := fun _ => Some 1024;
     ParseEndpoint := fun _ => ("tcp", "syslog.example.com", "514");
     ClusterName := fun s => s;
     Replicas := fun _ => 1;
     Shards := fun _ => 5;
     FlowShards := fun _ => 5;
     TrustedCertConfigMapName := "tigera-ca-bundle";
     TrustedCertConfigMapKeyName := "tigera-ca-bundle.crt";
     BundleMountPath := fun _ => "/etc/pki/tls/certs/tigera-ca-bundle.crt";
     BundleVolume := fun bundle =>
       {| VolumeName := "tigera-ca-bundle"; Source := ConfigMapSource bundle [] |};
     BundleVolumeMount := fun _ _ =>
       {| MountName := "tigera-ca-bundle"; MountPath := "/etc/pki/tls/certs";
          SubPath := EmptyString |};
     VolumeMountKeyFilePath := fun _ => "/tls/tls.key";
     VolumeMountCertificateFilePath := fun _ => "/tls/tls.crt";
     KeyPairVolume := fun tls =>
       {| VolumeName := render.KeyPairName tls;
          Source := SecretSource (render.KeyPairName tls) [] |};
     KeyPairVolumeMount := fun tls _ =>
       {| MountName := render.KeyPairName tls; MountPath := "/tls"; SubPath := EmptyString |};
     ContainerDecorateENVVars := fun container _ _ _ _ => container |}.

End Pods.

End fixtures.

(* ===================================================================== *)
(** * Part II: properties                                                  *)
(* ===================================================================== *)

Module heap_facts.
Import render spec.

Lemma Int64_exact (z : Z) : 0 <= z < 2 ^ 63 -> inf.Int64 z = z.
Proof.
  intros Hz. unfold inf.Int64, golang.int64, golang.wrap.
  rewrite Z.abs_eq by lia.
  rewrite (Z.mod_small z) by lia.
  destruct (Z.eq_dec z 0) as [-> | Hnz]; [reflexivity|].
  rewrite Z.sgn_pos by lia. rewrite Z.mul_1_l.
  rewrite Z.mod_small; lia.
Qed.

Lemma Qfloor_div_2048 (a : Z) (b : positive) :
  Qfloor ((a # b) / 2 / 1024) = a / (Z.pos b * 2048).
Proof.
  unfold Qdiv, Qmult, Qinv, Qfloor. cbn [Qnum Qden].
  f_equal; lia.
Qed.

(** The two successive floor divisions of the code are one floor division
    of the rational value by 2048. *)
Lemma rounded_is_half_rounded (q : resource.Quantity) :
  inf.UnscaledBig
    (inf.Mul
       (inf.QuoRound_RoundFloor
          (inf.QuoRound_RoundFloor (resource.AsDec q) (inf.NewDec 2 0) 0)
          (inf.NewDec 1024 0) 0)
       (inf.NewDec 1024 0))
  = half_rounded_down_to_1024 q.
Proof.
  destruct q as [[u sc] f].
  unfold half_rounded_down_to_1024, resource.AsDec, inf.QuoRound_RoundFloor,
    inf.Mul, inf.value.
  cbn [inf.UnscaledBig inf.Scale resource.i resource.value resource.scale].
  replace (0 + 0 - 0) with 0 by lia.
  replace (0 + 0 - - sc) with sc by lia.
  change (0 <=? 0) with true. cbv iota.
  rewrite (Z.pow_0_r 10), Z.mul_1_r.
  rewrite (Z.mul_comm _ 1024). f_equal.
  destruct (Z.leb_spec 0 sc) as [Hsc | Hsc];
    destruct (Z.leb_spec 0 (- sc)) as [Hsc' | Hsc']; try lia.
  - assert (sc = 0) as -> by lia.
    change (- 0) with 0. rewrite (Z.pow_0_r 10), Z.mul_1_r.
    rewrite Qfloor_div_2048, Z.div_div by lia. reflexivity.
  - unfold inject_Z. rewrite Qfloor_div_2048, Z.div_div, Z.opp_involutive by lia.
    f_equal.
  - assert (0 < 10 ^ (- sc)) as Hpos by (apply Z.pow_pos_nonneg; lia).
    rewrite Qfloor_div_2048, Z.div_div by lia.
    rewrite Z2Pos.id by lia. f_equal. lia.
Qed.

Lemma Cmp_scale0 (a b : Z) :
  inf.Cmp (inf.NewDec a 0) (inf.NewDec b 0)
  = match a ?= b with Lt => -1 | Eq => 0 | Gt => 1 end.
Proof. unfold inf.Cmp. simpl. rewrite !Z.mul_1_r. reflexivity. Qed.

Lemma heapSize_unfold (q : resource.Quantity) :
  memoryQuantityToJVMHeapSize q
  = golang.TrimSuffix (resource.NewQuantity_BinarySI_String (jvm_heap_bytes q)) "i".
Proof.
  unfold memoryQuantityToJVMHeapSize, jvm_heap_bytes, clamp. cbv zeta.
  set (r := inf.Mul _ _).
  assert (Hr : r = inf.NewDec (half_rounded_down_to_1024 q) 0).
  { rewrite <- rounded_is_half_rounded. subst r.
    unfold inf.Mul, inf.QuoRound_RoundFloor. reflexivity. }
  rewrite Hr. rewrite !Cmp_scale0. simpl inf.UnscaledBig.
  set (h := half_rounded_down_to_1024 q).
  do 2 f_equal.
  destruct (Z.compare_spec h 2097152) as [E | L | G];
    destruct (Z.compare_spec h 27917287424) as [E' | L' | G'];
    destruct (Z.ltb_spec h 2097152); destruct (Z.ltb_spec 27917287424 h);
    try lia; simpl; try reflexivity; apply Int64_exact; lia.
Qed.

(** The loop of [removeInt64Factors] for base 1024: what it returns, and
    that it stops because no factor is left when it has rounds to spare. *)
Lemma removeFactors_loop_spec (fuel : nat) (r t : Z) :
  1 <= r ->
  let '(a, e) := resource.removeFactors_loop fuel 1024 r t in
  t <= e /\ 1 <= a /\ a * 1024 ^ (e - t) = r
  /\ (r < 1024 ^ (Z.of_nat fuel + 1) -> ~ (1024 <= a /\ a mod 1024 = 0)).
Proof.
  revert r t. induction fuel as [|fuel IH]; intros r t Hr.
  - simpl. replace (t - t) with 0 by lia. repeat split; try lia.
  - cbn [resource.removeFactors_loop].
    destruct (Z.leb_spec 1024 r) as [Hge | Hlt]; cbn [andb].
    + rewrite Z.rem_mod_nonneg by lia.
      destruct (Z.eqb_spec (r mod 1024) 0) as [Hdiv | Hndiv].
      * rewrite Z.quot_div_nonneg by lia.
        assert (Hr' : 1 <= r / 1024) by (apply Z.div_le_lower_bound; lia).
        specialize (IH (r / 1024) (t + 1) Hr').
        destruct (resource.removeFactors_loop fuel 1024 (r / 1024) (t + 1)) as [a e].
        destruct IH as (Hte & Ha & Hprod & Hdone).
        repeat split; try lia.
        -- replace (e - t) with (e - (t + 1) + 1) by lia.
           rewrite Z.pow_add_r by lia. rewrite Z.pow_1_r.
           pose proof (Z.div_mod r 1024 ltac:(lia)). lia.
        -- intros Hfuel. apply Hdone.
           rewrite Nat2Z.inj_succ in Hfuel.
           replace (Z.succ (Z.of_nat fuel) + 1) with (Z.succ (Z.of_nat fuel + 1)) in Hfuel by lia.
           rewrite Z.pow_succ_r in Hfuel by lia.
           apply Z.div_lt_upper_bound; lia.
      * replace (t - t) with 0 by lia. repeat split; try lia.
    + replace (t - t) with 0 by lia. repeat split; try lia.
Qed.

Lemma removeInt64Factors_1024 (v : Z) :
  1024 <= v -> v mod 1024 = 0 ->
  let '(a, e) := resource.removeInt64Factors v 1024 in
  1 <= e /\ 1 <= a /\ a * 1024 ^ e = v /\ ~ (1024 <= a /\ a mod 1024 = 0).
Proof.
  intros Hv Hdiv. unfold resource.removeInt64Factors.
  destruct (Z.ltb_spec v 0) as [Hneg | _]; [lia|].
  pose proof (removeFactors_loop_spec (Z.to_nat (Z.log2 v)) v 0 ltac:(lia)) as H.
  destruct (resource.removeFactors_loop (Z.to_nat (Z.log2 v)) 1024 v 0) as [a e] eqn:Hloop.
  destruct H as (He & Ha & Hprod & Hdone).
  rewrite Z.sub_0_r in Hprod.
  assert (Hfuel : v < 1024 ^ (Z.of_nat (Z.to_nat (Z.log2 v)) + 1)).
  { rewrite Z2Nat.id by apply Z.log2_nonneg.
    pose proof (Z.log2_spec v ltac:(lia)) as [_ Hlt].
    eapply Z.lt_le_trans; [exact Hlt|].
    change 1024 with (2 ^ 10). rewrite <- Z.pow_mul_r by (pose proof (Z.log2_nonneg v); lia).
    apply Z.pow_le_mono_r; pose proof (Z.log2_nonneg v); lia. }
  specialize (Hdone Hfuel).
  repeat split; try assumption.
  destruct (Z.eq_dec e 0) as [-> | Hne]; [|lia].
  exfalso. rewrite Z.pow_0_r, Z.mul_1_r in Hprod. subst a. apply Hdone. split; assumption.
Qed.

(** Cutting the final i off a binary suffix. *)
Lemma TrimSuffix_binary (s : string) (u : ascii) :
  golang.TrimSuffix (s +:+ String u "i") "i" = s +:+ String u EmptyString.
Proof.
  unfold golang.TrimSuffix, golang.HasSuffix.
  assert (Hlen : String.length (s +:+ String u "i") = S (S (String.length s))).
  { induction s as [|c s IH]; simpl; [reflexivity | now rewrite IH]. }
  rewrite Hlen. cbn [String.length Nat.leb Nat.sub].
  assert (Hlast : substring (S (String.length s)) 1 (s +:+ String u "i") = "i"%string).
  { clear Hlen. induction s as [|c s IH]; simpl; [reflexivity | exact IH]. }
  rewrite Hlast.
  destruct (string_dec "i" "i") as [_ | Hne]; [|congruence].
  clear. induction s as [|c s IH]; simpl; [reflexivity | now rewrite IH].
Qed.

Lemma jvm_heap_bytes_range (q : resource.Quantity) :
  2097152 <= jvm_heap_bytes q <= 27917287424 /\ jvm_heap_bytes q mod 1024 = 0.
Proof.
  unfold jvm_heap_bytes, clamp, half_rounded_down_to_1024.
  set (f := Qfloor _).
  destruct (Z.ltb_spec (1024 * f) 2097152); [split; [lia | reflexivity]|].
  destruct (Z.ltb_spec 27917287424 (1024 * f)); [split; [lia | reflexivity]|].
  split; [lia|]. rewrite Z.mul_comm. apply Z.mod_mul. lia.
Qed.

Lemma heap_rendering (v : Z) :
  2097152 <= v <= 27917287424 -> v mod 1024 = 0 ->
  exists a e,
    1 <= a /\ 1 <= e <= 3 /\ a * 1024 ^ e = v
    /\ ~ (1024 <= a /\ a mod 1024 = 0)
    /\ golang.TrimSuffix (resource.NewQuantity_BinarySI_String v) "i"
       = golang.itoa a +:+ unitLetter e.
Proof.
  intros Hv Hdiv.
  pose proof (removeInt64Factors_1024 v ltac:(lia) Hdiv) as H.
  unfold resource.NewQuantity_BinarySI_String.
  destruct (Z.eqb_spec v 0) as [|_]; [lia|].
  destruct (Z.ltb_spec (-1024) v); [|lia].
  destruct (Z.ltb_spec v 1024); [lia|]. cbn [andb].
  destruct (resource.removeInt64Factors v 1024) as [a e].
  destruct H as (He & Ha & Hprod & Hdone).
  assert (He3 : e <= 3).
  { destruct (Z.le_gt_cases e 3) as [|Hgt]; [assumption|exfalso].
    assert (1024 ^ 4 <= 1024 ^ e) by (apply Z.pow_le_mono_r; lia).
    assert (1024 ^ 4 = 1099511627776) by reflexivity. nia. }
  exists a, e. repeat split; try assumption.
  assert (e = 1 \/ e = 2 \/ e = 3) as [-> | [-> | ->]] by lia;
    cbn [resource.binSuffix unitLetter]; apply TrimSuffix_binary.
Qed.

(** C2. For every memory quantity [q], [memoryQuantityToJVMHeapSize] returns
    the BinarySI rendering, with the trailing i of the unit removed, of the
    quantity whose byte value is half of [q] rounded down to the nearest
    multiple of 1024, raised to 2097152 (2 MiB) when below it and lowered to
    27917287424 (26 GiB) when above it. That rendering is a whole number
    followed by K, M or G, for the largest power of 1024 dividing the
    value. *)
Theorem memoryQuantityToJVMHeapSize_spec (q : resource.Quantity) :
  memoryQuantityToJVMHeapSize q
  = golang.TrimSuffix (resource.NewQuantity_BinarySI_String (jvm_heap_bytes q)) "i"
  /\ exists a e,
       1 <= a /\ 1 <= e <= 3 /\ a * 1024 ^ e = jvm_heap_bytes q
       /\ ~ (1024 <= a /\ a mod 1024 = 0)
       /\ memoryQuantityToJVMHeapSize q = golang.itoa a +:+ unitLetter e.
Proof.
  split; [apply heapSize_unfold|].
  destruct (jvm_heap_bytes_range q) as (Hrange & Hdiv).
  destruct (heap_rendering _ Hrange Hdiv) as (a & e & Ha & He & Hprod & Hdone & Hstr).
  exists a, e. rewrite heapSize_unfold. repeat split; try assumption; lia.
Qed.

(** The examples of the comments in the source: 2Gi, 2G and 5Gi of
    memory. *)
Example heap_of_2Gi :
  memoryQuantityToJVMHeapSize (resource.NewQuantity 2147483648 resource.BinarySI) = "1G".
Proof. reflexivity. Qed.

Example heap_of_2G :
  memoryQuantityToJVMHeapSize
    {| resource.i := {| resource.value := 2; resource.scale := 9 |};
       resource.format := resource.DecimalSI |} = "976562K".
Proof. reflexivity. Qed.

Example heap_of_5Gi :
  memoryQuantityToJVMHeapSize (resource.NewQuantity 5368709120 resource.BinarySI) = "2560M".
Proof. reflexivity. Qed.

Example heap_of_1Mi :
  memoryQuantityToJVMHeapSize (resource.NewQuantity 1048576 resource.BinarySI) = "2M".
Proof. reflexivity. Qed.

Example heap_of_64Gi :
  memoryQuantityToJVMHeapSize (resource.NewQuantity 68719476736 resource.BinarySI) = "26G".
Proof. reflexivity. Qed.

End heap_facts.


(** ** Resource overrides *)

Module override_facts.
Import render samples.

(** [Value()] rounds both 250m and 100m up to 1, so the comparison of the
    default request with the user's limit sees no difference. *)
Lemma Value_rounds_up :
  resource.Value MustParse_250m = 1 /\ resource.Value MustParse_100m = 1.
Proof. split; reflexivity. Qed.

(** C10. With the default requirements and a user override holding only the
    cpu limit 100m, [overrideResourceRequirements] returns the cpu limit
    100m and leaves the cpu request at 250m: the request exceeds the
    limit. *)
Theorem overrideResourceRequirements_request_above_limit :
  let r := overrideResourceRequirements defaultRequirements cpuLimitOnly in
  corev1.Limits r !! "cpu" = Some MustParse_100m
  /\ corev1.Requests r !! "cpu" = Some MustParse_250m
  /\ corev1.Requests cpuLimitOnly !! "cpu" = None
  /\ resource.Cmp (corev1.Cpu (corev1.Requests r)) (corev1.Cpu (corev1.Limits r)) = 1.
Proof. vm_compute. repeat split. Qed.

(** What the code does guarantee: when the user gives only a limit for cpu
    (or memory), the returned request does not exceed the returned limit
    once both are rounded up to whole units by [Value()]. *)
Lemma has_true (rl : corev1.ResourceList) (k : string) :
  has rl k = true -> exists q, rl !! k = Some q.
Proof.
  unfold has. intros H. apply bool_decide_eq_true in H. destruct H as [q Hq]. eauto.
Qed.

Lemma has_false (rl : corev1.ResourceList) (k : string) :
  has rl k = false -> rl !! k = None.
Proof.
  unfold has. intros H. apply bool_decide_eq_false in H.
  destruct (rl !! k) eqn:E; [exfalso; apply H; eauto | reflexivity].
Qed.

Lemma limit_only_rounded_cpu (defaultReq userOverrides : corev1.ResourceRequirements) :
  has (corev1.Limits userOverrides) "cpu" = true ->
  has (corev1.Requests userOverrides) "cpu" = false ->
  let r := overrideResourceRequirements defaultReq userOverrides in
  resource.Value (corev1.Cpu (corev1.Requests r))
  <= resource.Value (corev1.Cpu (corev1.Limits r)).
Proof.
  intros HL HR. unfold overrideResourceRequirements. cbv zeta.
  rewrite HL, HR. cbn [negb andb].
  destruct defaultReq as [dL dR]; destruct userOverrides as [uL uR]. cbn in *.
  repeat match goal with
         | |- context [if ?b then _ else _] => destruct b eqn:?
         end;
    unfold setLimit, setRequest, corev1.Cpu, corev1.Memory, corev1.Name in *; cbn in *;
    simplify_map_eq; try lia.
Qed.

Lemma limit_only_rounded_memory (defaultReq userOverrides : corev1.ResourceRequirements) :
  has (corev1.Limits userOverrides) "memory" = true ->
  has (corev1.Requests userOverrides) "memory" = false ->
  let r := overrideResourceRequirements defaultReq userOverrides in
  resource.Value (corev1.Memory (corev1.Requests r))
  <= resource.Value (corev1.Memory (corev1.Limits r)).
Proof.
  intros HL HR. unfold overrideResourceRequirements. cbv zeta.
  rewrite HL, HR. cbn [negb andb].
  destruct defaultReq as [dL dR]; destruct userOverrides as [uL uR]. cbn in *.
  repeat match goal with
         | |- context [if ?b then _ else _] => destruct b eqn:?
         end;
    unfold setLimit, setRequest, corev1.Cpu, corev1.Memory, corev1.Name in *; cbn in *;
    simplify_map_eq; try lia.
Qed.

End override_facts.

(** ** NodeSets *)

Module nodesets_facts.
Import render spec.

Lemma int32_exact (z : Z) : - 2 ^ 31 <= z < 2 ^ 31 -> golang.int32 z = z.
Proof.
  intros H. unfold golang.int32, golang.wrap.
  rewrite Z.mod_small; lia.
Qed.

Lemma int64_exact (z : Z) : - 2 ^ 63 <= z < 2 ^ 63 -> golang.int64 z = z.
Proof.
  intros H. unfold golang.int64, golang.wrap.
  rewrite Z.mod_small; lia.
Qed.

Lemma pvcTemplate_returns (es : elasticsearchComponent) (ls : operatorv1.LogStorage) :
  LogStorage_ (cfg es) = Some ls -> exists pvc, pvcTemplate es = Some pvc.
Proof. intros H. unfold pvcTemplate. rewrite H. simpl. eauto. Qed.

Lemma resourceRequirements_returns (es : elasticsearchComponent) (ls : operatorv1.LogStorage) :
  LogStorage_ (cfg es) = Some ls -> exists r, resourceRequirements es = Some r.
Proof. intros H. unfold resourceRequirements. rewrite H. simpl. eauto. Qed.

Lemma podTemplate_returns (es : elasticsearchComponent) (ls : operatorv1.LogStorage) :
  LogStorage_ (cfg es) = Some ls -> exists pt, podTemplate es = Some pt.
Proof.
  intros H. destruct (resourceRequirements_returns es ls H) as [r Hr].
  unfold podTemplate, javaOpts. rewrite Hr, H. cbv zeta.
  destruct (operatorv1.IsFIPSModeEnabled _); simpl; eauto.
Qed.

Section Distribution.

Variable Marshal : corev1.PersistentVolumeClaim -> option (list Byte.byte).

Lemma nodeSetFor_Count es pvc pt i numNodes conf :
  esv1.Count (nodeSetFor Marshal es pvc pt i numNodes conf) = golang.int32 numNodes.
Proof.
  unfold nodeSetFor. destruct (operatorv1.SelectionAttributes conf); [|reflexivity].
  destruct (selectionAttributes _ _ _ _) as [[? ?] ?]. reflexivity.
Qed.

(** Quotient and remainder of a count that fits: the per-NodeSet counts
    are int32 values. *)
Lemma quotient_bounds (N K : Z) :
  0 <= N -> 0 < K -> N <= K * 2147483647 ->
  0 <= N / K <= 2147483647 /\ 0 <= N mod K < K
  /\ (0 < N mod K -> N / K + 1 <= 2147483647).
Proof.
  intros HN HK Hfit.
  pose proof (Z.div_mod N K ltac:(lia)) as Hdm.
  pose proof (Z.mod_pos_bound N K HK) as Hr.
  assert (0 <= N / K) by (apply Z.div_pos; lia).
  repeat split; try lia; nia.
Qed.

(** The loop invariant, from index [i] with [rest] still to visit. *)
Lemma nodeSetsFrom_spec es pvc pt (N K : Z) :
  podTemplate es = Some pt ->
  0 <= N -> 0 < K -> N <= K * 2147483647 ->
  forall (rest : list operatorv1.NodeSet) (i : Z), 0 <= i ->
  exists sets,
    nodeSetsFrom Marshal es pvc N K i rest = Some sets
    /\ Z.of_nat (length sets)
       = (if 1 <=? N / K then Z.of_nat (length rest)
          else Z.max 0 (Z.min (Z.of_nat (length rest)) (N mod K - i)))
    /\ sumCounts sets
       = N / K * Z.of_nat (length sets)
         + Z.max 0 (Z.min (Z.of_nat (length rest)) (N mod K - i))
    /\ (forall (j : nat) ns, sets !! j = Some ns ->
          esv1.Count ns = if i + Z.of_nat j <? N mod K then N / K + 1 else N / K)
    /\ (forall ns, ns ∈ sets -> 1 <= esv1.Count ns).
Proof.
  intros Hpt HN HK Hfit.
  destruct (quotient_bounds N K HN HK Hfit) as (Hq & Hr & Hq1).
  induction rest as [|conf rest IH]; intros i Hi.
  - exists []. simpl. repeat split.
    + destruct (1 <=? N / K); lia.
    + unfold sumCounts. simpl. lia.
    + intros j ns Hj. rewrite lookup_nil in Hj. discriminate.
    + intros ns Hns. apply elem_of_nil in Hns. contradiction.
  - cbn [nodeSetsFrom].
    rewrite Z.quot_div_nonneg, Z.rem_mod_nonneg by lia.
    destruct (IH (i + 1) ltac:(lia)) as (sets & Hsets & Hlen & Hsum & Hidx & Hpos).
    set (numNodes := if i <? N mod K then golang.int64 (N / K + 1) else N / K).
    assert (HnumNodes : numNodes = if i <? N mod K then N / K + 1 else N / K).
    { subst numNodes. destruct (Z.ltb_spec i (N mod K)); [|reflexivity].
      apply int64_exact. lia. }
    assert (Hrange : 0 <= numNodes <= 2147483647).
    { rewrite HnumNodes. destruct (Z.ltb_spec i (N mod K)); lia. }
    destruct (Z.ltb_spec numNodes 1) as [Hbreak | Hgo].
    + (* break *)
      exists []. cbn [length]. rewrite HnumNodes in Hbreak.
      repeat split.
      * destruct (Z.ltb_spec i (N mod K)); destruct (Z.leb_spec 1 (N / K)); lia.
      * unfold sumCounts. simpl.
        destruct (Z.ltb_spec i (N mod K)); lia.
      * intros j ns Hj. rewrite lookup_nil in Hj. discriminate.
      * intros ns Hns. apply elem_of_nil in Hns. contradiction.
    + rewrite Hpt. cbn [mbind option_bind]. rewrite Hsets. cbn [mbind option_bind].
      eexists. split; [reflexivity|].
      assert (Hcount : esv1.Count (nodeSetFor Marshal es pvc pt i numNodes conf) = numNodes).
      { rewrite nodeSetFor_Count. apply int32_exact. lia. }
      cbn [length]. rewrite !Nat2Z.inj_succ.
      repeat split.
      * rewrite Hlen. rewrite HnumNodes in Hgo.
        destruct (Z.ltb_spec i (N mod K)); destruct (Z.leb_spec 1 (N / K)); lia.
      * unfold sumCounts in *. cbn [fmap list_fmap foldr].
        rewrite Hcount, Hsum, HnumNodes. rewrite HnumNodes in Hgo.
        destruct (Z.ltb_spec i (N mod K)); lia.
      * intros [|j] ns Hj.
        -- cbn in Hj. inversion Hj; subst ns. rewrite Hcount, HnumNodes.
           replace (i + Z.of_nat 0) with i by lia. reflexivity.
        -- cbn in Hj. rewrite (Hidx j ns Hj).
           replace (i + 1 + Z.of_nat j) with (i + Z.of_nat (S j)) by lia. reflexivity.
      * intros ns Hns. apply elem_of_cons in Hns as [-> | Hns].
        -- rewrite Hcount. lia.
        -- apply Hpos. exact Hns.
Qed.

(** C1 (amended). For a LogStorage whose spec.Nodes has [K >= 1] NodeSets and
    a node count [N] with [0 <= N <= K * 2147483647] (so that every share is
    an int32), [nodeSets] returns NodeSets whose counts add up to [N], the
    one at index [i] holding [N/K + 1] nodes when [i < N mod K] and [N/K]
    otherwise, none holding fewer than one node; it returns [K] of them
    when [K <= N] and the first [N] when [N < K]. *)
Theorem nodeSets_evenly_distributed es ls nc :
  LogStorage_ (cfg es) = Some ls ->
  operatorv1.Nodes_ (operatorv1.Spec ls) = Some nc ->
  operatorv1.NodeSets nc <> [] ->
  0 <= operatorv1.Count nc ->
  operatorv1.Count nc <= Z.of_nat (length (operatorv1.NodeSets nc)) * 2147483647 ->
  exists sets,
    nodeSets Marshal es = Some sets
    /\ evenly_distributed (operatorv1.Count nc)
         (Z.of_nat (length (operatorv1.NodeSets nc))) sets
    /\ Z.of_nat (length sets)
       = Z.min (Z.of_nat (length (operatorv1.NodeSets nc))) (operatorv1.Count nc).
Proof.
  intros Hls Hnc Hne HN Hfit.
  destruct (pvcTemplate_returns es ls Hls) as [pvc Hpvc].
  destruct (podTemplate_returns es ls Hls) as [pt Hpt].
  set (N := operatorv1.Count nc) in *.
  set (K := Z.of_nat (length (operatorv1.NodeSets nc))) in *.
  assert (HK : 0 < K).
  { subst K. destruct (operatorv1.NodeSets nc); [congruence | simpl; lia]. }
  destruct (nodeSetsFrom_spec es pvc pt N K Hpt HN HK Hfit (operatorv1.NodeSets nc) 0
              ltac:(lia)) as (sets & Hsets & Hlen & Hsum & Hidx & Hpos).
  fold K in Hlen, Hsum.
  destruct (quotient_bounds N K HN HK Hfit) as (Hq & Hr & _).
  pose proof (Z.div_mod N K ltac:(lia)) as Hdm.
  exists sets. split; [|split].
  - unfold nodeSets. rewrite Hls. cbn [mbind option_bind]. rewrite Hpvc, Hnc.
    cbn [mbind option_bind].
    destruct (operatorv1.NodeSets nc) as [|c0 cs] eqn:Hcs; [congruence|].
    exact Hsets.
  - repeat split.
    + rewrite Hsum, Hlen. destruct (Z.leb_spec 1 (N / K)); nia.
    + intros i ns Hi. rewrite (Hidx i ns Hi). reflexivity.
    + exact Hpos.
  - rewrite Hlen. destruct (Z.leb_spec 1 (N / K)); nia.
Qed.

End Distribution.

Lemma nodeSets_evenly_distributed_witness :
  exists sets,
    nodeSets samples.marshal (samples.component 7 3) = Some sets
    /\ evenly_distributed 7 3 sets
    /\ Z.of_nat (length sets) = Z.min 3 7.
Proof.
  apply (nodeSets_evenly_distributed samples.marshal (samples.component 7 3)
           (samples.logStorage None 7 3) (samples.nodes 7 3));
    [reflexivity | reflexivity | discriminate | simpl; lia | simpl; lia].
Defined.

(** C1 as stated fails for a negative node count: with one NodeSet and
    Count -1 the loop stops at once and nothing is returned, so the counts
    add up to 0, not to -1. *)
Lemma nodeSets_negative_count :
  nodeSets samples.marshal (samples.component (-1) 1) = Some []
  /\ ~ evenly_distributed (-1) 1 [].
Proof.
  split; [reflexivity|].
  intros (Hsum & _). unfold sumCounts in Hsum. simpl in Hsum. discriminate.
Qed.

(** Nor does it hold when a share does not fit an int32: 2^32 nodes in one
    NodeSet come out as a NodeSet of 0 nodes. *)
Lemma nodeSets_count_truncated :
  esv1.Count <$> default [] (nodeSets samples.marshal (samples.component (2 ^ 32) 1)) = [0].
Proof. reflexivity. Qed.

End nodesets_facts.

(** ** NodeSet names *)

Module naming_facts.
Import render.

Lemma Write_is_fold (data : list Byte.byte) (h : Z) :
  fnv.Write h data
  = (fold_left (fun h c => (Z.lxor h (Z.of_N (Byte.to_N c)) * fnv.prime64) mod 2 ^ 64)
       data h, None).
Proof.
  revert h. induction data as [|c data IH]; intros h; simpl; [reflexivity|].
  apply IH.
Qed.

Lemma high_nibble (v k : Z) :
  0 <= k ->
  Z.shiftr (Z.land (Z.shiftr v k) 255) 4 = (v / 2 ^ (k + 4)) mod 16.
Proof.
  intros Hk.
  change 255 with (Z.ones 8). rewrite Z.land_ones by lia.
  rewrite !Z.shiftr_div_pow2 by lia.
  rewrite Z.pow_add_r by lia. rewrite <- Z.div_div by lia.
  change (2 ^ 8) with (16 * 16). change (2 ^ 4) with 16.
  rewrite Z.rem_mul_r by lia.
  rewrite Z.add_comm, Z.mul_comm, Z.div_add_l by lia.
  rewrite Zmod_div. lia.
Qed.

Lemma low_nibble (v k : Z) :
  0 <= k ->
  Z.land (Z.land (Z.shiftr v k) 255) 15 = (v / 2 ^ k) mod 16.
Proof.
  intros Hk.
  change 255 with (Z.ones 8). change 15 with (Z.ones 4).
  rewrite !Z.land_ones by lia.
  rewrite Z.shiftr_div_pow2 by lia.
  apply Z.mod_mod_divide. exists 16. reflexivity.
Qed.

(** Encoding the eight bytes of [Sum] is writing the sixteen hexadecimal
    digits of the state. *)
Lemma EncodeToString_Sum (v : Z) :
  hex.EncodeToString (fnv.Sum v) = spec.hex64 v.
Proof.
  unfold fnv.Sum, spec.hex64. cbn [map hex.EncodeToString spec.hexDigits].
  rewrite !high_nibble, !low_nibble by lia.
  reflexivity.
Qed.

Lemma hexDigits_length (n : nat) (v : Z) : String.length (spec.hexDigits n v) = n.
Proof. induction n as [|n IH]; simpl; [reflexivity | now rewrite IH]. Qed.

Lemma nodeSetName_unfold
  (Marshal : corev1.PersistentVolumeClaim -> option (list Byte.byte)) pvc :
  nodeSetName Marshal pvc
  = match Marshal pvc with
    | Some templateBytes => spec.hex64 (spec.fnv1a_64 templateBytes)
    | None => "es"
    end.
Proof.
  unfold nodeSetName.
  destruct (Marshal pvc) as [templateBytes|]; [|reflexivity].
  rewrite Write_is_fold. apply EncodeToString_Sum.
Qed.

(** C7. [nodeSetName] is a function of the PersistentVolumeClaim template
    alone: the hexadecimal encoding of the 64-bit FNV-1a hash of the
    template's JSON serialization, or the fixed name es when serialization
    fails (hashing never does); hence equal templates get equal names. *)
Theorem nodeSetName_is_fnv1a_hex
  (Marshal : corev1.PersistentVolumeClaim -> option (list Byte.byte)) :
  (forall pvc,
     nodeSetName Marshal pvc
     = match Marshal pvc with
       | Some templateBytes => spec.hex64 (spec.fnv1a_64 templateBytes)
       | None => "es"
       end)
  /\ (forall pvc1 pvc2, pvc1 = pvc2 -> nodeSetName Marshal pvc1 = nodeSetName Marshal pvc2).
Proof.
  split.
  - apply nodeSetName_unfold.
  - intros pvc1 pvc2 ->. reflexivity.
Qed.

(** A successful name has sixteen characters. *)
Lemma nodeSetName_length Marshal pvc templateBytes :
  Marshal pvc = Some templateBytes ->
  String.length (nodeSetName Marshal pvc) = 16%nat.
Proof.
  intros H. rewrite nodeSetName_unfold, H. apply hexDigits_length.
Qed.

(** The published FNV-1a test vectors. *)
Example fnv1a_empty :
  hex.EncodeToString (fnv.Sum (fst (fnv.Write fnv.New64a []))) = "cbf29ce484222325".
Proof. reflexivity. Qed.

Example fnv1a_a :
  hex.EncodeToString (fnv.Sum (fst (fnv.Write fnv.New64a (list_byte_of_string "a"))))
  = "af63dc4c8601ec8c".
Proof. reflexivity. Qed.

Example fnv1a_foobar :
  hex.EncodeToString (fnv.Sum (fst (fnv.Write fnv.New64a (list_byte_of_string "foobar"))))
  = "85944171f73967e8".
Proof. reflexivity. Qed.

End naming_facts.


(** ** Objects of the log storage component *)

Module objects_facts.
Import render spec.

Lemma objectsStandalone_frame es toCreate toDelete es' :
  ManagementClusterConnection (cfg es) = None ->
  objectsStandalone es = Some (toCreate, toDelete, es') ->
  es' = es \/ writesJavaOpts es es'.
Proof.
  intros Hmcc H. unfold objectsStandalone in H. cbv zeta in H.
  destruct (LogStorage_ (cfg es)) as [ls|] eqn:Hls; [|discriminate].
  cbn [mbind option_bind] in H.
  destruct (operatorv1.IsFIPSModeEnabled _) eqn:Hfips; cbn [negb] in H.
  - destruct (KeyStoreSecret (cfg es)) as [ks|] eqn:Hks.
    + destruct (javaOpts es) as [opts|] eqn:Hopts; cbn [mbind option_bind] in H;
        [|discriminate].
      right. exists ks, opts. unfold fipsEnabled.
      repeat (split; [assumption|]).
      injection H as _ _ <-. reflexivity.
    + left. cbn [mbind option_bind] in H.
      injection H as _ _ <-. reflexivity.
  - left. cbn [mbind option_bind] in H.
    injection H as _ _ <-. reflexivity.
Qed.

(** What [Objects] leaves behind is the component it was called on, or that
    component with the Java options written to its keystore secret. *)
Lemma Objects_writes_at_most_javaOpts es toCreate toDelete es' :
  Objects es = Some (toCreate, toDelete, es') ->
  es' = es \/ writesJavaOpts es es'.
Proof.
  intros H. unfold Objects in H.
  destruct (beingDeleted (cfg es)).
  - left. injection H as _ _ <-. reflexivity.
  - destruct (ManagementClusterConnection (cfg es)) as [mcc|] eqn:Hmcc.
    + left. cbn [mbind option_bind] in H.
      destruct (unusedTLSObjects _ _ _) as [[c2 d2]|]; cbn [mbind option_bind] in H;
        [|discriminate].
      injection H as _ _ <-. reflexivity.
    + destruct (objectsStandalone es) as [[[c1 d1] es1]|] eqn:Hst;
        cbn [mbind option_bind] in H; [|discriminate].
      destruct (unusedTLSObjects _ _ _) as [[c2 d2]|]; cbn [mbind option_bind] in H;
        [|discriminate].
      injection H as _ _ <-.
      eapply objectsStandalone_frame; eassumption.
Qed.

Lemma withKeyStoreSecret_same (c : ElasticsearchConfiguration) :
  withKeyStoreSecret c (KeyStoreSecret c) = c.
Proof. destruct c. reflexivity. Qed.

(** Whether the branch of [Objects] for a cluster of its own writes: it
    writes the Java options exactly when FIPS mode is on and there is a
    keystore secret. *)
Lemma objectsStandalone_write es toCreate toDelete es' :
  objectsStandalone es = Some (toCreate, toDelete, es') ->
  (forall ks, fipsEnabled es = true -> KeyStoreSecret (cfg es) = Some ks ->
     exists opts, javaOpts es = Some opts
                  /\ es' = setKeyStoreData es ks "ES_JAVA_OPTS" opts)
  /\ (fipsEnabled es = false \/ KeyStoreSecret (cfg es) = None -> es' = es).
Proof.
  intros H. unfold objectsStandalone in H. cbv zeta in H. unfold fipsEnabled.
  destruct (LogStorage_ (cfg es)) as [ls|] eqn:Hls; [|discriminate].
  cbn [mbind option_bind] in H.
  destruct (operatorv1.IsFIPSModeEnabled _) eqn:Hfips; cbn [negb] in H.
  - destruct (KeyStoreSecret (cfg es)) as [ks|] eqn:Hks.
    + destruct (javaOpts es) as [opts|] eqn:Hopts; cbn [mbind option_bind] in H;
        [|discriminate].
      injection H as _ _ <-. split.
      * intros ks' _ [= <-]. exists opts. split; reflexivity.
      * intros [Hoff | Hnone]; discriminate.
    + cbn [mbind option_bind] in H. injection H as _ _ <-. split.
      * intros ks' _ Hks'. discriminate Hks'.
      * intros _. reflexivity.
  - cbn [mbind option_bind] in H. injection H as _ _ <-. split.
    + intros ks' Hon _. discriminate Hon.
    + intros _. reflexivity.
Qed.

(** When [Objects] writes, and what. *)
Lemma Objects_write es toCreate toDelete es' :
  Objects es = Some (toCreate, toDelete, es') ->
  (forall ks,
     ManagementClusterConnection (cfg es) = None -> beingDeleted (cfg es) = false ->
     fipsEnabled es = true -> KeyStoreSecret (cfg es) = Some ks ->
     exists opts, javaOpts es = Some opts
                  /\ es' = setKeyStoreData es ks "ES_JAVA_OPTS" opts)
  /\ (is_Some (ManagementClusterConnection (cfg es)) \/ beingDeleted (cfg es) = true
      \/ fipsEnabled es = false \/ KeyStoreSecret (cfg es) = None ->
      es' = es).
Proof.
  intros H. unfold Objects in H.
  destruct (beingDeleted (cfg es)) eqn:Hdel.
  { injection H as _ _ <-. split; [intros ks _ Hno; discriminate Hno | reflexivity]. }
  destruct (ManagementClusterConnection (cfg es)) as [mcc|] eqn:Hmcc.
  { cbn [mbind option_bind] in H.
    destruct (unusedTLSObjects _ _ _) as [[c2 d2]|]; cbn [mbind option_bind] in H;
      [|discriminate].
    injection H as _ _ <-. split; [intros ks Hno; discriminate Hno | reflexivity]. }
  destruct (objectsStandalone es) as [[[c1 d1] es1]|] eqn:Hst;
    cbn [mbind option_bind] in H; [|discriminate].
  destruct (unusedTLSObjects _ _ _) as [[c2 d2]|]; cbn [mbind option_bind] in H;
    [|discriminate].
  injection H as _ _ <-.
  destruct (objectsStandalone_write es c1 d1 es1 Hst) as [Hwrites Hkeeps].
  split.
  - intros ks _ _ Hfips Hks. exact (Hwrites ks Hfips Hks).
  - intros [[m Hm] | [Hd | Hrest]]; [discriminate Hm | discriminate Hd | exact (Hkeeps Hrest)].
Qed.

(** C3 (amended). [Objects] returns the component, configuration included,
    as it received it, with one exception.  When no management cluster
    connection is set, the LogStorage is not being deleted, FIPS mode is
    enabled and a keystore secret is given, it sets the entry ES_JAVA_OPTS
    of the Data of that secret to the Java options of the component, and
    the component comes back with that one entry set.  In every other case
    the component comes back as it was.  In either case nothing else is
    written: apart from the keystore secret the component is unchanged, and
    in the Data of the keystore secret every entry other than ES_JAVA_OPTS
    is what it was. *)
Theorem Objects_frame es toCreate toDelete es' :
  Objects es = Some (toCreate, toDelete, es') ->
  (forall ks,
     ManagementClusterConnection (cfg es) = None -> beingDeleted (cfg es) = false ->
     fipsEnabled es = true -> KeyStoreSecret (cfg es) = Some ks ->
     exists opts,
       javaOpts es = Some opts
       /\ es' = setKeyStoreData es ks "ES_JAVA_OPTS" opts
       /\ keyStoreData es' !! "ES_JAVA_OPTS" = Some opts)
  /\ (is_Some (ManagementClusterConnection (cfg es)) \/ beingDeleted (cfg es) = true
      \/ fipsEnabled es = false \/ KeyStoreSecret (cfg es) = None ->
      es' = es)
  /\ withCfg es' (withKeyStoreSecret (cfg es') (KeyStoreSecret (cfg es))) = es
  /\ (forall ks', KeyStoreSecret (cfg es') = Some ks' ->
      exists ks, KeyStoreSecret (cfg es) = Some ks
        /\ corev1.SecretName ks' = corev1.SecretName ks
        /\ corev1.SecretNamespace ks' = corev1.SecretNamespace ks
        /\ forall key, key <> "ES_JAVA_OPTS" ->
             corev1.Data ks' !! key = corev1.Data ks !! key).
Proof.
  intros H. destruct (Objects_write _ _ _ _ H) as [Hwrites Hkeeps].
  split; [|split; [exact Hkeeps|]].
  - intros ks Hmcc Hdel Hfips Hks.
    destruct (Hwrites ks Hmcc Hdel Hfips Hks) as (opts & Hopts & ->).
    exists opts. split; [exact Hopts|]. split; [reflexivity|].
    unfold keyStoreData, setKeyStoreData. cbn. apply lookup_insert_eq.
  - destruct (Objects_writes_at_most_javaOpts _ _ _ _ H)
      as [-> | (ks & opts & _ & _ & Hks & _ & ->)].
    + split.
      * rewrite withKeyStoreSecret_same. destruct es. reflexivity.
      * intros ks' Hks'. exists ks'. repeat split; try assumption.
    + split.
      * destruct es as [c ? ? ? ? ? ?]. destruct c. cbn in *. subst. reflexivity.
      * intros ks' Hks'. exists ks. cbn in Hks'. injection Hks' as <-.
        repeat split; try assumption. intros key Hkey. cbn.
        apply lookup_insert_ne. congruence.
Qed.

(** In FIPS mode, with a keystore secret: the Java options are written, and
    the password entry of the secret stays. *)
Lemma Objects_frame_witness :
  exists toCreate toDelete es',
    Objects samples.fipsComponent = Some (toCreate, toDelete, es')
    /\ keyStoreData es' !! "ES_JAVA_OPTS" = javaOpts samples.fipsComponent
    /\ is_Some (javaOpts samples.fipsComponent)
    /\ keyStoreData es' !! ElasticsearchKeystoreEnvName = Some "s3cr3t"
    /\ withCfg es' (withKeyStoreSecret (cfg es') (KeyStoreSecret (cfg samples.fipsComponent)))
       = samples.fipsComponent.
Proof.
  destruct (Objects samples.fipsComponent) as [[[toCreate toDelete] es']|] eqn:H.
  - exists toCreate, toDelete, es'. split; [reflexivity|].
    destruct (Objects_frame samples.fipsComponent toCreate toDelete es' H)
      as (Hwrites & _ & Hrest & Hentries).
    destruct (Hwrites samples.keyStoreSecret eq_refl eq_refl eq_refl eq_refl)
      as (opts & Hopts & Hes' & Hentry).
    split; [rewrite Hentry, Hopts; reflexivity|].
    split; [rewrite Hopts; eexists; reflexivity|].
    split; [|exact Hrest].
    unfold keyStoreData. destruct (KeyStoreSecret (cfg es')) as [ks'|] eqn:Hks'.
    + destruct (Hentries ks' eq_refl) as (ks & Hks & _ & _ & Hother).
      injection Hks as <-. rewrite Hother by discriminate. reflexivity.
    + rewrite Hes' in Hks'. discriminate Hks'.
  - vm_compute in H. discriminate H.
Defined.

(** C3 as stated fails: in FIPS mode, with a keystore secret and no
    management cluster connection, the configuration that comes back holds
    an entry ES_JAVA_OPTS in the Data of KeyStoreSecret that was not there
    before. *)
Lemma Objects_writes_KeyStoreSecret :
  exists toCreate toDelete es',
    Objects samples.fipsComponent = Some (toCreate, toDelete, es')
    /\ cfg es' <> cfg samples.fipsComponent
    /\ keyStoreData samples.fipsComponent !! "ES_JAVA_OPTS" = None
    /\ keyStoreData es' !! "ES_JAVA_OPTS"
       = Some ("-Xms2G -Xmx2G --module-path /usr/share/bc-fips/ "
               +:+ "-Djavax.net.ssl.trustStore=/usr/share/elasticsearch/config/cacerts.bcfks "
               +:+ "-Djavax.net.ssl.trustStoreType=BCFKS "
               +:+ "-Djavax.net.ssl.trustStorePassword=s3cr3t "
               +:+ "-Dorg.bouncycastle.fips.approved_only=true").
Proof.
  destruct (Objects samples.fipsComponent) as [[[toCreate toDelete] es']|] eqn:H;
    [|vm_compute in H; discriminate H].
  exists toCreate, toDelete, es'. split; [reflexivity|].
  assert (Hes : es' = setKeyStoreData samples.fipsComponent samples.keyStoreSecret "ES_JAVA_OPTS"
                  ("-Xms2G -Xmx2G --module-path /usr/share/bc-fips/ "
                   +:+ "-Djavax.net.ssl.trustStore=/usr/share/elasticsearch/config/cacerts.bcfks "
                   +:+ "-Djavax.net.ssl.trustStoreType=BCFKS "
                   +:+ "-Djavax.net.ssl.trustStorePassword=s3cr3t "
                   +:+ "-Dorg.bouncycastle.fips.approved_only=true")).
  { destruct (Objects_writes_at_most_javaOpts _ _ _ _ H) as [-> | (ks & opts & _ & _ & Hks & Hopts & ->)].
    - exfalso. vm_compute in H. discriminate H.
    - vm_compute in Hks. vm_compute in Hopts.
      injection Hks as <-. injection Hopts as <-. reflexivity. }
  subst es'. split; [|split].
  - intros Heq. apply (f_equal (fun c => match KeyStoreSecret c with
                                         | Some ks => corev1.Data ks !! "ES_JAVA_OPTS"
                                         | None => None
                                         end)) in Heq.
    vm_compute in Heq. discriminate Heq.
  - reflexivity.
  - reflexivity.
Qed.

(** [Objects] returns whenever the pointers it dereferences are set: the
    LogStorage in the standalone branch, and the unused TLS secret when a
    key pair uses certificate management. *)
Lemma javaOpts_returns es ls ks :
  LogStorage_ (cfg es) = Some ls -> KeyStoreSecret (cfg es) = Some ks ->
  exists opts, javaOpts es = Some opts.
Proof.
  intros Hls Hks. unfold javaOpts, resourceRequirements. rewrite Hls, Hks.
  cbn [mbind option_bind]. destruct (operatorv1.IsFIPSModeEnabled _); eauto.
Qed.

Lemma objectsStandalone_returns es ls :
  LogStorage_ (cfg es) = Some ls -> exists r, objectsStandalone es = Some r.
Proof.
  intros Hls. unfold objectsStandalone. cbv zeta. rewrite Hls.
  cbn [mbind option_bind].
  destruct (operatorv1.IsFIPSModeEnabled _) eqn:Hfips; cbn [negb].
  - destruct (KeyStoreSecret (cfg es)) as [ks|] eqn:Hks.
    + destruct (javaOpts_returns es ls ks Hls Hks) as [opts ->].
      cbn [mbind option_bind]. eauto.
    + cbn [mbind option_bind]. eauto.
  - cbn [mbind option_bind]. eauto.
Qed.

Lemma unusedTLSObjects_returns c toCreate toDelete :
  (is_Some (operatorv1.CertificateManagement (Installation c)) ->
   is_Some (UnusedTLSSecret c)) ->
  exists r, unusedTLSObjects c toCreate toDelete = Some r.
Proof.
  intros H. unfold unusedTLSObjects.
  destruct (operatorv1.CertificateManagement (Installation c)) as [cm|].
  - destruct H as [s Hs]; [eauto|]. rewrite Hs. cbn [mbind option_bind].
    destruct (UseCertificateManagement (ElasticsearchKeyPair c)); cbn [mbind option_bind];
      destruct (KibanaKeyPair c) as [kp|]; try destruct (UseCertificateManagement kp);
      cbn [mbind option_bind]; eauto.
  - destruct (UnusedTLSSecret c); eauto.
Qed.

Lemma Objects_returns es :
  (ManagementClusterConnection (cfg es) = None -> is_Some (LogStorage_ (cfg es))) ->
  (is_Some (operatorv1.CertificateManagement (Installation (cfg es))) ->
   is_Some (UnusedTLSSecret (cfg es))) ->
  exists r, Objects es = Some r.
Proof.
  intros Hls Hunused. unfold Objects.
  destruct (beingDeleted (cfg es)); [eauto|].
  destruct (ManagementClusterConnection (cfg es)) as [mcc|] eqn:Hmcc.
  - cbn [mbind option_bind].
    destruct (unusedTLSObjects_returns (cfg es)
                [CreateNamespace ElasticsearchNamespace
                   (operatorv1.KubernetesProvider (Installation (cfg es))) PSSPrivileged;
                 Rendered elasticsearchExternalService es] [] Hunused) as [[c d] ->].
    cbn [mbind option_bind]. eauto.
  - destruct (Hls eq_refl) as [ls Hl].
    destruct (objectsStandalone_returns es ls Hl) as [[[c1 d1] es1] Hst].
    destruct (objectsStandalone_frame es c1 d1 es1 Hmcc Hst)
      as [-> | (ks & opts & _ & _ & _ & _ & ->)];
      rewrite Hst; cbn [mbind option_bind].
    + destruct (unusedTLSObjects_returns (cfg es) c1 d1 Hunused) as [[c d] ->].
      cbn [mbind option_bind]. eauto.
    + assert (Hun' : is_Some (operatorv1.CertificateManagement
                       (Installation (cfg (setKeyStoreData es ks "ES_JAVA_OPTS" opts)))) ->
                     is_Some (UnusedTLSSecret (cfg (setKeyStoreData es ks "ES_JAVA_OPTS" opts))))
        by exact Hunused.
      destruct (unusedTLSObjects_returns _ c1 d1 Hun') as [[c d] ->].
      cbn [mbind option_bind]. eauto.
Qed.

(** C9. When the LogStorage of the configuration is set and carries a
    deletion timestamp, [Objects] returns nothing to create, leaves the
    component as it is, and lists for deletion exactly the Elasticsearch and
    the Kibana of the configuration that are set and carry no deletion
    timestamp themselves. *)
Theorem Objects_finalizing es ls ts :
  LogStorage_ (cfg es) = Some ls ->
  operatorv1.DeletionTimestamp ls = Some ts ->
  exists toDelete,
    Objects es = Some ([], toDelete, es)
    /\ forall o, o ∈ toDelete <->
         (exists e, Elasticsearch (cfg es) = Some e
                    /\ eck.EsDeletionTimestamp e = None /\ o = ElasticsearchObject e)
         \/ (exists k, Kibana (cfg es) = Some k
                       /\ eck.KbDeletionTimestamp k = None /\ o = KibanaObject k).
Proof.
  intros Hls Hts. exists (objectsToFinalize (cfg es)). split.
  - unfold Objects, beingDeleted. rewrite Hls, Hts. reflexivity.
  - intros o. unfold objectsToFinalize. cbv zeta.
    destruct (Elasticsearch (cfg es)) as [e|];
      [destruct (eck.EsDeletionTimestamp e) eqn:He|];
      (destruct (Kibana (cfg es)) as [k|];
       [destruct (eck.KbDeletionTimestamp k) eqn:Hk|]);
      cbn [app]; rewrite ?elem_of_cons, ?elem_of_nil; split; intros H;
      repeat match goal with
             | H : _ \/ _ |- _ => destruct H
             | H : exists _, _ |- _ => destruct H
             | H : _ /\ _ |- _ => destruct H
             | H : Some _ = Some _ |- _ => injection H as H; subst
             | H : False |- _ => contradiction
             end; subst; try congruence; eauto 8.
Qed.

Lemma Objects_finalizing_witness :
  exists toDelete,
    Objects samples.finalizingComponent = Some ([], toDelete, samples.finalizingComponent)
    /\ forall o, o ∈ toDelete <->
         (exists e, Elasticsearch (cfg samples.finalizingComponent) = Some e
                    /\ eck.EsDeletionTimestamp e = None /\ o = ElasticsearchObject e)
         \/ (exists k, Kibana (cfg samples.finalizingComponent) = Some k
                       /\ eck.KbDeletionTimestamp k = None /\ o = KibanaObject k).
Proof.
  apply (Objects_finalizing samples.finalizingComponent
           (samples.logStorage (Some 1700000000) 3 0) 1700000000);
    reflexivity.
Defined.

Example Objects_finalizing_example :
  Objects samples.finalizingComponent
  = Some ([], [ElasticsearchObject {| eck.EsDeletionTimestamp := None; eck.EsGeneration := 4 |}],
          samples.finalizingComponent).
Proof. reflexivity. Qed.

(** Rendering twice from the same component: the second call starts from
    the configuration the first one wrote to, and writes nothing new,
    because the Java options do not depend on the entry that was
    written. *)
Lemma Objects_twice_same_write es c1 d1 es1 c2 d2 es2 :
  Objects es = Some (c1, d1, es1) ->
  Objects es1 = Some (c2, d2, es2) ->
  es2 = es1.
Proof.
  intros H1 H2.
  destruct (Objects_writes_at_most_javaOpts _ _ _ _ H2) as [-> | (ks' & opts' & Hm' & Hf' & Hks' & Hopts' & ->)];
    [reflexivity|].
  destruct (Objects_writes_at_most_javaOpts _ _ _ _ H1) as [-> | (ks & opts & Hm & Hf & Hks & Hopts & ->)].
  - (* the first call wrote nothing although the second does: impossible *)
    destruct (Objects_writes_at_most_javaOpts _ _ _ _ H1) as [_ | (ks & opts & _ & _ & Hks & Hopts & Heq)].
    + unfold Objects in H1.
      destruct (beingDeleted (cfg es)) eqn:Hdel.
      * unfold Objects in H2. rewrite Hdel in H2.
        injection H2 as _ _ H2. congruence.
      * rewrite Hm' in H1.
        unfold objectsStandalone in H1. cbv zeta in H1.
        destruct (LogStorage_ (cfg es)) as [ls|]; [|discriminate].
        cbn [mbind option_bind] in H1.
        unfold fipsEnabled in Hf'. rewrite Hf', Hks', Hopts' in H1.
        cbn [negb mbind option_bind] in H1.
        destruct (unusedTLSObjects _ _ _) as [[c d]|]; cbn [mbind option_bind] in H1;
          [|discriminate].
        injection H1 as _ _ H1. congruence.
    + rewrite Hks in Hks'. injection Hks' as <-.
      rewrite Hopts in Hopts'. injection Hopts' as <-. congruence.
  - cbn in Hks'. injection Hks' as <-.
    assert (opts' = opts) as ->.
    { clear - Hopts Hopts' Hks.
      unfold javaOpts, resourceRequirements in *. cbn in Hopts'.
      destruct (LogStorage_ (cfg es)) as [ls|]; [|discriminate].
      cbn [mbind option_bind] in *.
      destruct (operatorv1.IsFIPSModeEnabled _).
      - rewrite Hks in Hopts. cbn [mbind option_bind] in *.
        rewrite lookup_insert_ne in Hopts' by discriminate. congruence.
      - congruence. }
    unfold setKeyStoreData. cbn. rewrite insert_insert_eq.
    destruct es as [c ? ? ? ? ? ?]. destruct c. reflexivity.
Qed.

End objects_facts.

(** ** Provider discovery *)

Module discovery_facts.
Import utils spec samples.

Lemma providersOfGroups_elem (groups : list string) (p : operatorv1.Provider) :
  p ∈ providersOfGroups groups <->
  (p = operatorv1.ProviderOpenShift /\ "config.openshift.io" ∈ groups)
  \/ (p = operatorv1.ProviderGKE /\ "networking.gke.io" ∈ groups).
Proof.
  induction groups as [|g groups IH]; simpl.
  - rewrite elem_of_nil. split; [contradiction|].
    intros [[_ H] | [_ H]]; apply elem_of_nil in H; contradiction.
  - rewrite !elem_of_app, IH, !elem_of_cons.
    destruct (String.eqb_spec g "config.openshift.io") as [Ho | Ho];
      destruct (String.eqb_spec g "networking.gke.io") as [Hk | Hk];
      rewrite ?elem_of_cons, ?elem_of_nil; subst; intuition (subst; congruence).
Qed.

Lemma providersOfGroups_NoDup (groups : list string) :
  NoDup groups -> NoDup (providersOfGroups groups).
Proof.
  induction 1 as [|g groups Hnotin Hnodup IH]; simpl; [constructor|].
  destruct (String.eqb_spec g "config.openshift.io") as [Ho | Ho];
    destruct (String.eqb_spec g "networking.gke.io") as [Hk | Hk];
    subst; try discriminate; simpl; try assumption.
  - constructor; [|assumption]. rewrite providersOfGroups_elem.
    intros [[_ H] | [H _]]; [contradiction | discriminate].
  - constructor; [|assumption]. rewrite providersOfGroups_elem.
    intros [[H _] | [_ H]]; [discriminate | contradiction].
Qed.

Lemma hasDockerLabel_spec (labels : gmap string string) :
  hasDockerLabel labels = true <->
  exists key val, labels !! key = Some val /\ golang.HasPrefix key "com.docker.ucp" = true.
Proof.
  unfold hasDockerLabel. rewrite existsb_exists. split.
  - intros ([key val] & Hin & Hpre). exists key, val. split; [|exact Hpre].
    apply elem_of_map_to_list. apply list_elem_of_In. exact Hin.
  - intros (key & val & Hl & Hpre). exists (key, val). split; [|exact Hpre].
    apply list_elem_of_In. apply elem_of_map_to_list. exact Hl.
Qed.

Lemma isDockerEE_spec (c : Clientset) (items : list (gmap string string)) :
  MasterNodes c = inl items ->
  exists b, isDockerEE c = inl b
            /\ (b = true <-> detected c operatorv1.ProviderDockerEE).
Proof.
  intros Hitems. unfold isDockerEE. rewrite Hitems. eexists. split; [reflexivity|].
  rewrite existsb_exists. simpl. split.
  - intros (labels & Hin & Hl). apply hasDockerLabel_spec in Hl as (key & val & Hl & Hpre).
    exists items, labels, key, val. repeat split; try assumption.
    apply list_elem_of_In. exact Hin.
  - intros (items' & labels & key & val & Hitems' & Hin & Hl & Hpre).
    rewrite Hitems in Hitems'. injection Hitems' as <-.
    exists labels. split; [apply list_elem_of_In; exact Hin|].
    apply hasDockerLabel_spec. eauto.
Qed.

Lemma configMapPresent_spec (c : Clientset) (name : string) :
  answered c name ->
  exists b, configMapPresent c name = inl b /\ (b = true <-> configMapExists c name).
Proof.
  unfold answered, configMapPresent, configMapExists.
  destruct (GetKubeSystemConfigMap c name) as [cm | err].
  - intros _. eexists. split; [reflexivity|].
    rewrite bool_decide_eq_true. split.
    + intros [m ->]. eauto.
    + intros (m & Hm). injection Hm as ->. eauto.
  - intros ->. exists false. split; [reflexivity|].
    split; [discriminate|]. intros (m & Hm). discriminate Hm.
Qed.

Lemma only_element {A : Type} (l : list A) (x : A) :
  NoDup l -> x ∈ l -> (forall y, y ∈ l -> y = x) -> l = [x].
Proof.
  intros Hnd Hx Hall. destruct l as [|a l]; [apply elem_of_nil in Hx; contradiction|].
  assert (a = x) as -> by (apply Hall; left).
  destruct l as [|b l]; [reflexivity|].
  assert (b = x) as -> by (apply Hall; right; left).
  apply NoDup_cons in Hnd as [Hnotin _]. exfalso. apply Hnotin. left.
Qed.

Lemma detectedProviders_spec (c : Clientset) :
  queriesSucceed c ->
  exists detectedProviders,
    (forall p, p ∈ detectedProviders <-> detected c p)
    /\ (groupsListedOnce c -> NoDup detectedProviders)
    /\ AutoDiscoverProvider c
       = if (1 <? length detectedProviders)%nat then
           (operatorv1.ProviderNone,
            Some (api.Errorf
                    "Failed to assert provider caused by detection of more than one. Detected providers: %s"
                    (map providerName detectedProviders)))
         else if (length detectedProviders =? 1)%nat then
           (default operatorv1.ProviderNone (head detectedProviders), None)
         else (operatorv1.ProviderNone, None).
Proof.
  intros ((groups & Hgroups) & (items & Hitems) & Heks & Hrke2).
  destruct (isDockerEE_spec c items Hitems) as (d & Hd & Hdspec).
  destruct (configMapPresent_spec c _ Heks) as (e & He & Hespec).
  destruct (configMapPresent_spec c _ Hrke2) as (r & Hr & Hrspec).
  exists (providersOfGroups groups ++ optional d operatorv1.ProviderDockerEE
            ++ optional e operatorv1.ProviderEKS ++ optional r operatorv1.ProviderRKE2).
  split; [|split].
  - intros p. rewrite !elem_of_app, providersOfGroups_elem.
    unfold optional.
    assert (Ho : detected c operatorv1.ProviderOpenShift <-> "config.openshift.io" ∈ groups).
    { simpl. split; [intros (g & Hg & Hin); congruence | eauto]. }
    assert (Hk : detected c operatorv1.ProviderGKE <-> "networking.gke.io" ∈ groups).
    { simpl. split; [intros (g & Hg & Hin); congruence | eauto]. }
    destruct p; destruct d, e, r; rewrite ?elem_of_cons, ?elem_of_nil;
      try (change (detected c operatorv1.ProviderNone) with False);
      try (change (detected c operatorv1.ProviderAKS) with False);
      intuition (try discriminate; try congruence).
  - intros Honce. specialize (Honce groups Hgroups).
    apply NoDup_app. split; [apply providersOfGroups_NoDup; exact Honce|]. split.
    + intros p Hp. apply providersOfGroups_elem in Hp. unfold optional.
      rewrite !elem_of_app. destruct d, e, r; rewrite ?elem_of_cons, ?elem_of_nil;
        intuition (subst; try discriminate; try congruence).
    + unfold optional. destruct d, e, r; simpl; repeat constructor;
        rewrite ?elem_of_cons, ?elem_of_nil; intuition discriminate.
  - unfold AutoDiscoverProvider, autodetectFromGroup, isEKS, isRKE2.
    rewrite Hgroups, Hd, He, Hr. unfold optional.
    destruct d, e, r; cbn [app]; rewrite ?app_nil_r, <- ?app_assoc; reflexivity.
Qed.

(** C6. When no query fails (the group and node lists are returned, each
    ConfigMap is returned or reported as not found), [AutoDiscoverProvider]
    returns the provider the cluster shows, with a nil error, when it shows
    exactly one of OpenShift, GKE, Docker EE, EKS and RKE2; it returns
    ProviderNone with an error when the cluster shows more than one; and
    ProviderNone with a nil error when it shows none.  The list of API
    groups is one the discovery API returns: it names each group once. *)
Theorem AutoDiscoverProvider_spec (c : Clientset) :
  queriesSucceed c ->
  groupsListedOnce c ->
  (forall p, detected c p -> (forall q, detected c q -> q = p) ->
     AutoDiscoverProvider c = (p, None))
  /\ (forall p q, detected c p -> detected c q -> p <> q ->
        fst (AutoDiscoverProvider c) = operatorv1.ProviderNone
        /\ is_Some (snd (AutoDiscoverProvider c)))
  /\ ((forall p, ~ detected c p) ->
        AutoDiscoverProvider c = (operatorv1.ProviderNone, None)).
Proof.
  intros Hq Honce.
  destruct (detectedProviders_spec c Hq) as (l & Hmem & Hnodup & ->).
  specialize (Hnodup Honce).
  split; [|split].
  - intros p Hp Honly.
    rewrite (only_element l p Hnodup); [reflexivity | apply Hmem; exact Hp |].
    intros y Hy. apply Honly. apply Hmem. exact Hy.
  - intros p q Hp Hq' Hne.
    apply Hmem in Hp. apply Hmem in Hq'.
    destruct l as [|a [|b l]].
    + apply elem_of_nil in Hp. contradiction.
    + apply list_elem_of_singleton in Hp. apply list_elem_of_singleton in Hq'. congruence.
    + split; [reflexivity | eexists; reflexivity].
  - intros Hnone. destruct l as [|a l]; [reflexivity|].
    exfalso. apply (Hnone a). apply Hmem. left.
Qed.

Lemma AutoDiscoverProvider_spec_witness :
  (forall p, detected eksClientset p -> (forall q, detected eksClientset q -> q = p) ->
     AutoDiscoverProvider eksClientset = (p, None))
  /\ (forall p q, detected eksClientset p -> detected eksClientset q -> p <> q ->
        fst (AutoDiscoverProvider eksClientset) = operatorv1.ProviderNone
        /\ is_Some (snd (AutoDiscoverProvider eksClientset)))
  /\ ((forall p, ~ detected eksClientset p) ->
        AutoDiscoverProvider eksClientset = (operatorv1.ProviderNone, None)).
Proof.
  apply (AutoDiscoverProvider_spec eksClientset).
  - repeat split; try (eexists; reflexivity); reflexivity.
  - intros groups H. injection H as <-. compute_done.
Defined.

Example AutoDiscoverProvider_eks :
  AutoDiscoverProvider eksClientset = (operatorv1.ProviderEKS, None).
Proof. reflexivity. Qed.

(** Where the list of API groups matters: [autodetectFromGroup] adds a
    provider for every entry of the list that matches, so on a list that
    named a group twice (which the discovery API does not return) the one
    provider shown would be counted twice. *)
Lemma AutoDiscoverProvider_repeated_group :
  queriesSucceed repeatedGroupClientset
  /\ detected repeatedGroupClientset operatorv1.ProviderOpenShift
  /\ (forall q, detected repeatedGroupClientset q -> q = operatorv1.ProviderOpenShift)
  /\ AutoDiscoverProvider repeatedGroupClientset
     <> (operatorv1.ProviderOpenShift, None)
  /\ AutoDiscoverProvider repeatedGroupClientset
     = (operatorv1.ProviderNone,
        Some (api.Errorf
                "Failed to assert provider caused by detection of more than one. Detected providers: %s"
                ["OpenShift"; "OpenShift"])).
Proof.
  split; [|split; [|split; [|split]]].
  - repeat split; try (eexists; reflexivity); reflexivity.
  - simpl. eexists. split; [reflexivity|]. left.
  - intros q Hq. destruct q; simpl in Hq; try contradiction; try reflexivity.
    + destruct Hq as (cm & Hcm). discriminate Hcm.
    + destruct Hq as (groups & Hg & Hin). injection Hg as <-.
      exfalso. revert Hin. rewrite !elem_of_cons, elem_of_nil.
      intuition discriminate.
    + destruct Hq as (items & labels & key & val & Hitems & Hin & _).
      injection Hitems as <-. apply elem_of_nil in Hin. contradiction.
    + destruct Hq as (cm & Hcm). discriminate Hcm.
  - discriminate.
  - reflexivity.
Qed.

End discovery_facts.

(** ** Reconciling the log collector *)

Module reconcile_facts.
Import logcollector spec samples.

Ltac exec :=
  cbv beta iota zeta delta [mbind mret Exec_bind Exec_ret degraded return_ emit try] in *.

Lemma fetchInstance_events (w : World) (t t' : list Event) r :
  fetchInstance w t = (t', r) ->
  exists evs, t' = t ++ evs /\ Forall notApplied evs.
Proof.
  unfold fetchInstance. exec.
  destruct (GetLogCollector w) as [instance | err]; cbn beta iota.
  - destruct (fillDefaults instance) as [instance' modifiedFields].
    destruct (0 <? length modifiedFields)%nat; cbn beta iota.
    + destruct (Patch (client w) instance') as [err|]; cbn beta iota;
        intros H; injection H as <- <-;
        rewrite <- ?app_assoc; eexists; (split; [reflexivity|]);
        repeat constructor.
    + intros H; injection H as <- <-. eexists; (split; [reflexivity|]); repeat constructor.
  - destruct (api.IsNotFound err); cbn beta iota; intros H; injection H as <- <-;
      rewrite <- ?app_assoc; eexists; (split; [reflexivity|]); repeat constructor.
Qed.

Lemma prerequisites_met (w : World) (t t' : list Event) (license : string) :
  prerequisites w t = (t', inl license) ->
  gatesPass w /\ t' = t /\ FetchLicenseKey w = inl license.
Proof.
  unfold prerequisites, gatesPass. exec.
  destruct (IsAPIServerReady w); cbn [negb]; cbn beta iota; [|discriminate].
  destruct (tierWatchReady w); cbn [negb]; cbn beta iota; [|discriminate].
  destruct (GetTier (client w)) as [err|]; cbn beta iota;
    [destruct (api.IsNotFound err); discriminate|].
  destruct (licenseAPIReady w); cbn [negb]; cbn beta iota; [|discriminate].
  destruct (FetchLicenseKey w) as [lic | err]; cbn beta iota;
    [|destruct (api.IsNotFound err); discriminate].
  intros H. injection H as <- <-. repeat split; eauto.
Qed.

Lemma prerequisites_unmet (w : World) (t t' : list Event) (o : Outcome) :
  prerequisites w t = (t', inr o) ->
  ~ gatesPass w /\ exists reason msg, t' = t ++ [SetDegraded reason msg].
Proof.
  unfold prerequisites, gatesPass. exec.
  destruct (IsAPIServerReady w) eqn:Hapi; cbn [negb]; cbn beta iota.
  2: { intros H. injection H as <- _. split; [intros (? & _); discriminate | eauto]. }
  destruct (tierWatchReady w) eqn:Htw; cbn [negb]; cbn beta iota.
  2: { intros H. injection H as <- _. split; [intros (_ & ? & _); discriminate | eauto]. }
  destruct (GetTier (client w)) as [err|] eqn:Htier; cbn beta iota.
  { destruct (api.IsNotFound err); cbn beta iota; intros H; injection H as <- _;
      (split; [intros (_ & _ & ? & _); discriminate | eauto]). }
  destruct (licenseAPIReady w) eqn:Hlic; cbn [negb]; cbn beta iota.
  2: { intros H. injection H as <- _.
       split; [intros (_ & _ & _ & ? & _); discriminate | eauto]. }
  destruct (FetchLicenseKey w) as [lic | err] eqn:Hfetch; cbn beta iota; [discriminate|].
  destruct (api.IsNotFound err); cbn beta iota; intros H; injection H as <- _;
    (split; [intros (_ & _ & _ & _ & ? & ?); discriminate | eauto]).
Qed.

Lemma Forall_notApplied_no_apply (evs : list Event) :
  Forall notApplied evs -> ~ applies evs.
Proof.
  intros Hall (comp & Hin). rewrite Forall_forall in Hall.
  exact (Hall _ Hin).
Qed.

(** C4. [Reconcile] hands a rendered component to CreateOrUpdateOrDelete
    only in a run in which the Tigera API server is ready, the tier watch
    is established, the allow-tigera tier exists, the license API is ready
    and the license key was fetched; and a run that gets as far as these
    prerequisites and finds one of them unmet applies nothing and ends by
    setting a degraded status. *)
Theorem Reconcile_applies_only_past_prerequisites (w : World) :
  (applies (fst (Reconcile w)) -> gatesPass w)
  /\ (reachesPrerequisites w -> ~ gatesPass w ->
      ~ applies (fst (Reconcile w)) /\ endsDegraded (fst (Reconcile w))).
Proof.
  unfold Reconcile, reconcile. exec.
  destruct (fetchInstance w []) as [t1 [instance | o1]] eqn:Hfetch; cbn beta iota.
  - destruct (fetchInstance_events _ _ _ _ Hfetch) as (evs & -> & Hevs). cbn [app] in *.
    destruct (prerequisites w evs) as [t2 [license | o2]] eqn:Hpre; cbn beta iota.
    + destruct (prerequisites_met _ _ _ _ Hpre) as (Hgates & -> & _).
      split; [intros _; exact Hgates | intros _ Hn; contradiction].
    + destruct (prerequisites_unmet _ _ _ _ Hpre) as (Hunmet & reason & msg & ->).
      cbn [fst]. split.
      * intros (comp & Hin). exfalso. apply elem_of_app in Hin as [Hin | Hin].
        -- apply (Forall_notApplied_no_apply evs Hevs). exists comp. exact Hin.
        -- apply list_elem_of_singleton in Hin. discriminate Hin.
      * intros _ _. split.
        -- intros (comp & Hin). apply elem_of_app in Hin as [Hin | Hin].
           ++ apply (Forall_notApplied_no_apply evs Hevs). exists comp. exact Hin.
           ++ apply list_elem_of_singleton in Hin. discriminate Hin.
        -- exists reason, msg. apply last_snoc.
  - destruct (fetchInstance_events _ _ _ _ Hfetch) as (evs & -> & Hevs). cbn [app fst] in *.
    split.
    + intros Happ. exfalso. exact (Forall_notApplied_no_apply evs Hevs Happ).
    + intros (t & instance & Hreach). congruence.
Qed.

(** C5. When [Reconcile] stops because the tier watch is not established,
    the allow-tigera tier is not found, the license API is not ready or the
    license key is not found, it returns a Result with RequeueAfter of ten
    seconds and a nil error. *)
Theorem Reconcile_requeues_after_ten_seconds (w : World) :
  reachesPrerequisites w ->
  IsAPIServerReady w = true ->
  mustWait w ->
  snd (Reconcile w) = ({| Requeue := false; RequeueAfter := 10 * Second |}, None).
Proof.
  intros (t & instance & Hfetch) Hapi Hwait.
  unfold Reconcile, reconcile. exec. rewrite Hfetch.
  unfold prerequisites. exec. rewrite Hapi. cbn [negb].
  destruct Hwait as [Htw | [(Htw & err & Htier & Hnf) | [(Htw & Htier & Hlic)
                    | (Htw & Htier & Hlic & err & Hfetchlic & Hnf)]]].
  - rewrite Htw. reflexivity.
  - rewrite Htw, Htier, Hnf. reflexivity.
  - rewrite Htw, Htier, Hlic. reflexivity.
  - rewrite Htw, Htier, Hlic, Hfetchlic, Hnf. reflexivity.
Qed.

Lemma Reconcile_requeues_after_ten_seconds_witness :
  snd (Reconcile noLicenseWorld)
  = ({| Requeue := false; RequeueAfter := 10 * Second |}, None).
Proof.
  apply (Reconcile_requeues_after_ten_seconds noLicenseWorld).
  - eexists. eexists. reflexivity.
  - reflexivity.
  - right. right. right. repeat split. exists notFound. split; reflexivity.
Defined.

(** Ten seconds, in the nanoseconds of time.Duration. *)
Example ten_seconds : 10 * Second = 10000000000.
Proof. reflexivity. Qed.

(** With every prerequisite met the run does apply what it rendered, and
    ends without a degraded status. *)
Example Reconcile_ready_applies :
  applies (fst (Reconcile readyWorld))
  /\ last (fst (Reconcile readyWorld)) = Some (StatusUpdated
       {| operatorv1.LogCollectorSpec_ := operatorv1.LogCollectorSpec_ sampleInstance;
          operatorv1.State := "Ready" |})
  /\ snd (Reconcile readyWorld) = (Result_zero, None).
Proof.
  split; [|split]; [|reflexivity|reflexivity].
  eexists. unfold Reconcile. cbn.
  do 3 right. left.
Qed.

Example Reconcile_no_license :
  fst (Reconcile noLicenseWorld) = [OnCRFound; SetDegraded "License not found" "not found"].
Proof. reflexivity. Qed.

End reconcile_facts.

(** ** Further properties of the renderers, the controller and discovery *)

Module requirements_facts.
Import render props.

Lemma has_spec (rl : corev1.ResourceList) (k : string) :
  has rl k = true /\ (exists q, rl !! k = Some q) \/ has rl k = false /\ rl !! k = None.
Proof.
  unfold has. destruct (rl !! k) as [q|] eqn:E.
  - left. split; [apply bool_decide_eq_true; eauto | eauto].
  - right. split; [apply bool_decide_eq_false; intros [? ?]; discriminate | reflexivity].
Qed.

Ltac cases_has :=
  repeat match goal with
         | |- context [has ?rl ?k] =>
             let q := fresh "q" in
             let Hh := fresh "Hh" in
             let Hq := fresh "Hq" in
             destruct (has_spec rl k) as [[Hh [q Hq]] | [Hh Hq]]; rewrite Hh
         end.

Ltac cases_if :=
  repeat match goal with
         | |- context [if ?b then _ else _] => destruct b eqn:?
         end.

(** Which entries of the result come from the user and which from the
    defaults. *)
Lemma override_lookup (defaultReq userOverrides : corev1.ResourceRequirements) (k : string) :
  let r := overrideResourceRequirements defaultReq userOverrides in
  (k = "cpu" \/ k = "memory" ->
     (forall q, corev1.Limits userOverrides !! k = Some q -> corev1.Limits r !! k = Some q)
     /\ (forall q, corev1.Requests userOverrides !! k = Some q ->
           corev1.Requests r !! k = Some q)
     /\ (corev1.Limits userOverrides !! k = None ->
         corev1.Requests userOverrides !! k = None ->
         corev1.Limits r !! k = corev1.Limits defaultReq !! k
         /\ corev1.Requests r !! k = corev1.Requests defaultReq !! k))
  /\ (k <> "cpu" -> k <> "memory" ->
      corev1.Limits r !! k = corev1.Limits defaultReq !! k
      /\ corev1.Requests r !! k = corev1.Requests defaultReq !! k).
Proof.
  destruct defaultReq as [dL dR], userOverrides as [uL uR].
  unfold overrideResourceRequirements. cbn [corev1.Limits corev1.Requests]. cbv zeta.
  split.
  - intros [-> | ->]; cases_has; cbn [negb andb]; cases_if;
      unfold setLimit, setRequest, corev1.Cpu, corev1.Memory, corev1.Name;
      cbn [corev1.Limits corev1.Requests];
      (split; [|split]); intros; simplify_map_eq; try done.
  - intros Hc Hm. cases_has; cbn [negb andb]; cases_if;
      unfold setLimit, setRequest; cbn [corev1.Limits corev1.Requests];
      split; simplify_map_eq; done.
Qed.

(** The request that results when the user gives a limit and no request. *)
Lemma limit_only_request
  (defaultReq userOverrides : corev1.ResourceRequirements) (k : string)
  (limit request : resource.Quantity) :
  k = "cpu" \/ k = "memory" ->
  corev1.Limits userOverrides !! k = Some limit ->
  corev1.Requests userOverrides !! k = None ->
  corev1.Requests defaultReq !! k = Some request ->
  let r := overrideResourceRequirements defaultReq userOverrides in
  corev1.Limits r !! k = Some limit
  /\ corev1.Requests r !! k
     = Some (if resource.Value limit <? resource.Value request then limit else request).
Proof.
  intros Hk HL HR HD.
  destruct defaultReq as [dL dR], userOverrides as [uL uR].
  cbn [corev1.Limits corev1.Requests] in *.
  unfold overrideResourceRequirements. cbn [corev1.Limits corev1.Requests]. cbv zeta.
  destruct (resource.Value limit <? resource.Value request) eqn:Hcmp;
  destruct Hk as [-> | ->]; cases_has; cbn [negb andb]; cases_if;
    unfold setLimit, setRequest, corev1.Cpu, corev1.Memory, corev1.Name in *;
    cbn [corev1.Limits corev1.Requests] in *;
    simplify_map_eq; try done; try lia.
Qed.

Lemma Value_whole (q : resource.Quantity) :
  whole q ->
  resource.Value q = resource.value (resource.i q) * 10 ^ resource.scale (resource.i q).
Proof.
  intros [Hs Hfit]. unfold resource.Value.
  destruct (Z.ltb_spec (resource.scale (resource.i q)) 0); [lia|].
  unfold resource.positiveScaleInt64. rewrite Hfit. reflexivity.
Qed.

(** On whole quantities the exact comparison [Cmp] and the comparison of
    the [Value()]s agree. *)
Lemma Cmp_whole (x y : resource.Quantity) :
  whole x -> whole y ->
  resource.Cmp x y = sign (resource.Value x ?= resource.Value y).
Proof.
  intros Hx Hy. rewrite (Value_whole x Hx), (Value_whole y Hy).
  destruct Hx as [Hsx _], Hy as [Hsy _].
  unfold resource.Cmp, inf.Cmp, resource.AsDec. cbn [inf.Scale inf.UnscaledBig].
  set (vx := resource.value (resource.i x)). set (vy := resource.value (resource.i y)).
  set (sx := resource.scale (resource.i x)) in *.
  set (sy := resource.scale (resource.i y)) in *.
  set (m := Z.min sx sy).
  replace (Z.max (- sx) (- sy)) with (- m) by lia.
  replace (- m - - sx) with (sx - m) by lia.
  replace (- m - - sy) with (sy - m) by lia.
  assert (Hx : vx * 10 ^ sx = vx * 10 ^ (sx - m) * 10 ^ m).
  { rewrite <- Z.mul_assoc, <- Z.pow_add_r by lia. f_equal. f_equal. lia. }
  assert (Hy : vy * 10 ^ sy = vy * 10 ^ (sy - m) * 10 ^ m).
  { rewrite <- Z.mul_assoc, <- Z.pow_add_r by lia. f_equal. f_equal. lia. }
  rewrite Hx, Hy.
  assert (Hpos : 0 < 10 ^ m) by (apply Z.pow_pos_nonneg; lia).
  rewrite <- (Zmult_compare_compat_r _ _ (10 ^ m)) by lia. reflexivity.
Qed.

Lemma Cmp_refl (x : resource.Quantity) : resource.Cmp x x = 0.
Proof. unfold resource.Cmp, inf.Cmp. rewrite Z.compare_refl. reflexivity. Qed.

(** X1. [overrideResourceRequirements] takes every cpu and memory limit and
    request the user gives as it is; where the user gives neither a limit
    nor a request for cpu (or memory) the defaults stay; and entries for
    any other resource are the defaults', whatever the user gives for
    them. *)
Theorem overrideResourceRequirements_user_values
  (defaultReq userOverrides : corev1.ResourceRequirements) (k : string) :
  let r := overrideResourceRequirements defaultReq userOverrides in
  (k = "cpu" \/ k = "memory" ->
     (forall q, corev1.Limits userOverrides !! k = Some q -> corev1.Limits r !! k = Some q)
     /\ (forall q, corev1.Requests userOverrides !! k = Some q ->
           corev1.Requests r !! k = Some q)
     /\ (corev1.Limits userOverrides !! k = None ->
         corev1.Requests userOverrides !! k = None ->
         corev1.Limits r !! k = corev1.Limits defaultReq !! k
         /\ corev1.Requests r !! k = corev1.Requests defaultReq !! k))
  /\ (k <> "cpu" -> k <> "memory" ->
      corev1.Limits r !! k = corev1.Limits defaultReq !! k
      /\ corev1.Requests r !! k = corev1.Requests defaultReq !! k).
Proof. exact (override_lookup defaultReq userOverrides k). Qed.

(** X2. When the user gives a limit and no request for cpu (or memory), and
    that limit and the default request are whole numbers,
    [overrideResourceRequirements] returns the user's limit and a request
    that does not exceed it: the user's limit itself when it is below the
    default request, the default request otherwise. *)
Theorem overrideResourceRequirements_whole_limit
  (defaultReq userOverrides : corev1.ResourceRequirements) (k : string)
  (limit request : resource.Quantity) :
  k = "cpu" \/ k = "memory" ->
  corev1.Limits userOverrides !! k = Some limit ->
  corev1.Requests userOverrides !! k = None ->
  corev1.Requests defaultReq !! k = Some request ->
  whole limit -> whole request ->
  let r := overrideResourceRequirements defaultReq userOverrides in
  corev1.Limits r !! k = Some limit
  /\ (resource.Cmp limit request < 0 -> corev1.Requests r !! k = Some limit)
  /\ (0 <= resource.Cmp limit request -> corev1.Requests r !! k = Some request)
  /\ exists rq, corev1.Requests r !! k = Some rq /\ resource.Cmp rq limit <= 0.
Proof.
  intros Hk HL HR HD Hwl Hwr r.
  destruct (limit_only_request defaultReq userOverrides k limit request Hk HL HR HD)
    as (Hlim & Hreq); fold r in Hlim, Hreq.
  pose proof (Cmp_whole limit request Hwl Hwr) as Hcmp.
  pose proof (Cmp_whole request limit Hwr Hwl) as Hcmp'.
  split; [exact Hlim|].
  destruct (Z.ltb_spec (resource.Value limit) (resource.Value request)) as [Hlt | Hge].
  - rewrite (proj2 (Z.compare_lt_iff _ _) Hlt) in Hcmp. simpl in Hcmp.
    split; [intros _; exact Hreq|]. split; [intros Hno; lia|].
    eexists. split; [exact Hreq|]. rewrite Cmp_refl. lia.
  - assert (Hsign : 0 <= resource.Cmp limit request /\ resource.Cmp request limit <= 0).
    { rewrite Hcmp, Hcmp'.
      destruct (Z.compare_spec (resource.Value limit) (resource.Value request));
        destruct (Z.compare_spec (resource.Value request) (resource.Value limit));
        simpl; lia. }
    split; [intros Hno; lia|]. split; [intros _; exact Hreq|].
    eexists. split; [exact Hreq|]. lia.
Qed.

(** A limit of 2Gi against the default request of 4Gi: the request becomes
    2Gi. *)
Lemma overrideResourceRequirements_whole_limit_witness :
  let r := overrideResourceRequirements samples.defaultRequirements fixtures.memoryLimitOnly in
  corev1.Limits r !! "memory" = Some (MustParse_Gi 2)
  /\ corev1.Requests r !! "memory" = Some (MustParse_Gi 2).
Proof.
  destruct (overrideResourceRequirements_whole_limit samples.defaultRequirements
              fixtures.memoryLimitOnly "memory" (MustParse_Gi 2) MustParse_4Gi)
    as (Hlimit & Hbelow & _).
  - right. reflexivity.
  - reflexivity.
  - reflexivity.
  - reflexivity.
  - split; [simpl; lia | reflexivity].
  - split; [simpl; lia | reflexivity].
  - split; [exact Hlimit|]. apply Hbelow. reflexivity.
Defined.

Lemma heap_of_default : memoryQuantityToJVMHeapSize MustParse_4Gi = "2G".
Proof. vm_compute. reflexivity. Qed.

Lemma default_memory_value : resource.Value MustParse_4Gi = 4294967296.
Proof. reflexivity. Qed.

(** X5. With a LogStorage set and FIPS mode off, the heap that [javaOpts]
    gives the JVM is read off the memory request of the Elasticsearch
    container: -Xms2G -Xmx2G when the user says nothing about memory; the
    heap for the user's memory request when there is one; and, when the
    user gives a memory limit only, the heap for that limit if it is below
    4Gi and the heap for 4Gi otherwise.  -Xms and -Xmx are always equal. *)
Theorem javaOpts_heap (es : elasticsearchComponent) (ls : operatorv1.LogStorage) :
  LogStorage_ (cfg es) = Some ls ->
  operatorv1.IsFIPSModeEnabled (operatorv1.FIPSMode_ (Installation (cfg es))) = false ->
  let opts (q : resource.Quantity) :=
    "-Xms" +:+ memoryQuantityToJVMHeapSize q +:+ " -Xmx" +:+ memoryQuantityToJVMHeapSize q in
  ((forall u, userResourceRequirements ls = Some u ->
      corev1.Requests u !! "memory" = None /\ corev1.Limits u !! "memory" = None) ->
   javaOpts es = Some "-Xms2G -Xmx2G")
  /\ (forall u q, userResourceRequirements ls = Some u ->
        corev1.Requests u !! "memory" = Some q ->
        javaOpts es = Some (opts q))
  /\ (forall u l, userResourceRequirements ls = Some u ->
        corev1.Requests u !! "memory" = None ->
        corev1.Limits u !! "memory" = Some l ->
        javaOpts es
        = Some (opts (if resource.Value l <? 4294967296 then l else MustParse_4Gi))).
Proof.
  intros Hls Hfips opts.
  unfold javaOpts, resourceRequirements. rewrite Hls, Hfips. cbn [mbind option_bind].
  set (defaults := {| corev1.Limits := _; corev1.Requests := _ |}).
  destruct (userResourceRequirements ls) as [u|] eqn:Hu.
  - destruct (override_lookup defaults u "memory") as [Hmem _].
    destruct (Hmem (or_intror eq_refl)) as (_ & Hreq & Hnone).
    split; [|split].
    + intros Hno. destruct (Hno u eq_refl) as [HnoR HnoL].
      destruct (Hnone HnoL HnoR) as [_ HR].
      unfold corev1.Memory, corev1.Name. rewrite HR. subst defaults. cbn [corev1.Requests].
      simplify_map_eq. rewrite heap_of_default. reflexivity.
    + intros u' q [= <-] Hq. unfold corev1.Memory, corev1.Name. rewrite (Hreq q Hq).
      reflexivity.
    + intros u' l [= <-] HnoR HL.
      destruct (limit_only_request defaults u "memory" l MustParse_4Gi
                  (or_intror eq_refl) HL HnoR) as [_ HR].
      { subst defaults. cbn [corev1.Requests]. simplify_map_eq. reflexivity. }
      unfold corev1.Memory, corev1.Name. rewrite HR. rewrite default_memory_value.
      reflexivity.
  - split; [reflexivity|]. split; intros; discriminate.
Qed.

Lemma javaOpts_heap_witness : javaOpts (samples.component 3 0) = Some "-Xms2G -Xmx2G".
Proof.
  destruct (javaOpts_heap (samples.component 3 0) (samples.logStorage None 3 0)
              eq_refl eq_refl) as [Hdefault _].
  apply Hdefault. intros u Hu. discriminate Hu.
Defined.

End requirements_facts.

Module storage_facts.
Import render props.

(** What [overridePvcRequirements] takes from the user and what from the
    defaults. *)
Lemma overridePvcRequirements_lookup
  (defaultReq userOverrides : corev1.ResourceRequirements) :
  let r := overridePvcRequirements defaultReq userOverrides in
  (forall q, corev1.Requests userOverrides !! "storage" = Some q ->
     corev1.Requests r !! "storage" = Some q)
  /\ (forall q, corev1.Limits userOverrides !! "storage" = Some q ->
        corev1.Limits r = {[ "storage" := q ]})
  /\ (corev1.Limits userOverrides !! "storage" = None ->
      corev1.Limits r = corev1.Limits defaultReq)
  /\ (forall k, k <> "storage" ->
        corev1.Requests r !! k = corev1.Requests defaultReq !! k)
  /\ (is_Some (corev1.Requests defaultReq !! "storage") ->
      is_Some (corev1.Requests r !! "storage")).
Proof.
  destruct defaultReq as [dL dR], userOverrides as [uL uR].
  unfold overridePvcRequirements, has. cbn [corev1.Limits corev1.Requests]. cbv zeta.
  destruct (uL !! "storage") as [lim|] eqn:HL;
    destruct (uR !! "storage") as [req|] eqn:HR;
    rewrite ?(bool_decide_eq_true_2 _ (mk_is_Some _ _ eq_refl));
    rewrite ?bool_decide_eq_false_2 by (intros [? ?]; discriminate);
    cbn [negb];
    repeat match goal with |- context [if ?b then _ else _] => destruct b end;
    unfold setRequest; cbn [corev1.Limits corev1.Requests];
    repeat split; intros; simplify_map_eq; try done.
Qed.

(** X3. [overridePvcRequirements] takes the user's storage request when
    there is one; a storage limit of the user replaces the whole map of
    limits by a map with that one entry, and without one the limits are the
    defaults'; every request other than storage is the defaults'; and the
    result has a storage request whenever the defaults have one. *)
Theorem overridePvcRequirements_storage
  (defaultReq userOverrides : corev1.ResourceRequirements) :
  let r := overridePvcRequirements defaultReq userOverrides in
  (forall q, corev1.Requests userOverrides !! "storage" = Some q ->
     corev1.Requests r !! "storage" = Some q)
  /\ (forall q, corev1.Limits userOverrides !! "storage" = Some q ->
        corev1.Limits r = {[ "storage" := q ]})
  /\ (corev1.Limits userOverrides !! "storage" = None ->
      corev1.Limits r = corev1.Limits defaultReq)
  /\ (forall k, k <> "storage" ->
        corev1.Requests r !! k = corev1.Requests defaultReq !! k)
  /\ (is_Some (corev1.Requests defaultReq !! "storage") ->
      is_Some (corev1.Requests r !! "storage")).
Proof. exact (overridePvcRequirements_lookup defaultReq userOverrides). Qed.

(** X4. With a LogStorage set, [pvcTemplate] returns a claim named
    elasticsearch-data, of the storage class of the LogStorage, that always
    requests storage: 10Gi when the user's resource requirements say
    nothing about storage (or are absent), and the user's storage request
    when they give one. *)
Theorem pvcTemplate_requests_storage (es : elasticsearchComponent)
  (ls : operatorv1.LogStorage) :
  LogStorage_ (cfg es) = Some ls ->
  exists pvc,
    pvcTemplate es = Some pvc
    /\ corev1.PVCName pvc = "elasticsearch-data"
    /\ corev1.StorageClassName pvc = operatorv1.StorageClassName (operatorv1.Spec ls)
    /\ is_Some (corev1.Requests (corev1.Resources pvc) !! "storage")
    /\ ((forall u, userResourceRequirements ls = Some u ->
           corev1.Requests u !! "storage" = None /\ corev1.Limits u !! "storage" = None) ->
        corev1.Requests (corev1.Resources pvc) !! "storage"
        = Some (MustParse_Gi DefaultElasticStorageGi))
    /\ (forall u q, userResourceRequirements ls = Some u ->
          corev1.Requests u !! "storage" = Some q ->
          corev1.Requests (corev1.Resources pvc) !! "storage" = Some q).
Proof.
  intros Hls. unfold pvcTemplate. rewrite Hls. cbn [mbind option_bind].
  eexists. split; [reflexivity|]. cbn [corev1.PVCName corev1.StorageClassName corev1.Resources].
  split; [reflexivity|]. split; [reflexivity|].
  destruct (userResourceRequirements ls) as [u|] eqn:Hu.
  - pose proof (overridePvcRequirements_lookup
                  {| corev1.Limits := ∅;
                     corev1.Requests := {[ "storage" := MustParse_Gi DefaultElasticStorageGi ]} |}
                  u) as H.
    cbv zeta in H. destruct H as (Hreq & Hlim & Hnolim & Hother & Hsome).
    cbn [corev1.Limits corev1.Requests] in *.
    split; [apply Hsome; rewrite lookup_singleton_eq; eauto|].
    split.
    + intros Hno. destruct (Hno u eq_refl) as [HnoR HnoL].
      clear Hreq Hlim Hnolim Hother Hsome.
      destruct u as [uL uR]. cbn [corev1.Limits corev1.Requests] in *.
      unfold overridePvcRequirements. cbn [corev1.Limits corev1.Requests]. cbv zeta.
      rewrite HnoL, HnoR. cbn [corev1.Requests]. apply lookup_singleton_eq.
    + intros u' q [= <-] Hq. apply Hreq. exact Hq.
  - cbn [corev1.Requests]. rewrite lookup_singleton_eq.
    split; [eauto|]. split; [reflexivity|]. intros u q Hfalse. discriminate.
Qed.

(** A LogStorage of the samples, with no resource requirements of the
    user. *)
Lemma pvcTemplate_requests_storage_witness :
  exists pvc,
    pvcTemplate (samples.component 3 0) = Some pvc
    /\ corev1.Requests (corev1.Resources pvc) !! "storage"
       = Some (MustParse_Gi DefaultElasticStorageGi).
Proof.
  destruct (pvcTemplate_requests_storage (samples.component 3 0)
              (samples.logStorage None 3 0) eq_refl)
    as (pvc & Hpvc & _ & _ & _ & Hdefault & _).
  exists pvc. split; [exact Hpvc|]. apply Hdefault. intros u Hu. discriminate Hu.
Defined.

End storage_facts.

Module nodeset_shape_facts.
Import render props.

Section Shape.

Variable Marshal : corev1.PersistentVolumeClaim -> option (list Byte.byte).

(** What the loop over the configured NodeSets builds: the NodeSet at
    position [j] comes from the configuration at position [j], and is the
    loop body run at index [i + j]. *)
Lemma nodeSetsFrom_shape es pvc (N K : Z) (rest : list operatorv1.NodeSet) :
  forall (i : Z) (sets : list esv1.NodeSet),
  nodeSetsFrom Marshal es pvc N K i rest = Some sets ->
  forall (j : nat) (ns : esv1.NodeSet), sets !! j = Some ns ->
  exists conf pt numNodes,
    rest !! j = Some conf
    /\ podTemplate es = Some pt
    /\ ns = nodeSetFor Marshal es pvc pt (i + Z.of_nat j) numNodes conf.
Proof.
  induction rest as [|conf rest IH]; intros i sets Hsets j ns Hj.
  - cbn in Hsets. injection Hsets as <-. rewrite lookup_nil in Hj. discriminate.
  - cbn [nodeSetsFrom] in Hsets. cbv zeta in Hsets.
    match type of Hsets with (if ?b then _ else _) = _ => destruct b end.
    { injection Hsets as <-. rewrite lookup_nil in Hj. discriminate. }
    destruct (podTemplate es) as [pt|] eqn:Hpt; [|discriminate].
    cbn [mbind option_bind] in Hsets.
    destruct (nodeSetsFrom Marshal es pvc N K (i + 1) rest) as [sets'|] eqn:Hrest;
      [|discriminate].
    cbn [mbind option_bind] in Hsets. injection Hsets as <-.
    destruct j as [|j].
    + cbn in Hj. injection Hj as <-. exists conf, pt. eexists.
      split; [reflexivity|]. split; [reflexivity|].
      replace (i + Z.of_nat 0) with i by lia. reflexivity.
    + cbn in Hj. destruct (IH (i + 1) sets' Hrest j ns Hj) as (conf' & pt' & n & Hc & Hp & ->).
      exists conf', pt', n. split; [exact Hc|]. split; [exact Hp|].
      replace (i + 1 + Z.of_nat j) with (i + Z.of_nat (S j)) by lia. reflexivity.
Qed.

Lemma nodeSetFor_Name es pvc pt i numNodes conf :
  esv1.Name (nodeSetFor Marshal es pvc pt i numNodes conf)
  = nodeSetName Marshal pvc +:+ "-" +:+ golang.itoa i.
Proof.
  unfold nodeSetFor. destruct (operatorv1.SelectionAttributes conf); [|reflexivity].
  destruct (selectionAttributes _ _ _ _) as [[? ?] ?]. reflexivity.
Qed.

Lemma nodeSetFor_VolumeClaimTemplates es pvc pt i numNodes conf :
  esv1.VolumeClaimTemplates (nodeSetFor Marshal es pvc pt i numNodes conf) = [pvc].
Proof.
  unfold nodeSetFor. destruct (operatorv1.SelectionAttributes conf); [|reflexivity].
  destruct (selectionAttributes _ _ _ _) as [[? ?] ?]. reflexivity.
Qed.

(** X6. The NodeSets that [nodeSets] returns have pairwise different
    names. *)
Theorem nodeSets_names_unique (es : elasticsearchComponent) (sets : list esv1.NodeSet) :
  nodeSets Marshal es = Some sets ->
  NoDup (esv1.Name <$> sets).
Proof.
  unfold nodeSets. intros H.
  destruct (LogStorage_ (cfg es)) as [ls|]; [|discriminate]. cbn [mbind option_bind] in H.
  destruct (pvcTemplate es) as [pvc|]; [|discriminate]. cbn [mbind option_bind] in H.
  destruct (operatorv1.Nodes_ (operatorv1.Spec ls)) as [nc|].
  2: { injection H as <-. constructor. }
  destruct (operatorv1.NodeSets nc) as [|c0 cs] eqn:Hcs.
  { destruct (podTemplate es); [|discriminate]. cbn [mbind option_bind] in H.
    injection H as <-. cbn. apply NoDup_singleton. }
  apply NoDup_alt. intros a b name Ha Hb.
  rewrite list_lookup_fmap in Ha, Hb.
  destruct (sets !! a) as [nsa|] eqn:Hnsa; [|discriminate].
  destruct (sets !! b) as [nsb|] eqn:Hnsb; [|discriminate].
  cbn in Ha, Hb. injection Ha as Ha. injection Hb as Hb.
  destruct (nodeSetsFrom_shape _ _ _ _ _ _ _ H a nsa Hnsa) as (? & ? & ? & _ & _ & ->).
  destruct (nodeSetsFrom_shape _ _ _ _ _ _ _ H b nsb Hnsb) as (? & ? & ? & _ & _ & ->).
  rewrite nodeSetFor_Name in Ha, Hb. subst name.
  apply (inj (String.append _)) in Hb. apply (inj (String.append _)) in Hb.
  unfold golang.itoa in Hb. apply (inj pretty) in Hb. lia.
Qed.


Lemma selectionAttributes_lists attrs :
  forall data aw reqs,
  snd (fst (selectionAttributes attrs data aw reqs)) = aw ++ (operatorv1.Name <$> attrs)
  /\ snd (selectionAttributes attrs data aw reqs) = reqs ++ (requirement <$> attrs).
Proof.
  induction attrs as [|a attrs IH]; intros data aw reqs.
  - cbn. rewrite !app_nil_r. split; reflexivity.
  - cbn [selectionAttributes]. destruct (IH (<[attrKey a := esv1.CfgString (operatorv1.Value a)]> data)
                 (aw ++ [operatorv1.Name a]) (reqs ++ [requirement a])) as [H1 H2].
    unfold attrKey, requirement in *. rewrite H1, H2. rewrite <- !app_assoc. split; reflexivity.
Qed.

Lemma selectionAttributes_other attrs (k : string) :
  (forall n, k <> "node.attr." +:+ n) ->
  forall data aw reqs,
  fst (fst (selectionAttributes attrs data aw reqs)) !! k = data !! k.
Proof.
  intros Hk. induction attrs as [|a attrs IH]; intros data aw reqs.
  - reflexivity.
  - cbn [selectionAttributes]. rewrite IH. apply lookup_insert_ne. intros E. apply (Hk _ (eq_sym E)).
Qed.

Lemma selectionAttributes_written attrs :
  NoDup (operatorv1.Name <$> attrs) ->
  forall a, a ∈ attrs ->
  forall data aw reqs,
  fst (fst (selectionAttributes attrs data aw reqs)) !! attrKey a
  = Some (esv1.CfgString (operatorv1.Value a)).
Proof.
  induction attrs as [|b attrs IH]; intros Hnd a Ha data aw reqs.
  - apply elem_of_nil in Ha. contradiction.
  - cbn [fmap list_fmap] in Hnd. apply NoDup_cons in Hnd as [Hnotin Hnd].
    cbn [selectionAttributes]. apply elem_of_cons in Ha as [-> | Ha].
    + clear IH. revert data aw reqs.
      assert (Hgen : forall l, operatorv1.Name b ∉ (operatorv1.Name <$> l) ->
                forall data aw reqs,
                data !! attrKey b = Some (esv1.CfgString (operatorv1.Value b)) ->
                fst (fst (selectionAttributes l data aw reqs)) !! attrKey b
                = Some (esv1.CfgString (operatorv1.Value b))).
      { induction l as [|c l IHl]; intros Hc data aw reqs Hd; [exact Hd|].
        cbn [selectionAttributes]. apply IHl.
        - intros Hin. apply Hc. cbn [fmap list_fmap]. apply elem_of_cons. right. exact Hin.
        - rewrite lookup_insert_ne; [exact Hd|].
          unfold attrKey. intros E. apply (inj (String.append _)) in E.
          apply Hc. cbn [fmap list_fmap]. apply elem_of_cons. left. symmetry. exact E. }
      intros data aw reqs. apply Hgen; [exact Hnotin|]. apply lookup_insert_eq.
    + apply IH; assumption.
Qed.

(** What the loop body does with the selection attributes. *)
Lemma nodeSetFor_attributes es pvc pt i numNodes conf :
  let ns := nodeSetFor Marshal es pvc pt i numNodes conf in
  match operatorv1.SelectionAttributes conf with
  | None =>
      esv1.Config ns = esv1.Config (nodeSetTemplate es pvc)
      /\ corev1.Affinity (esv1.PodTemplate ns) = corev1.Affinity pt
  | Some attrs =>
      corev1.Affinity (esv1.PodTemplate ns) = Some (requirement <$> attrs)
      /\ esv1.Config ns !! awarenessKey
         = Some (esv1.CfgString (golang.Join (operatorv1.Name <$> attrs) ","))
      /\ (NoDup (operatorv1.Name <$> attrs) ->
          forall a, a ∈ attrs ->
          esv1.Config ns !! attrKey a = Some (esv1.CfgString (operatorv1.Value a)))
  end
  /\ (forall k, (forall n, k <> "node.attr." +:+ n) -> k <> awarenessKey ->
        esv1.Config ns !! k = esv1.Config (nodeSetTemplate es pvc) !! k).
Proof.
  unfold nodeSetFor. destruct (operatorv1.SelectionAttributes conf) as [attrs|].
  - pose proof (selectionAttributes_lists attrs (esv1.Config (nodeSetTemplate es pvc)) [] [])
      as [Haw Hreq].
    pose proof (selectionAttributes_other attrs) as Hother.
    pose proof (selectionAttributes_written attrs) as Hwritten.
    destruct (selectionAttributes attrs (esv1.Config (nodeSetTemplate es pvc)) [] [])
      as [[data aw] reqs] eqn:Hsel.
    cbn [fst snd] in Haw, Hreq. cbn [app] in Haw, Hreq. subst aw reqs.
    cbn [esv1.Config esv1.PodTemplate corev1.Affinity].
    split; [split; [reflexivity|split]|].
    + apply lookup_insert_eq.
    + intros Hnd a Ha. rewrite lookup_insert_ne by (unfold attrKey, awarenessKey; cbn; discriminate).
      specialize (Hwritten Hnd a Ha (esv1.Config (nodeSetTemplate es pvc)) [] []).
      rewrite Hsel in Hwritten. exact Hwritten.
    + intros k Hk Hk'. rewrite lookup_insert_ne by (intros E; apply Hk'; symmetry; exact E).
      specialize (Hother k Hk (esv1.Config (nodeSetTemplate es pvc)) [] []).
      rewrite Hsel in Hother. exact Hother.
  - cbn [esv1.Config esv1.PodTemplate]. split; [split; reflexivity|]. intros; reflexivity.
Qed.

Lemma nodeSetTemplate_settings es pvc :
  let config := esv1.Config (nodeSetTemplate es pvc) in
  config !! "node.master" = Some (esv1.CfgString "true")
  /\ config !! "node.data" = Some (esv1.CfgString "true")
  /\ config !! "node.ingest" = Some (esv1.CfgString "true")
  /\ config !! "cluster.max_shards_per_node" = Some (esv1.CfgInt 10000).
Proof.
  unfold nodeSetTemplate. cbn [esv1.Config].
  destruct (operatorv1.CertificateManagement _), (operatorv1.IsFIPSModeEnabled _);
    repeat split; reflexivity.
Qed.

Lemma plain_key (k : string) :
  k = "node.master" \/ k = "node.data" \/ k = "node.ingest"
  \/ k = "cluster.max_shards_per_node" ->
  (forall n, k <> "node.attr." +:+ n) /\ k <> awarenessKey.
Proof.
  intros [-> | [-> | [-> | ->]]]; (split; [intros n; cbn; discriminate | discriminate]).
Qed.

(** Every NodeSet that [nodeSets] returns is the template or a loop body
    result for the claim template of the component. *)
Lemma nodeSets_members es sets ns :
  nodeSets Marshal es = Some sets -> ns ∈ sets ->
  exists pvc, pvcTemplate es = Some pvc
    /\ esv1.VolumeClaimTemplates ns = [pvc]
    /\ (forall k, (forall n, k <> "node.attr." +:+ n) -> k <> awarenessKey ->
          esv1.Config ns !! k = esv1.Config (nodeSetTemplate es pvc) !! k).
Proof.
  unfold nodeSets. intros H Hin.
  destruct (LogStorage_ (cfg es)) as [ls|]; [|discriminate]. cbn [mbind option_bind] in H.
  destruct (pvcTemplate es) as [pvc|]; [|discriminate]. cbn [mbind option_bind] in H.
  exists pvc. split; [reflexivity|].
  destruct (operatorv1.Nodes_ (operatorv1.Spec ls)) as [nc|].
  2: { injection H as <-. apply elem_of_nil in Hin. contradiction. }
  destruct (operatorv1.NodeSets nc) as [|c0 cs] eqn:Hcs.
  { destruct (podTemplate es); [|discriminate]. cbn [mbind option_bind] in H.
    injection H as <-. apply list_elem_of_singleton in Hin. subst ns.
    cbn [esv1.VolumeClaimTemplates esv1.Config]. split; [reflexivity|]. intros; reflexivity. }
  apply list_elem_of_lookup in Hin as [j Hj].
  destruct (nodeSetsFrom_shape _ _ _ _ _ _ _ H j ns Hj) as (conf & pt & n & _ & _ & ->).
  split; [apply nodeSetFor_VolumeClaimTemplates|].
  apply (nodeSetFor_attributes es pvc pt _ n conf).
Qed.

(** X7. Every NodeSet that [nodeSets] returns carries the claim template of
    the component as its only volume claim template, and the settings of
    [nodeSetTemplate]: the selection attributes of a NodeSet add node.attr.*
    keys and the awareness key and change no other key, so node.master,
    node.data and node.ingest are true and cluster.max_shards_per_node is
    10000 in each of them. *)
Theorem nodeSets_keep_template (es : elasticsearchComponent) (sets : list esv1.NodeSet)
  (ns : esv1.NodeSet) :
  nodeSets Marshal es = Some sets -> ns ∈ sets ->
  exists pvc,
    pvcTemplate es = Some pvc
    /\ esv1.VolumeClaimTemplates ns = [pvc]
    /\ (forall k, (forall n, k <> "node.attr." +:+ n) -> k <> awarenessKey ->
          esv1.Config ns !! k = esv1.Config (nodeSetTemplate es pvc) !! k)
    /\ esv1.Config ns !! "node.master" = Some (esv1.CfgString "true")
    /\ esv1.Config ns !! "node.data" = Some (esv1.CfgString "true")
    /\ esv1.Config ns !! "node.ingest" = Some (esv1.CfgString "true")
    /\ esv1.Config ns !! "cluster.max_shards_per_node" = Some (esv1.CfgInt 10000).
Proof.
  intros H Hin. destruct (nodeSets_members es sets ns H Hin) as (pvc & Hpvc & Hvct & Hcfg).
  exists pvc. split; [exact Hpvc|]. split; [exact Hvct|]. split; [exact Hcfg|].
  destruct (nodeSetTemplate_settings es pvc) as (H1 & H2 & H3 & H4).
  repeat split.
  - rewrite Hcfg; [exact H1 | apply plain_key; tauto | apply plain_key; tauto].
  - rewrite Hcfg; [exact H2 | apply plain_key; tauto | apply plain_key; tauto].
  - rewrite Hcfg; [exact H3 | apply plain_key; tauto | apply plain_key; tauto].
  - rewrite Hcfg; [exact H4 | apply plain_key; tauto | apply plain_key; tauto].
Qed.

Lemma podTemplate_no_affinity es pt :
  podTemplate es = Some pt -> corev1.Affinity pt = None.
Proof.
  unfold podTemplate. cbv zeta.
  destruct (operatorv1.IsFIPSModeEnabled _).
  - cbn [mbind option_bind]. destruct (resourceRequirements es); [|discriminate].
    cbn [mbind option_bind]. intros [= <-]. reflexivity.
  - destruct (javaOpts es); [|discriminate]. cbn [mbind option_bind].
    destruct (resourceRequirements es); [|discriminate].
    cbn [mbind option_bind]. intros [= <-]. reflexivity.
Qed.

(** X9. With NodeSets configured, the NodeSet at position j of the result
    comes from the configuration at position j.  Without selection
    attributes it has no node affinity and no awareness setting.  With
    selection attributes it requires, for each attribute in order, the node
    label to have the attribute's value; its awareness setting is the
    attribute names joined by commas; and, when the attribute names are
    pairwise different, node.attr.<name> is the value of each attribute. *)
Theorem nodeSets_selection_attributes (es : elasticsearchComponent)
  (ls : operatorv1.LogStorage) (nc : operatorv1.Nodes) (sets : list esv1.NodeSet)
  (j : nat) (ns : esv1.NodeSet) :
  LogStorage_ (cfg es) = Some ls ->
  operatorv1.Nodes_ (operatorv1.Spec ls) = Some nc ->
  operatorv1.NodeSets nc <> [] ->
  nodeSets Marshal es = Some sets ->
  sets !! j = Some ns ->
  exists conf,
    operatorv1.NodeSets nc !! j = Some conf
    /\ match operatorv1.SelectionAttributes conf with
       | None =>
           corev1.Affinity (esv1.PodTemplate ns) = None
           /\ esv1.Config ns !! awarenessKey = None
       | Some attrs =>
           corev1.Affinity (esv1.PodTemplate ns) = Some (requirement <$> attrs)
           /\ esv1.Config ns !! awarenessKey
              = Some (esv1.CfgString (golang.Join (operatorv1.Name <$> attrs) ","))
           /\ (NoDup (operatorv1.Name <$> attrs) ->
               forall a, a ∈ attrs ->
               esv1.Config ns !! attrKey a = Some (esv1.CfgString (operatorv1.Value a)))
       end.
Proof.
  intros Hls Hnc Hne H Hj. unfold nodeSets in H. rewrite Hls in H.
  cbn [mbind option_bind] in H.
  destruct (pvcTemplate es) as [pvc|]; [|discriminate]. cbn [mbind option_bind] in H.
  rewrite Hnc in H. destruct (operatorv1.NodeSets nc) as [|c0 cs] eqn:Hcs; [congruence|].
  destruct (nodeSetsFrom_shape _ _ _ _ _ _ _ H j ns Hj) as (conf & pt & n & Hconf & Hpt & ->).
  exists conf. split; [exact Hconf|].
  pose proof (nodeSetFor_attributes es pvc pt (0 + Z.of_nat j) n conf) as [Hattr _].
  cbv zeta in Hattr.
  destruct (operatorv1.SelectionAttributes conf) as [attrs|]; [exact Hattr|].
  destruct Hattr as [Hcfg Haff]. split.
  - rewrite Haff. exact (podTemplate_no_affinity es pt Hpt).
  - rewrite Hcfg. unfold nodeSetTemplate, awarenessKey. cbn [esv1.Config].
    destruct (operatorv1.CertificateManagement _), (operatorv1.IsFIPSModeEnabled _);
      reflexivity.
Qed.

(** X8. With a LogStorage set, [nodeSets] returns: nothing when the spec
    has no Nodes; and, when Nodes lists no NodeSets, exactly one NodeSet,
    named by [nodeSetName] alone (no index), holding the whole node count
    (cut to an int32, so the count itself when it fits), with the pod
    template, the configuration of [nodeSetTemplate] and the claim
    template unchanged. *)
Theorem nodeSets_without_configured_sets (es : elasticsearchComponent)
  (ls : operatorv1.LogStorage) :
  LogStorage_ (cfg es) = Some ls ->
  (operatorv1.Nodes_ (operatorv1.Spec ls) = None -> nodeSets Marshal es = Some [])
  /\ (forall nc, operatorv1.Nodes_ (operatorv1.Spec ls) = Some nc ->
        operatorv1.NodeSets nc = [] ->
        exists pvc pt ns,
          pvcTemplate es = Some pvc /\ podTemplate es = Some pt
          /\ nodeSets Marshal es = Some [ns]
          /\ esv1.Name ns = nodeSetName Marshal pvc
          /\ esv1.Count ns = golang.int32 (operatorv1.Count nc)
          /\ (- 2 ^ 31 <= operatorv1.Count nc < 2 ^ 31 ->
              esv1.Count ns = operatorv1.Count nc)
          /\ esv1.PodTemplate ns = pt
          /\ esv1.Config ns = esv1.Config (nodeSetTemplate es pvc)
          /\ esv1.VolumeClaimTemplates ns = [pvc]).
Proof.
  intros Hls.
  destruct (nodesets_facts.pvcTemplate_returns es ls Hls) as [pvc Hpvc].
  destruct (nodesets_facts.podTemplate_returns es ls Hls) as [pt Hpt].
  unfold nodeSets. rewrite Hls, Hpvc. cbn [mbind option_bind]. split.
  - intros ->. reflexivity.
  - intros nc -> Hnone. rewrite Hnone, Hpt. cbn [mbind option_bind].
    exists pvc, pt. eexists. split; [reflexivity|]. split; [reflexivity|].
    split; [reflexivity|]. cbn [esv1.Name esv1.Count esv1.PodTemplate esv1.Config
                                 esv1.VolumeClaimTemplates].
    repeat split. intros Hfit. apply nodesets_facts.int32_exact. exact Hfit.
Qed.

End Shape.


Lemma nodeSets_names_unique_witness :
  exists sets,
    nodeSets samples.marshal (samples.component 7 3) = Some sets
    /\ NoDup (esv1.Name <$> sets).
Proof.
  destruct (nodeSets samples.marshal (samples.component 7 3)) as [sets|] eqn:H.
  - exists sets. split; [reflexivity|].
    exact (nodeSets_names_unique samples.marshal (samples.component 7 3) sets H).
  - vm_compute in H. discriminate H.
Defined.

Lemma nodeSets_keep_template_witness :
  exists sets ns,
    nodeSets samples.marshal fixtures.zonedComponent = Some sets
    /\ ns ∈ sets
    /\ esv1.Config ns !! "node.master" = Some (esv1.CfgString "true")
    /\ esv1.Config ns !! "cluster.max_shards_per_node" = Some (esv1.CfgInt 10000).
Proof.
  destruct (nodeSets samples.marshal fixtures.zonedComponent) as [[|ns sets]|] eqn:H.
  - vm_compute in H. discriminate H.
  - exists (ns :: sets), ns. split; [reflexivity|]. split; [apply list_elem_of_here|].
    destruct (nodeSets_keep_template samples.marshal fixtures.zonedComponent (ns :: sets) ns
                H (list_elem_of_here ns sets))
      as (pvc & _ & _ & _ & Hmaster & _ & _ & Hshards).
    split; [exact Hmaster | exact Hshards].
  - vm_compute in H. discriminate H.
Defined.

Lemma nodeSets_selection_attributes_witness :
  exists sets ns,
    nodeSets samples.marshal fixtures.zonedComponent = Some sets
    /\ sets !! 0%nat = Some ns
    /\ corev1.Affinity (esv1.PodTemplate ns)
       = Some [ {| corev1.Key := "failure-domain.beta.kubernetes.io/zone";
                   corev1.Values := ["us-west-2a"] |} ]
    /\ esv1.Config ns !! awarenessKey = Some (esv1.CfgString "zone")
    /\ esv1.Config ns !! "node.attr.zone" = Some (esv1.CfgString "us-west-2a").
Proof.
  destruct (nodeSets samples.marshal fixtures.zonedComponent) as [[|ns sets]|] eqn:H.
  - vm_compute in H. discriminate H.
  - exists (ns :: sets), ns. split; [reflexivity|]. split; [reflexivity|].
    destruct (nodeSets_selection_attributes samples.marshal fixtures.zonedComponent
                fixtures.zonedLogStorage fixtures.zonedNodes (ns :: sets) 0%nat ns
                eq_refl eq_refl ltac:(discriminate) H eq_refl)
      as (conf & Hconf & Hattrs).
    injection Hconf as <-. destruct Hattrs as (Haffinity & Hawareness & Hvalues).
    split; [exact Haffinity|]. split; [exact Hawareness|].
    exact (Hvalues (NoDup_singleton _) _ (list_elem_of_here _ _)).
  - vm_compute in H. discriminate H.
Defined.

Lemma nodeSets_without_configured_sets_witness :
  exists ns,
    nodeSets samples.marshal (samples.component 3 0) = Some [ns] /\ esv1.Count ns = 3.
Proof.
  destruct (nodeSets_without_configured_sets samples.marshal (samples.component 3 0)
              (samples.logStorage None 3 0) eq_refl) as [_ Hone].
  destruct (Hone (samples.nodes 3 0) eq_refl eq_refl)
    as (pvc & pt & ns & _ & _ & Hsets & _ & _ & Hcount & _).
  exists ns. split; [exact Hsets|]. apply Hcount. simpl. lia.
Defined.

End nodeset_shape_facts.

Module images_facts.
Import render.

Section Images.

Variable ImageSet : Type.
Variable GetReference :
  component -> string -> string -> string -> ImageSet -> string * option api.error.
Variable ResolveCSRInitImage :
  operatorv1.InstallationSpec -> ImageSet -> string * option api.error.

(** X10. [ResolveImages] of the log storage component asks for every image
    whatever the earlier answers were, stores each answer in its field,
    and returns no error exactly when every lookup succeeded (the lookup
    of the CSR init image counts only under certificate management, and
    without it the CSR image field is left as it was).  The Elasticsearch
    image is the FIPS one exactly in FIPS mode.  The configuration is not
    touched. *)
Theorem ResolveImages_reports_every_failure (es : elasticsearchComponent)
  (imageSet : ImageSet) :
  let inst := Installation (cfg es) in
  let get c :=
    GetReference c (operatorv1.Registry inst) (operatorv1.ImagePath inst)
      (operatorv1.ImagePrefix inst) imageSet in
  let elasticsearch :=
    if operatorv1.IsFIPSModeEnabled (operatorv1.FIPSMode_ inst)
    then ComponentElasticsearchFIPS else ComponentElasticsearch in
  let es' := fst (ResolveImages ImageSet GetReference ResolveCSRInitImage es imageSet) in
  let err := snd (ResolveImages ImageSet GetReference ResolveCSRInitImage es imageSet) in
  (err = None <->
     snd (get elasticsearch) = None
     /\ snd (get ComponentElasticsearchOperator) = None
     /\ snd (get ComponentKibana) = None
     /\ snd (get ComponentEsCurator) = None
     /\ (is_Some (operatorv1.CertificateManagement inst) ->
         snd (ResolveCSRInitImage inst imageSet) = None))
  /\ esImage es' = fst (get elasticsearch)
  /\ esOperatorImage es' = fst (get ComponentElasticsearchOperator)
  /\ kibanaImage es' = fst (get ComponentKibana)
  /\ curatorImage es' = fst (get ComponentEsCurator)
  /\ csrImage es'
     = match operatorv1.CertificateManagement inst with
       | Some _ => fst (ResolveCSRInitImage inst imageSet)
       | None => csrImage es
       end
  /\ cfg es' = cfg es.
Proof.
  cbv zeta. unfold ResolveImages.
  set (inst := Installation (cfg es)).
  set (reg := operatorv1.Registry inst). set (path := operatorv1.ImagePath inst).
  set (pre := operatorv1.ImagePrefix inst).
  destruct (operatorv1.IsFIPSModeEnabled (operatorv1.FIPSMode_ inst));
    [destruct (GetReference ComponentElasticsearchFIPS reg path pre imageSet) as [i1 [e1|]]
    |destruct (GetReference ComponentElasticsearch reg path pre imageSet) as [i1 [e1|]]];
    destruct (GetReference ComponentElasticsearchOperator reg path pre imageSet) as [i2 [e2|]];
    destruct (GetReference ComponentKibana reg path pre imageSet) as [i3 [e3|]];
    destruct (GetReference ComponentEsCurator reg path pre imageSet) as [i4 [e4|]];
    (destruct (operatorv1.CertificateManagement inst) as [cm|];
     [destruct (ResolveCSRInitImage inst imageSet) as [i5 [e5|]]|]);
    cbn; (split; [split; [intros H; try discriminate H; repeat split; done
                         |intros (? & ? & ? & ? & H5); try discriminate;
                          try (specialize (H5 (mk_is_Some _ _ eq_refl)); discriminate);
                          reflexivity]
                 |repeat split]).
Qed.

End Images.

End images_facts.

Module defaults_facts.
Import logcollector props.

Lemma fillDefaults_spec (instance : operatorv1.LogCollector) :
  let instance' := fst (fillDefaults instance) in
  let modifiedFields := snd (fillDefaults instance) in
  fillDefaults instance' = (instance', [])
  /\ is_Some (operatorv1.CollectProcessPath (operatorv1.LogCollectorSpec_ instance'))
  /\ (forall stores syslog,
        operatorv1.AdditionalStores (operatorv1.LogCollectorSpec_ instance') = Some stores ->
        operatorv1.Syslog stores = Some syslog ->
        exists t logTypes, operatorv1.LogTypes syslog = Some (t :: logTypes))
  /\ (modifiedFields = [] <-> instance' = instance)
  /\ operatorv1.State instance' = operatorv1.State instance.
Proof.
  destruct instance as [[stores sources cpp] state].
  unfold fillDefaults, withSpec. cbn [operatorv1.LogCollectorSpec_ operatorv1.State].
  destruct cpp as [cpp|]; cbn [operatorv1.CollectProcessPath operatorv1.AdditionalStores
                               operatorv1.AdditionalSources];
    (destruct stores as [[s3 [[endpoint [[|t l]|]]|] splunk]|];
     cbn [operatorv1.Syslog operatorv1.LogTypes operatorv1.S3 operatorv1.Splunk
          operatorv1.Endpoint length Nat.eqb fst snd app];
     (split; [reflexivity|]); (split; [eauto|]);
     (split; [intros ? ? [= <-] [= <-]; eauto|]);
     (split; [split; [intros H; try discriminate H; reflexivity
                     |intros H; try discriminate H; reflexivity]|reflexivity])).
Qed.

(** X11. [fillDefaults] is idempotent: the instance it returns needs no
    further default.  That instance has [CollectProcessPath] set and, when
    it has a syslog store, a non-empty list of log types for it; the
    list of modified fields is empty exactly when nothing was changed; and
    the status is never touched. *)
Theorem fillDefaults_idempotent (instance : operatorv1.LogCollector) :
  let instance' := fst (fillDefaults instance) in
  let modifiedFields := snd (fillDefaults instance) in
  fillDefaults instance' = (instance', [])
  /\ is_Some (operatorv1.CollectProcessPath (operatorv1.LogCollectorSpec_ instance'))
  /\ (forall stores syslog,
        operatorv1.AdditionalStores (operatorv1.LogCollectorSpec_ instance') = Some stores ->
        operatorv1.Syslog stores = Some syslog ->
        exists t logTypes, operatorv1.LogTypes syslog = Some (t :: logTypes))
  /\ (modifiedFields = [] <-> instance' = instance)
  /\ operatorv1.State instance' = operatorv1.State instance.
Proof. exact (fillDefaults_spec instance). Qed.

End defaults_facts.

Module credentials_facts.
Import logcollector props.

Lemma field_spec (data : gmap string string) (key v : string) :
  field data key = Some v <-> data !! key = Some v /\ v <> EmptyString.
Proof.
  unfold field. destruct (data !! key) as [v'|].
  - destruct v' as [|a s]; cbn.
    + split; [discriminate | intros [[= <-] H]; congruence].
    + split; [intros [= <-]; split; [reflexivity | discriminate]
             |intros [[= <-] _]; reflexivity].
  - split; [discriminate | intros [H _]; discriminate].
Qed.

Lemma field_None (data : gmap string string) (key : string) :
  field data key = None <-> data !! key = None \/ data !! key = Some EmptyString.
Proof.
  unfold field. destruct (data !! key) as [v'|].
  - destruct v' as [|a s]; cbn.
    + split; [eauto | reflexivity].
    + split; [discriminate | intros [H | H]; discriminate].
  - split; [eauto | reflexivity].
Qed.

(** X12. [getS3Credential] returns a credential exactly when the secret
    log-collector-s3-credentials is there with non-empty key-id and
    key-secret, and the credential holds those two values; it returns no
    credential and no error exactly when the secret is not found.  The
    secret that [s3CredentialSecret] renders from the credential holds
    those two keys with the cluster's values, and no other key of the
    secret that was read. *)
Theorem getS3Credential_spec (c : Client) :
  (forall cred, getS3Credential c = inl (Some cred) <->
     exists data,
       GetSecret c fluentd.S3FluentdSecretName = inl data
       /\ data !! fluentd.S3KeyIdName = Some (fluentd.KeyId cred)
       /\ data !! fluentd.S3KeySecretName = Some (fluentd.KeySecret cred)
       /\ fluentd.KeyId cred <> EmptyString /\ fluentd.KeySecret cred <> EmptyString)
  /\ (getS3Credential c = inl None <->
        exists err, GetSecret c fluentd.S3FluentdSecretName = inr err
                    /\ api.IsNotFound err = true)
  /\ (forall cred data,
        getS3Credential c = inl (Some cred) ->
        GetSecret c fluentd.S3FluentdSecretName = inl data ->
        forall k,
          corev1.Data (fluentd.s3CredentialSecret cred) !! k
          = if bool_decide (k = fluentd.S3KeyIdName \/ k = fluentd.S3KeySecretName)
            then data !! k else None).
Proof.
  assert (Hsome : forall cred, getS3Credential c = inl (Some cred) <->
     exists data,
       GetSecret c fluentd.S3FluentdSecretName = inl data
       /\ data !! fluentd.S3KeyIdName = Some (fluentd.KeyId cred)
       /\ data !! fluentd.S3KeySecretName = Some (fluentd.KeySecret cred)
       /\ fluentd.KeyId cred <> EmptyString /\ fluentd.KeySecret cred <> EmptyString).
  { intros cred. unfold getS3Credential.
    destruct (GetSecret c fluentd.S3FluentdSecretName) as [data | err].
    - destruct (field data fluentd.S3KeyIdName) as [kId|] eqn:Hid.
      + destruct (field data fluentd.S3KeySecretName) as [kSecret|] eqn:Hsec.
        * apply field_spec in Hid as [Hid Hidne]. apply field_spec in Hsec as [Hsec Hsecne].
          split.
          -- intros [= <-]. exists data. cbn. repeat split; assumption.
          -- intros (data' & [= <-] & H1 & H2 & _). destruct cred as [a b]. cbn in *.
             congruence.
        * split; [discriminate|]. intros (data' & [= <-] & _ & H2 & _ & Hne).
          apply field_None in Hsec as [Hsec | Hsec]; congruence.
      + split; [discriminate|]. intros (data' & [= <-] & H1 & _ & Hne & _).
        apply field_None in Hid as [Hid | Hid]; congruence.
    - destruct (api.IsNotFound err); (split; [discriminate|]);
        intros (data & Hd & _); discriminate. }
  split; [exact Hsome|]. split.
  - unfold getS3Credential.
    destruct (GetSecret c fluentd.S3FluentdSecretName) as [data | err].
    + destruct (field data fluentd.S3KeyIdName); [destruct (field data fluentd.S3KeySecretName)|];
        (split; [discriminate | intros (err & Herr & _); discriminate]).
    + destruct (api.IsNotFound err) eqn:Hnf.
      * split; [eauto | reflexivity].
      * split; [discriminate | intros (err' & [= <-] & Hnf'); congruence].
  - intros cred data Hget Hdata k. apply Hsome in Hget as (data' & Hdata' & H1 & H2 & _).
    assert (data' = data) as -> by congruence.
    unfold fluentd.s3CredentialSecret. cbn [corev1.Data].
    case_bool_decide as Hk.
    + destruct Hk as [-> | ->]; [rewrite H1 | rewrite H2]; reflexivity.
    + rewrite lookup_insert_ne by (intros E; apply Hk; left; symmetry; exact E).
      rewrite lookup_singleton_ne by (intros E; apply Hk; right; symmetry; exact E).
      reflexivity.
Qed.


(** X13. When [getSplunkCredential] returns a credential, the token secret
    was read and its token is non-empty.  Either the certificate secret was
    not found, the certificate is empty and one secret is rendered (the
    token); or the certificate secret was read, its certificate is
    non-empty, and two secrets are rendered in the fluentd namespace, the
    token and the certificate, each holding the value read. *)
Theorem getSplunkCredential_spec (c : Client) (cred : fluentd.SplunkCredential) :
  getSplunkCredential c = inl (Some cred) ->
  (exists data,
     GetSecret c fluentd.SplunkFluentdTokenSecretName = inl data
     /\ data !! fluentd.SplunkFluentdSecretTokenKey = Some (fluentd.Token cred)
     /\ fluentd.Token cred <> EmptyString)
  /\ ((exists err,
         GetSecret c fluentd.SplunkFluentdCertificateSecretName = inr err
         /\ api.IsNotFound err = true
         /\ fluentd.Certificate cred = EmptyString
         /\ corev1.SecretName <$> fluentd.splunkCredentialSecret cred
            = [fluentd.SplunkFluentdTokenSecretName])
      \/ (exists data,
            GetSecret c fluentd.SplunkFluentdCertificateSecretName = inl data
            /\ data !! fluentd.SplunkFluentdSecretCertificateKey
               = Some (fluentd.Certificate cred)
            /\ fluentd.Certificate cred <> EmptyString
            /\ fluentd.splunkCredentialSecret cred
               = [ {| corev1.SecretName := fluentd.SplunkFluentdTokenSecretName;
                      corev1.SecretNamespace := fluentd.LogCollectorNamespace;
                      corev1.Data :=
                        {[ fluentd.SplunkFluentdSecretTokenKey := fluentd.Token cred ]} |};
                   {| corev1.SecretName := fluentd.SplunkFluentdCertificateSecretName;
                      corev1.SecretNamespace := fluentd.LogCollectorNamespace;
                      corev1.Data :=
                        {[ fluentd.SplunkFluentdSecretCertificateKey
                             := fluentd.Certificate cred ]} |} ])).
Proof.
  unfold getSplunkCredential.
  destruct (GetSecret c fluentd.SplunkFluentdTokenSecretName) as [data | err].
  2: { destruct (api.IsNotFound err); discriminate. }
  destruct (field data fluentd.SplunkFluentdSecretTokenKey) as [token|] eqn:Htoken;
    [|discriminate].
  apply field_spec in Htoken as [Htoken Hne].
  destruct (GetSecret c fluentd.SplunkFluentdCertificateSecretName) as [certData | err].
  - destruct (field certData fluentd.SplunkFluentdSecretCertificateKey) as [cert|] eqn:Hcert;
      [|discriminate].
    apply field_spec in Hcert as [Hcert Hcne].
    intros [= <-]. cbn [fluentd.Token fluentd.Certificate].
    split; [exists data; repeat split; assumption|].
    right. exists certData. split; [reflexivity|]. split; [exact Hcert|].
    split; [exact Hcne|]. unfold fluentd.splunkCredentialSecret.
    cbn [fluentd.Token fluentd.Certificate].
    destruct cert as [|a cert]; [congruence | reflexivity].
  - destruct (api.IsNotFound err) eqn:Hnf; [|discriminate].
    intros [= <-]. cbn [fluentd.Token fluentd.Certificate].
    split; [exists data; repeat split; assumption|].
    left. exists err. repeat split. exact Hnf.
Qed.

(** X14. [getFluentdFilters]: a ConfigMap fluentd-filters whose data are
    the two filters gives them back; the ConfigMap that [filtersConfigMap] renders
    from what was read holds exactly the keys flow and dns, with the
    values read (an absent key reads as the empty filter); and the result
    is no filters and no error exactly when the ConfigMap is not found. *)
Theorem getFluentdFilters_spec (c : Client) :
  (forall filters,
     GetConfigMap c fluentd.FluentdFilterConfigMapName
     = inl {[ fluentd.FluentdFilterFlowName := fluentd.Flow filters;
              fluentd.FluentdFilterDNSName := fluentd.DNS filters ]} ->
     getFluentdFilters c = inl (Some filters))
  /\ (forall filters data,
        getFluentdFilters c = inl (Some filters) ->
        GetConfigMap c fluentd.FluentdFilterConfigMapName = inl data ->
        fluentd.filtersConfigMap filters
        = fluentd.ConfigMapObject fluentd.FluentdFilterConfigMapName
            fluentd.LogCollectorNamespace
            {[ fluentd.FluentdFilterFlowName
                 := default EmptyString (data !! fluentd.FluentdFilterFlowName);
               fluentd.FluentdFilterDNSName
                 := default EmptyString (data !! fluentd.FluentdFilterDNSName) ]})
  /\ (getFluentdFilters c = inl None <->
        exists err, GetConfigMap c fluentd.FluentdFilterConfigMapName = inr err
                    /\ api.IsNotFound err = true).
Proof.
  unfold getFluentdFilters. split; [|split].
  - intros [flow dns] ->. reflexivity.
  - intros filters data H Hdata. rewrite Hdata in H. injection H as <-. reflexivity.
  - destruct (GetConfigMap c fluentd.FluentdFilterConfigMapName) as [data | err].
    + split; [discriminate | intros (err & H & _); discriminate].
    + destruct (api.IsNotFound err) eqn:Hnf.
      * split; [eauto | reflexivity].
      * split; [discriminate | intros (err' & [= <-] & Hnf'); congruence].
Qed.

(** X15. A configuration that [getEksCloudwatchLogConfig] returns is
    complete: region and group are the non-empty ones given, the stream
    prefix is the one given or kube-apiserver-audit- when none is given,
    the fetch interval is the one given or 60 when it is 0, so neither is
    ever empty or 0, and the AWS id and key are the non-empty values of
    the secret that was read. *)
Theorem getEksCloudwatchLogConfig_complete (c : Client) (interval : Z)
  (region group pre : string) (config : fluentd.EksCloudwatchLogConfig) :
  getEksCloudwatchLogConfig c interval region group pre = inl (Some config) ->
  fluentd.AwsRegion config = region /\ region <> EmptyString
  /\ fluentd.GroupName config = group /\ group <> EmptyString
  /\ fluentd.StreamPrefix config
     = (if decide (pre = EmptyString) then "kube-apiserver-audit-" else pre)
  /\ fluentd.StreamPrefix config <> EmptyString
  /\ fluentd.FetchInterval config = (if decide (interval = 0) then 60 else interval)
  /\ fluentd.FetchInterval config <> 0
  /\ fluentd.AwsId config <> EmptyString /\ fluentd.AwsKey config <> EmptyString
  /\ exists data,
       GetSecret c fluentd.EksLogForwarderSecret = inl data
       /\ data !! fluentd.EksLogForwarderAwsId = Some (fluentd.AwsId config)
       /\ data !! fluentd.EksLogForwarderAwsKey = Some (fluentd.AwsKey config).
Proof.
  unfold getEksCloudwatchLogConfig.
  destruct region as [|r0 region]; [discriminate|].
  destruct group as [|g0 group]; [discriminate|].
  cbn [String.length Nat.eqb].
  destruct (GetSecret c fluentd.EksLogForwarderSecret) as [data | err].
  2: { destruct (api.IsNotFound err); discriminate. }
  destruct (data !! fluentd.EksLogForwarderAwsId) as [[|i0 awsId]|] eqn:Hid;
    cbn [default String.length Nat.eqb orb]; try discriminate.
  destruct (data !! fluentd.EksLogForwarderAwsKey) as [[|k0 awsKey]|] eqn:Hkey;
    cbn [default String.length Nat.eqb orb]; try discriminate.
  intros [= <-].
  cbn [fluentd.AwsRegion fluentd.GroupName fluentd.StreamPrefix fluentd.FetchInterval
       fluentd.AwsId fluentd.AwsKey].
  repeat split; try discriminate.
  - destruct pre; reflexivity.
  - destruct pre; discriminate.
  - destruct (Z.eqb_spec interval 0); destruct (decide (interval = 0)); congruence.
  - destruct (Z.eqb_spec interval 0); lia.
  - exists data. repeat split; assumption.
Qed.

Lemma getSplunkCredential_spec_witness :
  exists cred,
    getSplunkCredential fixtures.splunkClient = inl (Some cred)
    /\ fluentd.Token cred = "hec-token"
    /\ corev1.SecretName <$> fluentd.splunkCredentialSecret cred
       = [fluentd.SplunkFluentdTokenSecretName].
Proof.
  exists {| fluentd.Token := "hec-token"; fluentd.Certificate := EmptyString |}.
  split; [reflexivity|]. split; [reflexivity|].
  destruct (getSplunkCredential_spec fixtures.splunkClient
              {| fluentd.Token := "hec-token"; fluentd.Certificate := EmptyString |} eq_refl)
    as [_ [(err & _ & _ & _ & Hrendered) | (data & Hget & _)]].
  - exact Hrendered.
  - vm_compute in Hget. discriminate Hget.
Defined.

Lemma getEksCloudwatchLogConfig_complete_witness :
  exists config,
    getEksCloudwatchLogConfig fixtures.eksClient 0 "us-west-2" "audit" EmptyString
    = inl (Some config)
    /\ fluentd.FetchInterval config = 60
    /\ fluentd.StreamPrefix config = "kube-apiserver-audit-".
Proof.
  destruct (getEksCloudwatchLogConfig fixtures.eksClient 0 "us-west-2" "audit" EmptyString)
    as [[config|]|err] eqn:H.
  - exists config. split; [reflexivity|].
    destruct (getEksCloudwatchLogConfig_complete fixtures.eksClient 0 "us-west-2" "audit"
                EmptyString config H) as (_ & _ & _ & _ & Hprefix & _ & Hinterval & _).
    split; [exact Hinterval | exact Hprefix].
  - vm_compute in H. discriminate H.
  - vm_compute in H. discriminate H.
Defined.

(** The request is refused before the cluster is asked when the region or
    the group is missing. *)
Lemma getEksCloudwatchLogConfig_missing (c : Client) (interval : Z) (region group pre : string) :
  (region = EmptyString ->
   getEksCloudwatchLogConfig c interval region group pre
   = inr (api.Errorf "Missing AWS region info" []))
  /\ (region <> EmptyString -> group = EmptyString ->
      getEksCloudwatchLogConfig c interval region group pre
      = inr (api.Errorf "Missing Cloudwatch log group name" [])).
Proof.
  unfold getEksCloudwatchLogConfig. split.
  - intros ->. reflexivity.
  - intros Hr ->. destruct region; [congruence | reflexivity].
Qed.

End credentials_facts.

Module run_facts.
Import logcollector props.

Section Discipline.

Variable w : World.

Ltac exec :=
  cbv beta iota zeta delta [mbind mret Exec_bind Exec_ret degraded return_ emit try].

Lemma keeps_ret {A : Type} (a : A) (Q : A -> Prop) : Q a -> keeps w (mret a) Q.
Proof.
  intros HQ t. exists []. cbn. rewrite app_nil_r. split; [reflexivity|].
  split; [constructor | exact HQ].
Qed.

Lemma keeps_bind {A B : Type} (m : Exec A) (f : A -> Exec B) (Q : B -> Prop) :
  keeps w m (fun _ => True) ->
  (forall a, yields m a -> keeps w (f a) Q) ->
  keeps w (m ≫= f) Q.
Proof.
  intros Hm Hf t. unfold mbind, Exec_bind.
  destruct (Hm t) as (evs1 & Ht1 & H1).
  destruct (m t) as [t1 [a | o]] eqn:Hmt; cbn [fst snd] in Ht1, H1 |- *.
  - destruct H1 as [Hcalm _]. subst t1.
    assert (Hy : yields m a) by (exists t; rewrite Hmt; reflexivity).
    destruct (Hf a Hy (t ++ evs1)) as (evs2 & Ht2 & H2).
    exists (evs1 ++ evs2). rewrite Ht2, app_assoc. split; [reflexivity|].
    destruct (snd (f a (t ++ evs1))) as [b | o].
    + destruct H2 as [Hcalm2 HQ]. split; [apply Forall_app; split; assumption | exact HQ].
    + destruct H2 as (pre & post & -> & Hpre & Hend).
      exists (evs1 ++ pre), post. rewrite app_assoc. split; [reflexivity|].
      split; [apply Forall_app; split; assumption | exact Hend].
  - exists evs1. split; [exact Ht1 | exact H1].
Qed.

Lemma keeps_emit (e : Event) : calm w e -> keeps w (emit e) (fun _ => True).
Proof.
  intros He t. exists [e]. cbn. split; [reflexivity|]. split; [|exact I].
  constructor; [exact He | constructor].
Qed.

Lemma keeps_return {A : Type} (res : Result) (err : option api.error) (Q : A -> Prop) :
  ending w [] (res, err) -> keeps w (return_ res err) Q.
Proof.
  intros He t. exists []. cbn. rewrite app_nil_r. split; [reflexivity|].
  exists [], []. split; [reflexivity|]. split; [constructor | exact He].
Qed.

Lemma keeps_ends {A : Type} (m : Exec A) (post : list Event) (o : Outcome) (Q : A -> Prop) :
  (forall t, m t = (t ++ post, inr o)) -> ending w post o -> keeps w m Q.
Proof.
  intros Hm He t. exists post. rewrite Hm. cbn. split; [reflexivity|].
  exists [], post. split; [reflexivity|]. split; [constructor | exact He].
Qed.

Lemma keeps_degraded {A : Type} (reason msg : string) (res : Result)
  (err : option api.error) (Q : A -> Prop) :
  waits res -> (is_Some err -> res = Result_zero) ->
  keeps w (degraded reason msg res err) Q.
Proof.
  intros Hw Herr. apply (keeps_ends _ [SetDegraded reason msg] (res, err)).
  - intros t. reflexivity.
  - right. left. exists reason, msg. split; [reflexivity|]. split; assumption.
Qed.

Lemma keeps_try {A : Type} (r : api.result A) (onError : api.error -> Exec A)
  (Q : A -> Prop) :
  (forall a, r = inl a -> Q a) ->
  (forall err, r = inr err -> keeps w (onError err) Q) ->
  keeps w (try r onError) Q.
Proof.
  intros HQ Herr. unfold try. destruct r as [a | err].
  - apply keeps_ret. apply HQ. reflexivity.
  - apply Herr. reflexivity.
Qed.

Lemma waits_zero : waits Result_zero.
Proof. split; [reflexivity | left; reflexivity]. Qed.

Lemma waits_5 : waits (RequeueAfter_ (5 * Second)).
Proof. split; [reflexivity | right; left; reflexivity]. Qed.

Lemma waits_10 : waits (RequeueAfter_ (10 * Second)).
Proof. split; [reflexivity | right; right; reflexivity]. Qed.

Lemma no_error_any (res : Result) : is_Some (@None api.error) -> res = Result_zero.
Proof. intros [? ?]; discriminate. Qed.

(** The leaves of a run: a degraded status with one of the Results the
    controller returns. *)
Ltac leaf_degraded :=
  apply keeps_degraded;
  [ first [exact waits_zero | exact waits_5 | exact waits_10]
  | first [intros _; reflexivity | apply no_error_any] ].

Ltac walk special :=
  cbv beta;
  first
    [ special
    | lazymatch goal with
      | |- keeps _ (mbind _ _) _ =>
          apply keeps_bind; [walk special | intros ? ?; walk special]
      | |- keeps _ (mret _) _ => apply keeps_ret; exact I
      | |- keeps _ (emit _) _ => apply keeps_emit; exact I
      | |- keeps _ (degraded _ _ _ _) _ => leaf_degraded
      | |- keeps _ (try _ _) _ =>
          apply keeps_try; [intros; exact I | intros ? ?; walk special]
      | |- keeps _ (if ?b then _ else _) _ => destruct b eqn:?; walk special
      | |- keeps _ (match ?v with _ => _ end) _ => destruct v eqn:?; walk special
      end ].

Lemma fetchInstance_keeps : keeps w (fetchInstance w) (fun _ => True).
Proof.
  unfold fetchInstance.
  apply keeps_bind.
  { walk ltac:(apply (keeps_ends _ [OnCRNotFound] (Result_zero, None));
               [reflexivity | left; split; reflexivity]). }
  intros fetched Hfetched.
  assert (Hget : GetLogCollector w = inl fetched).
  { destruct Hfetched as [t Ht]. unfold try in Ht.
    destruct (GetLogCollector w) as [a | err]; [cbn in Ht; congruence|].
    destruct (api.IsNotFound err); cbn in Ht; discriminate. }
  apply keeps_bind; [walk fail|]. intros _ _.
  destruct (fillDefaults fetched) as [instance modifiedFields] eqn:Hfill.
  apply keeps_bind; [|intros; walk fail].
  destruct (0 <? length modifiedFields)%nat eqn:Hlen; [|walk fail].
  apply keeps_bind; [|intros; walk fail].
  apply keeps_emit. exists fetched. rewrite Hfill. cbn [fst snd].
  split; [exact Hget|]. split; [reflexivity|].
  intros ->. cbn in Hlen. discriminate.
Qed.


Lemma prerequisites_keeps : keeps w (prerequisites w) (fun _ => True).
Proof. unfold prerequisites. walk fail. Qed.

(** What a step that went on can have gone on with. *)
Lemma yields_ret {A : Type} (a b : A) : yields (mret a : Exec A) b -> a = b.
Proof. intros [t Ht]. cbn in Ht. congruence. Qed.

Lemma yields_bind {A B : Type} (m : Exec A) (f : A -> Exec B) (b : B) :
  yields (m ≫= f) b -> exists a, yields m a /\ yields (f a) b.
Proof.
  intros [t Ht]. unfold mbind, Exec_bind in Ht.
  destruct (m t) as [t1 [a | o]] eqn:Hm; [|cbn in Ht; discriminate].
  exists a. split; [exists t; rewrite Hm; reflexivity | exists t1; exact Ht].
Qed.

Lemma yields_degraded {A : Type} reason msg res err (a : A) :
  ~ yields (degraded reason msg res err) a.
Proof. intros [t Ht]. cbn in Ht. discriminate. Qed.

Lemma yields_return {A : Type} res err (a : A) : ~ yields (return_ res err) a.
Proof. intros [t Ht]. cbn in Ht. discriminate. Qed.

Lemma yields_try {A : Type} (r : api.result A) (onError : api.error -> Exec A) (a : A) :
  yields (try r onError) a ->
  r = inl a \/ exists err, r = inr err /\ yields (onError err) a.
Proof.
  unfold try. destruct r as [a' | err]; intros H.
  - left. f_equal. apply yields_ret. exact H.
  - right. exists err. split; [reflexivity | exact H].
Qed.

(** A credential that is asked for was found when the run goes on. *)
Lemma yields_credential {A : Type} (wants : bool) (get : api.result (option A))
  (r1 m1 r2 : string) (cred : option A) :
  yields (if wants then
            c ← try get (fun err => degraded r1 (api.Error err) Result_zero (Some err));
            match c with
            | None => degraded r2 m1 Result_zero None
            | Some _ => mret c
            end
          else mret None) cred ->
  wants = true -> is_Some cred.
Proof.
  intros Hy ->. apply yields_bind in Hy as (c & _ & Hc).
  destruct c as [c|].
  - apply yields_ret in Hc. subst cred. eauto.
  - exfalso. exact (yields_degraded _ _ _ _ _ Hc).
Qed.

Lemma applyAll_keeps (components : list Component) :
  Forall (sound w) components -> keeps w (applyAll w components) (fun _ => True).
Proof.
  induction 1 as [|comp components Hsound _ IH].
  - apply keeps_ret. exact I.
  - cbn [applyAll]. destruct (CreateOrUpdateOrDelete w comp) as [err|] eqn:Happly.
    + apply (keeps_ends _ [Applied comp;
                           SetDegraded "Error creating / updating resource" (api.Error err)]
               (Result_zero, Some err)).
      * intros t. exec. rewrite <- app_assoc. reflexivity.
      * right. right. left. exists comp. eexists. eexists. exists err.
        split; [reflexivity|]. split; [exact Hsound|]. split; [exact Happly | reflexivity].
    + apply keeps_bind; [|intros _ _; exact IH].
      apply keeps_emit. split; [exact Hsound | exact Happly].
Qed.

(** The end of a run that applied everything. *)
Lemma report_keeps (instance : operatorv1.LogCollector) (Q : Outcome -> Prop) :
  keeps w
    (_ ← emit ClearDegraded;
     if negb (IsAvailable w) then return_ (RequeueAfter_ (30 * Second)) None
     else
       let instance :=
         {| operatorv1.LogCollectorSpec_ := operatorv1.LogCollectorSpec_ instance;
            operatorv1.State := "Ready" |} in
       _ ← emit (StatusUpdated instance);
       match StatusUpdate (client w) instance with
       | Some err => return_ Result_zero (Some err)
       | None => return_ Result_zero None
       end) Q.
Proof.
  destruct (IsAvailable w) eqn:Hav; cbn [negb].
  - set (ready := {| operatorv1.LogCollectorSpec_ := operatorv1.LogCollectorSpec_ instance;
                     operatorv1.State := "Ready" |}).
    apply (keeps_ends _ [ClearDegraded; StatusUpdated ready]
             (Result_zero, StatusUpdate (client w) ready)).
    + intros t. exec. fold ready. rewrite <- app_assoc.
      destruct (StatusUpdate (client w) ready); reflexivity.
    + do 5 right. exists ready. repeat split. exact Hav.
  - apply (keeps_ends _ [ClearDegraded] (RequeueAfter_ (30 * Second), None)).
    + intros t. reflexivity.
    + do 4 right. left. repeat split. exact Hav.
Qed.

Lemma wantsS3_spec (instance : operatorv1.LogCollector) :
  wantsS3 instance ->
  match operatorv1.AdditionalStores (operatorv1.LogCollectorSpec_ instance) with
  | Some stores => bool_decide (is_Some (operatorv1.S3 stores))
  | None => false
  end = true.
Proof.
  intros (stores & s3 & -> & Hs3). apply bool_decide_eq_true. rewrite Hs3. eauto.
Qed.

Lemma wantsSplunk_spec (instance : operatorv1.LogCollector) :
  wantsSplunk instance ->
  match operatorv1.AdditionalStores (operatorv1.LogCollectorSpec_ instance) with
  | Some stores => bool_decide (is_Some (operatorv1.Splunk stores))
  | None => false
  end = true.
Proof.
  intros (stores & s3 & -> & Hs3). apply bool_decide_eq_true. rewrite Hs3. eauto.
Qed.

Ltac next := apply keeps_bind; [solve [walk fail] | intros ? _].

Lemma hasWindowsNodes_listed (hasWindows : bool) :
  yields (try (hasWindowsNodes (client w)) (fun err => return_ Result_zero (Some err)))
    hasWindows ->
  hasWindows = true -> windowsNodesListed w.
Proof.
  intros Hy ->. apply yields_try in Hy as [Hy | (err & _ & Hy)].
  - unfold hasWindowsNodes in Hy. destruct (ListWindowsNodes (client w)) as [n | err] eqn:Hn;
      [|discriminate].
    injection Hy as Hy. exists n. split; [exact Hn|]. apply Nat.ltb_lt. exact Hy.
  - exfalso. exact (yields_return _ _ _ Hy).
Qed.

Lemma hasWindowsNodes_keeps :
  keeps w (try (hasWindowsNodes (client w)) (fun err => return_ Result_zero (Some err)))
    (fun _ => True).
Proof.
  apply keeps_try; [intros; exact I|]. intros err Herr.
  apply keeps_return. do 3 right. left. exists err. split; [reflexivity|].
  split; [|reflexivity]. unfold hasWindowsNodes in Herr.
  destruct (ListWindowsNodes (client w)); [discriminate | congruence].
Qed.

Lemma renderAndApply_keeps (instance : operatorv1.LogCollector) (license : string) :
  keeps w (renderAndApply w instance license) (fun _ => False).
Proof.
  unfold renderAndApply. cbv zeta.
  apply keeps_bind; [solve [walk fail] | intros [variant installation] _]. cbv beta iota.
  do 11 next.
  (* the credentials *)
  apply keeps_bind; [solve [walk fail] | intros s3Credential Hs3].
  apply keeps_bind; [solve [walk fail] | intros splunkCredential Hsplunk].
  pose proof (yields_credential _ _ _ _ _ _ Hs3) as HS3. clear Hs3.
  pose proof (yields_credential _ _ _ _ _ _ Hsplunk) as HSplunk. clear Hsplunk.
  destruct (GetManagementClusterConnection w) as [managementClusterConnection err].
  do 4 next.
  (* the Linux component *)
  next. apply keeps_bind; [solve [walk fail] | intros img _].
  assert (Hcreds : forall os tls,
    (os = fluentd.OSTypeLinux -> is_Some tls) ->
    wellConfigured
      (withImage
         (fluentd.Fluentd
            {| fluentd.LogCollector := instance;
               fluentd.ESSecrets := a1;
               fluentd.ESClusterConfig := a;
               fluentd.S3Credential_ := s3Credential;
               fluentd.SplkCredential := splunkCredential;
               fluentd.Filters := a12;
               fluentd.EKSConfig := a13;
               fluentd.PullSecrets := a0;
               fluentd.Installation := installation;
               fluentd.ClusterDomain := clusterDomain w;
               fluentd.OSType_ := os;
               fluentd.MetricsServerTLS := tls;
               fluentd.TrustedBundle := CreateTrustedBundle w a5 a7;
               fluentd.ManagedCluster := bool_decide (is_Some managementClusterConnection);
               fluentd.UsePSP := usePSP w |}) img)).
  { intros os tls Htls. unfold wellConfigured, withImage, fluentd.Fluentd.
    destruct os; cbn; (split; [exact Htls|]);
      (split; [intros H; apply HS3, wantsS3_spec, H
              |intros H; apply HSplunk, wantsSplunk_spec, H]). }
  apply keeps_bind.
  { apply applyAll_keeps.
    apply Forall_cons_2; [split; [apply Hcreds; intros _; eauto | cbn; discriminate]|].
    apply Forall_cons_2; [exact I | apply Forall_nil_2]. }
  intros _ _.
  (* the Windows component *)
  apply keeps_bind; [exact hasWindowsNodes_keeps | intros hasWindows Hwin].
  pose proof (hasWindowsNodes_listed hasWindows Hwin) as Hlisted. clear Hwin.
  apply keeps_bind.
  { destruct hasWindows; [|apply keeps_ret; exact I].
    next. apply keeps_bind; [solve [walk fail] | intros img' _].
    apply applyAll_keeps. apply Forall_cons_2; [|apply Forall_nil_2].
    split; [apply Hcreds; discriminate | intros _; apply Hlisted; reflexivity]. }
  intros _ _.
  apply report_keeps.
Qed.

Lemma reconcile_keeps : keeps w (reconcile w) (fun _ => False).
Proof.
  unfold reconcile.
  apply keeps_bind; [exact fetchInstance_keeps | intros instance _].
  apply keeps_bind; [exact prerequisites_keeps | intros license _].
  apply renderAndApply_keeps.
Qed.

(** The shape of every run: calm events, then one of the six endings. *)
Lemma run_shape :
  exists pre post,
    fst (Reconcile w) = pre ++ post
    /\ Forall (calm w) pre
    /\ ending w post (snd (Reconcile w)).
Proof.
  destruct (reconcile_keeps []) as (evs & Hevs & H).
  unfold Reconcile. destruct (reconcile w []) as [t [o | o]]; cbn [fst snd] in *.
  - destruct H as [_ []].
  - destruct H as (pre & post & -> & Hpre & Hend). exists pre, post.
    split; [exact Hevs|]. split; assumption.
Qed.


Lemma calm_quiet (evs : list Event) :
  Forall (calm w) evs ->
  (forall reason msg, SetDegraded reason msg ∉ evs)
  /\ (ClearDegraded ∉ evs)
  /\ (forall instance, StatusUpdated instance ∉ evs)
  /\ (OnCRNotFound ∉ evs).
Proof.
  intros Hcalm. rewrite Forall_forall in Hcalm.
  split; [|split; [|split]].
  - intros reason msg Hin. exact (Hcalm _ Hin).
  - intros Hin. exact (Hcalm _ Hin).
  - intros instance Hin. exact (Hcalm _ Hin).
  - intros Hin. exact (Hcalm _ Hin).
Qed.

(** X16. Whatever the cluster answers, [Reconcile] never sets Requeue; it
    asks to be called again after 0, 5, 10 or 30 seconds and nothing else;
    an error is only ever returned with the zero Result; and an error
    returned is either reported by a final SetDegraded, or is the error of
    listing the Windows nodes, or the error of the final status update. *)
Theorem Reconcile_outcome :
  let t := fst (Reconcile w) in
  let res := fst (snd (Reconcile w)) in
  let err := snd (snd (Reconcile w)) in
  Requeue res = false
  /\ (RequeueAfter res = 0 \/ RequeueAfter res = 5 * Second
      \/ RequeueAfter res = 10 * Second \/ RequeueAfter res = 30 * Second)
  /\ (is_Some err -> res = Result_zero)
  /\ (forall e, err = Some e ->
        (exists reason msg, last t = Some (SetDegraded reason msg))
        \/ ListWindowsNodes (client w) = inr e
        \/ (exists instance, last t = Some (StatusUpdated instance)
                             /\ StatusUpdate (client w) instance = Some e)).
Proof.
  cbv zeta. destruct run_shape as (pre & post & Ht & _ & Hend).
  rewrite Ht. destruct (snd (Reconcile w)) as [res err]. cbn [fst snd] in *.
  destruct Hend as [(-> & [= -> ->]) | [(reason & msg & -> & [Hrq Hafter] & Hzero)
    | [(comp & reason & msg & e & -> & _ & _ & [= -> ->]) | [(e & -> & Hlist & [= -> ->])
    | [(-> & _ & [= -> ->]) | (instance & -> & _ & _ & [= -> ->])]]]]].
  - repeat split; [left; reflexivity | intros e He; discriminate].
  - cbn [fst snd] in *. split; [exact Hrq|]. split; [tauto|]. split; [exact Hzero|].
    intros e _. left. exists reason, msg. apply last_snoc.
  - repeat split; [left; reflexivity|]. intros e' _. left. exists reason, msg.
    change [Applied comp; SetDegraded reason msg]
      with ([Applied comp] ++ [SetDegraded reason msg]).
    rewrite app_assoc. apply last_snoc.
  - repeat split; [left; reflexivity|]. intros e' [= <-]. right. left. exact Hlist.
  - repeat split; [do 3 right; reflexivity | intros [? ?]; discriminate | discriminate].
  - repeat split; [left; reflexivity|]. intros e He. right. right. exists instance.
    split; [|exact He].
    change [ClearDegraded; StatusUpdated instance]
      with ([ClearDegraded] ++ [StatusUpdated instance]).
    rewrite app_assoc. apply last_snoc.
Qed.

(** X17. A degraded status is final: when a run sets the status degraded,
    that is the last thing it does and it does it once; the run neither
    clears the degraded status nor updates the status of the
    LogCollector. *)
Theorem Reconcile_degraded_is_final (reason msg : string) :
  SetDegraded reason msg ∈ fst (Reconcile w) ->
  (exists before,
     fst (Reconcile w) = before ++ [SetDegraded reason msg]
     /\ forall reason' msg', SetDegraded reason' msg' ∉ before)
  /\ (ClearDegraded ∉ fst (Reconcile w))
  /\ (forall instance, StatusUpdated instance ∉ fst (Reconcile w)).
Proof.
  destruct run_shape as (pre & post & Ht & Hpre & Hend). rewrite Ht.
  destruct (calm_quiet pre Hpre) as (Hdeg & Hclear & Hupd & _).
  intros Hin. apply elem_of_app in Hin as [Hin | Hin]; [exfalso; exact (Hdeg _ _ Hin)|].
  destruct Hend as [(-> & _) | [(reason' & msg' & -> & _)
    | [(comp & reason' & msg' & e & -> & _) | [(e & -> & _)
    | [(-> & _) | (instance & -> & _)]]]]];
    rewrite ?elem_of_cons, ?elem_of_nil in Hin;
    try (exfalso; intuition discriminate).
  - assert (E : SetDegraded reason msg = SetDegraded reason' msg') by tauto.
    injection E as <- <-. split; [|split].
    + exists pre. split; [reflexivity | exact Hdeg].
    + rewrite elem_of_app, list_elem_of_singleton. intros [H | H]; [tauto | discriminate].
    + intros i. rewrite elem_of_app, list_elem_of_singleton.
      intros [H | H]; [exact (Hupd _ H) | discriminate].
  - assert (E : SetDegraded reason msg = SetDegraded reason' msg').
    { destruct Hin as [H | [H | []]]; [discriminate | exact H]. }
    injection E as <- <-. split; [|split].
    + exists (pre ++ [Applied comp]). rewrite <- app_assoc. split; [reflexivity|].
      intros r m. rewrite elem_of_app, list_elem_of_singleton.
      intros [H | H]; [exact (Hdeg _ _ H) | discriminate].
    + rewrite elem_of_app, !elem_of_cons, elem_of_nil.
      intros [H | [H | [H | []]]]; [tauto | discriminate | discriminate].
    + intros i. rewrite elem_of_app, !elem_of_cons, elem_of_nil.
      intros [H | [H | [H | []]]]; [exact (Hupd _ H) | discriminate | discriminate].
Qed.

(** X18. The degraded status is cleared only after full success: in a run
    that clears it, every component that was applied was applied without
    error and the status was never set degraded.  If the daemonsets are not
    yet available, clearing is the last step and the run asks to be called
    again after 30 seconds; if they are, the run ends by updating the
    status of the instance to Ready and returns what that update
    returns. *)
Theorem Reconcile_clears_after_success :
  ClearDegraded ∈ fst (Reconcile w) ->
  (forall comp, Applied comp ∈ fst (Reconcile w) -> CreateOrUpdateOrDelete w comp = None)
  /\ (forall reason msg, SetDegraded reason msg ∉ fst (Reconcile w))
  /\ (IsAvailable w = false ->
      last (fst (Reconcile w)) = Some ClearDegraded
      /\ snd (Reconcile w) = (RequeueAfter_ (30 * Second), None))
  /\ (IsAvailable w = true ->
      exists instance,
        last (fst (Reconcile w)) = Some (StatusUpdated instance)
        /\ operatorv1.State instance = "Ready"
        /\ snd (Reconcile w) = (Result_zero, StatusUpdate (client w) instance)).
Proof.
  destruct run_shape as (pre & post & Ht & Hpre & Hend). rewrite Ht.
  destruct (calm_quiet pre Hpre) as (Hdeg & Hclear & Hupd & _).
  intros Hin. apply elem_of_app in Hin as [Hin | Hin]; [exfalso; exact (Hclear Hin)|].
  assert (Happlied : forall comp, Applied comp ∈ pre -> CreateOrUpdateOrDelete w comp = None).
  { intros comp Hc. rewrite Forall_forall in Hpre. exact (proj2 (Hpre _ Hc)). }
  destruct Hend as [(-> & _) | [(reason' & msg' & -> & _)
    | [(comp & reason' & msg' & e & -> & _) | [(e & -> & _)
    | [(-> & Hav & Ho) | (instance & -> & Hav & Hready & Ho)]]]]];
    rewrite ?elem_of_cons, ?elem_of_nil in Hin;
    try (exfalso; intuition discriminate).
  - split; [|split; [|split]].
    + intros comp. rewrite elem_of_app, list_elem_of_singleton.
      intros [H | H]; [exact (Happlied _ H) | discriminate].
    + intros r m. rewrite elem_of_app, list_elem_of_singleton.
      intros [H | H]; [exact (Hdeg _ _ H) | discriminate].
    + intros _. split; [apply last_snoc | exact Ho].
    + congruence.
  - split; [|split; [|split]].
    + intros comp. rewrite elem_of_app, !elem_of_cons, elem_of_nil.
      intros [H | [H | [H | []]]]; [exact (Happlied _ H) | discriminate | discriminate].
    + intros r m. rewrite elem_of_app, !elem_of_cons, elem_of_nil.
      intros [H | [H | [H | []]]]; [exact (Hdeg _ _ H) | discriminate | discriminate].
    + congruence.
    + intros _. exists instance. split; [|split; assumption].
      change [ClearDegraded; StatusUpdated instance]
        with ([ClearDegraded] ++ [StatusUpdated instance]).
      rewrite app_assoc. apply last_snoc.
Qed.

(** What is applied is sound. *)
Lemma applied_sound (c : fluentd.fluentdComponent) :
  Applied (FluentdComponent c) ∈ fst (Reconcile w) ->
  wellConfigured c
  /\ (fluentd.OSType_ (fluentd.cfg c) = fluentd.OSTypeWindows -> windowsNodesListed w).
Proof.
  destruct run_shape as (pre & post & Ht & Hpre & Hend). rewrite Ht.
  intros Hin. apply elem_of_app in Hin as [Hin | Hin].
  - rewrite Forall_forall in Hpre. exact (proj1 (Hpre _ Hin)).
  - destruct Hend as [(-> & _) | [(reason' & msg' & -> & _)
      | [(comp & reason' & msg' & e & -> & Hsound & _) | [(e & -> & _)
      | [(-> & _) | (instance & -> & _)]]]]];
      rewrite ?elem_of_cons, ?elem_of_nil in Hin;
      try (exfalso; intuition discriminate).
    destruct Hin as [H | [H | []]]; [|discriminate]. injection H as <-. exact Hsound.
Qed.

(** X19. Every fluentd component that [Reconcile] applies is well
    configured: a Linux component has its metrics server key pair, and a
    component has the S3 (the Splunk) credential whenever the LogCollector
    has an S3 (a Splunk) store.  A Windows component is applied only when
    listing the Windows nodes succeeded and found at least one. *)
Theorem Reconcile_applies_sound_components (c : fluentd.fluentdComponent) :
  Applied (FluentdComponent c) ∈ fst (Reconcile w) ->
  wellConfigured c
  /\ (fluentd.OSType_ (fluentd.cfg c) = fluentd.OSTypeWindows -> windowsNodesListed w).
Proof. exact (applied_sound c). Qed.

(** X20. [Reconcile] patches the LogCollector only with defaults: an
    instance it patches is what [fillDefaults] makes of the instance it
    fetched, differs from the fetched one, needs no further default, and
    has the status of the fetched one. *)
Theorem Reconcile_patches_defaults (instance : operatorv1.LogCollector) :
  Patched instance ∈ fst (Reconcile w) ->
  exists fetched,
    GetLogCollector w = inl fetched
    /\ instance = fst (fillDefaults fetched)
    /\ instance <> fetched
    /\ fillDefaults instance = (instance, [])
    /\ operatorv1.State instance = operatorv1.State fetched.
Proof.
  destruct run_shape as (pre & post & Ht & Hpre & Hend). rewrite Ht.
  intros Hin. apply elem_of_app in Hin as [Hin | Hin].
  - rewrite Forall_forall in Hpre. destruct (Hpre _ Hin) as (fetched & Hget & -> & Hmod).
    exists fetched.
    destruct (defaults_facts.fillDefaults_spec fetched) as (Hidem & _ & _ & Hsame & Hstate).
    split; [exact Hget|]. split; [reflexivity|].
    split; [intros E; apply Hmod, Hsame; exact E|]. split; [exact Hidem | exact Hstate].
  - exfalso.
    destruct Hend as [(-> & _) | [(reason' & msg' & -> & _)
      | [(comp & reason' & msg' & e & -> & _) | [(e & -> & _)
      | [(-> & _) | (instance' & -> & _)]]]]];
      rewrite ?elem_of_cons, ?elem_of_nil in Hin; intuition discriminate.
Qed.

End Discipline.

Lemma Reconcile_degraded_is_final_witness :
  (exists before,
     fst (Reconcile samples.noLicenseWorld)
     = before ++ [SetDegraded "License not found" "not found"]
     /\ forall reason' msg', SetDegraded reason' msg' ∉ before)
  /\ (ClearDegraded ∉ fst (Reconcile samples.noLicenseWorld))
  /\ (forall instance, StatusUpdated instance ∉ fst (Reconcile samples.noLicenseWorld)).
Proof.
  apply (Reconcile_degraded_is_final samples.noLicenseWorld "License not found" "not found").
  apply list_elem_of_lookup. exists 1%nat. reflexivity.
Defined.

Lemma Reconcile_clears_after_success_witness :
  (forall comp, Applied comp ∈ fst (Reconcile samples.readyWorld) ->
     CreateOrUpdateOrDelete samples.readyWorld comp = None)
  /\ (forall reason msg, SetDegraded reason msg ∉ fst (Reconcile samples.readyWorld)).
Proof.
  destruct (Reconcile_clears_after_success samples.readyWorld) as (Happlied & Hquiet & _).
  - apply list_elem_of_lookup. exists 5%nat. reflexivity.
  - split; [exact Happlied | exact Hquiet].
Defined.

Lemma Reconcile_applies_sound_components_witness :
  exists c,
    Applied (FluentdComponent c) ∈ fst (Reconcile samples.readyWorld)
    /\ wellConfigured c.
Proof.
  destruct (fst (Reconcile samples.readyWorld) !! 3%nat)
    as [[| | | | | | | [c | ? ?] |]|] eqn:H;
    try (vm_compute in H; discriminate H).
  exists c.
  pose proof (proj2 (list_elem_of_lookup _ _) (ex_intro _ 3%nat H)) as Hin.
  split; [exact Hin|].
  exact (proj1 (Reconcile_applies_sound_components samples.readyWorld c Hin)).
Defined.

Lemma Reconcile_patches_defaults_witness :
  exists instance,
    Patched instance ∈ fst (Reconcile fixtures.newInstanceWorld)
    /\ instance <> fixtures.newInstance
    /\ fillDefaults instance = (instance, []).
Proof.
  exists (fst (fillDefaults fixtures.newInstance)).
  assert (Hin : Patched (fst (fillDefaults fixtures.newInstance))
                ∈ fst (Reconcile fixtures.newInstanceWorld)).
  { apply list_elem_of_lookup. exists 1%nat. reflexivity. }
  split; [exact Hin|].
  destruct (Reconcile_patches_defaults fixtures.newInstanceWorld _ Hin)
    as (fetched & Hget & _ & Hne & Hidem & _).
  injection Hget as <-. split; [exact Hne | exact Hidem].
Defined.


End run_facts.

Module pod_facts.
Import fluentd fluentd_pod props.

Section Pod.

Variable x : Externals.

(** [envvars] builds its list by appending block after block. *)
Lemma envvars_blocks (c : fluentdComponent) : envvars x c = envBlocks x c.
Proof.
  unfold envvars, envBlocks. cbv zeta. fold (baseEnvs c).
  generalize (baseEnvs c) as base. intros base.
  transitivity
    ((stores ← storeEnvs x c; Some (base ++ stores))
       ≫= (fun envs => tls ← tlsEnvs x c;
                       Some (envs ++ filterEnvs (Filters (cfg c))
                             ++ elasticEnvs x (ESClusterConfig (cfg c)) ++ tls))).
  - apply option_bind_ext.
    + intros envs. unfold tlsEnvs, elasticEnvs, filterEnvs.
      (destruct (Filters (cfg c)) as [filters|];
       [destruct (String.length (Flow filters) =? 0)%nat;
        destruct (String.length (DNS filters) =? 0)%nat|]);
      (destruct (OSType_ (cfg c)); [destruct (MetricsServerTLS (cfg c)) as [tls|]|]);
      cbn [mbind option_bind app]; try reflexivity;
      f_equal; rewrite <- ?app_assoc; cbn [app]; rewrite ?app_nil_r; reflexivity.
    + unfold storeEnvs.
      destruct (operatorv1.AdditionalStores _) as [stores|];
        [|cbn [mbind option_bind]; rewrite app_nil_r; reflexivity].
      unfold s3Envs, syslogEnvs, splunkEnvs.
      destruct (operatorv1.S3 stores) as [s3|];
      (destruct (operatorv1.Syslog stores) as [syslog|];
       [destruct (ParseEndpoint x (operatorv1.Endpoint syslog)) as [[proto host] port];
        destruct (PacketSize x syslog) as [size|];
        destruct (operatorv1.LogTypes syslog) as [logTypes|]|]);
      (destruct (operatorv1.Splunk stores) as [splunk|];
       [destruct (ParseEndpoint x (SplunkEndpoint x splunk)) as [[sproto shost] sport];
        destruct (SplkCredential (cfg c)) as [cred|];
        cbn [mbind option_bind];
        [destruct (String.length (Certificate cred) =? 0)%nat|]|]);
      cbn [mbind option_bind fst snd default from_option id fmap list_fmap concat];
      try reflexivity;
      f_equal; rewrite <- ?app_assoc; cbn [app]; rewrite ?app_nil_r; reflexivity.
  - destruct (storeEnvs x c) as [stores|]; [|reflexivity].
    cbn [mbind option_bind]. destruct (tlsEnvs x c) as [tls|]; [|reflexivity].
    cbn [mbind option_bind]. rewrite <- app_assoc. reflexivity.
Qed.


Lemma in_app_l {A : Type} (a : A) (l k : list A) : a ∈ l -> a ∈ l ++ k.
Proof. intros H. apply elem_of_app. left. exact H. Qed.

Lemma in_app_r {A : Type} (a : A) (l k : list A) : a ∈ k -> a ∈ l ++ k.
Proof. intros H. apply elem_of_app. right. exact H. Qed.

(** Find an object in the list that [Objects] builds: in what a step
    appends, or else in what the steps before it built. *)
Ltac here :=
  solve [ repeat first [apply list_elem_of_here | apply list_elem_of_further] ].

Ltac find_in :=
  lazymatch goal with
  | |- _ ∈ (if ?b then _ else _) => destruct b; find_in
  | |- _ ∈ (match ?v with _ => _ end) => destruct v; find_in
  | |- _ ∈ (_ ++ _) => first [ solve [apply in_app_r; here] | apply in_app_l; find_in ]
  end.

Lemma Objects_S3 (c : fluentdComponent) (cred : S3Credential) :
  S3Credential_ (cfg c) = Some cred ->
  SecretObject (s3CredentialSecret cred) ∈ fst (Objects c).
Proof.
  intros H. unfold Objects. cbv zeta. rewrite H. cbn [fst]. find_in.
Qed.

Lemma Objects_Splunk (c : fluentdComponent) (cred : SplunkCredential) :
  SplkCredential (cfg c) = Some cred ->
  CopyToNamespace LogCollectorNamespace
    {| corev1.SecretName := SplunkFluentdTokenSecretName;
       corev1.SecretNamespace := LogCollectorNamespace;
       corev1.Data := {[ SplunkFluentdSecretTokenKey := Token cred ]} |}
  ∈ fst (Objects c).
Proof.
  intros H. unfold Objects. cbv zeta. rewrite H. cbn [fst].
  unfold splunkCredentialSecret. destruct (String.length (Certificate cred) =? 0)%nat;
    cbn [map]; find_in.
Qed.


(** When each block of the environment is there. *)
Lemma storeEnvs_returns (c : fluentdComponent) :
  storeEnvs x c = None
  <-> wantsSplunk (LogCollector (cfg c)) /\ SplkCredential (cfg c) = None.
Proof.
  unfold storeEnvs, wantsSplunk, splunkEnvs.
  destruct (operatorv1.AdditionalStores _) as [stores|].
  - destruct (operatorv1.Splunk stores) as [splunk|] eqn:Hsplunk.
    + destruct (SplkCredential (cfg c)) as [cred|]; cbn [mbind option_bind].
      * split; [discriminate | intros [_ H]; discriminate].
      * split; [intros _; split; [eauto | reflexivity] | reflexivity].
    + cbn [mbind option_bind]. split; [discriminate|].
      intros [(stores' & s & [= <-] & H) _]. congruence.
  - split; [discriminate | intros [(stores' & s & H & _) _]; discriminate].
Qed.

Lemma tlsEnvs_returns (c : fluentdComponent) :
  tlsEnvs x c = None
  <-> OSType_ (cfg c) = OSTypeLinux /\ MetricsServerTLS (cfg c) = None.
Proof.
  unfold tlsEnvs. destruct (OSType_ (cfg c)).
  - destruct (MetricsServerTLS (cfg c)); cbn [mbind option_bind].
    + split; [discriminate | intros [_ H]; discriminate].
    + split; [intros _; split; reflexivity | reflexivity].
  - split; [discriminate | intros [H _]; discriminate].
Qed.

(** When [envvars] dereferences a nil pointer. *)
Lemma envvars_None (c : fluentdComponent) :
  envvars x c = None
  <-> (wantsSplunk (LogCollector (cfg c)) /\ SplkCredential (cfg c) = None)
      \/ (OSType_ (cfg c) = OSTypeLinux /\ MetricsServerTLS (cfg c) = None).
Proof.
  rewrite envvars_blocks. unfold envBlocks.
  rewrite <- storeEnvs_returns, <- tlsEnvs_returns.
  destruct (storeEnvs x c) as [stores|]; cbn [mbind option_bind].
  - destruct (tlsEnvs x c) as [tls|]; cbn [mbind option_bind].
    + split; [discriminate | intros [H | H]; discriminate].
    + split; [intros _; right; reflexivity | reflexivity].
  - split; [intros _; left; reflexivity | reflexivity].
Qed.

(** X21. [envvars] panics in exactly two cases: the LogCollector has a
    Splunk store and the component has no Splunk credential, or the
    component is for Linux and has no metrics server key pair.  A missing
    S3 credential, missing filters or a missing syslog store never make it
    panic. *)
Theorem envvars_panics (c : fluentdComponent) :
  envvars x c = None
  <-> (wantsSplunk (LogCollector (cfg c)) /\ SplkCredential (cfg c) = None)
      \/ (OSType_ (cfg c) = OSTypeLinux /\ MetricsServerTLS (cfg c) = None).
Proof. exact (envvars_None c). Qed.

Lemma syslogEnvs_plain (stores : operatorv1.AdditionalLogStoreSpec) :
  Forall plain (syslogEnvs x stores).
Proof.
  unfold syslogEnvs. destruct (operatorv1.Syslog stores) as [syslog|]; [|constructor].
  apply Forall_app. split; [repeat constructor|]. apply Forall_app. split.
  - destruct (PacketSize x syslog); repeat constructor.
  - apply Forall_concat. apply Forall_fmap. apply Forall_forall. intros t _.
    destruct t; repeat constructor.
Qed.

Lemma filterEnvs_plain (filters : option FluentdFilters) : Forall plain (filterEnvs filters).
Proof.
  unfold filterEnvs. destruct filters as [filters|]; [|constructor].
  destruct (String.length (Flow filters) =? 0)%nat;
    destruct (String.length (DNS filters) =? 0)%nat; repeat constructor.
Qed.

Lemma tlsEnvs_plain (c : fluentdComponent) (tls : list EnvVar) :
  tlsEnvs x c = Some tls -> Forall plain tls.
Proof.
  unfold tlsEnvs. destruct (OSType_ (cfg c)).
  - destruct (MetricsServerTLS (cfg c)); cbn [mbind option_bind]; [|discriminate].
    intros [= <-]. repeat constructor.
  - intros [= <-]. constructor.
Qed.

(** The environment variables that take their value from a secret. *)
Lemma envvars_secretKeyRefs (c : fluentdComponent) (envs : list EnvVar) (e : EnvVar)
  (name key : string) :
  envvars x c = Some envs -> e ∈ envs -> secretKeyRef e = Some (name, key) ->
  (wantsS3 (LogCollector (cfg c))
   /\ name = S3FluentdSecretName /\ (key = S3KeyIdName \/ key = S3KeySecretName))
  \/ (wantsSplunk (LogCollector (cfg c))
      /\ name = SplunkFluentdTokenSecretName /\ key = SplunkFluentdSecretTokenKey).
Proof.
  rewrite envvars_blocks. unfold envBlocks.
  destruct (storeEnvs x c) as [stores|] eqn:Hstores; [|discriminate].
  cbn [mbind option_bind].
  destruct (tlsEnvs x c) as [tls|] eqn:Htls; [|discriminate].
  cbn [mbind option_bind]. intros Heq Hin Href. apply (inj Some) in Heq. subst envs.
  assert (Hplain : forall l, Forall plain l -> e ∈ l -> False).
  { intros l Hl Hel. rewrite Forall_forall in Hl. specialize (Hl e Hel).
    unfold plain in Hl. congruence. }
  rewrite !elem_of_app in Hin.
  destruct Hin as [Hin | [Hin | [Hin | [Hin | Hin]]]].
  - exfalso. apply (Hplain (baseEnvs c)); [repeat constructor | exact Hin].
  - unfold storeEnvs, wantsS3, wantsSplunk in *.
    destruct (operatorv1.AdditionalStores _) as [st|];
      [|injection Hstores as <-; apply elem_of_nil in Hin; contradiction].
    destruct (splunkEnvs x st (SplkCredential (cfg c))) as [splunk|] eqn:Hsplunk;
      [|discriminate].
    cbn [mbind option_bind] in Hstores. injection Hstores as <-.
    rewrite !elem_of_app in Hin. destruct Hin as [Hin | [Hin | Hin]].
    + left. unfold s3Envs in Hin. destruct (operatorv1.S3 st) as [s3|] eqn:Hs3;
        [|apply elem_of_nil in Hin; contradiction].
      split; [eauto|].
      rewrite !elem_of_cons, elem_of_nil in Hin.
      destruct Hin as [-> | [-> | [-> | [-> | [-> | [-> | [-> | []]]]]]]];
        cbn in Href; try discriminate; injection Href as <- <-; eauto.
    + exfalso. exact (Hplain _ (syslogEnvs_plain st) Hin).
    + right. unfold splunkEnvs in Hsplunk.
      destruct (operatorv1.Splunk st) as [sp|] eqn:Hsp;
        [|injection Hsplunk as <-; apply elem_of_nil in Hin; contradiction].
      split; [eauto|].
      destruct (SplkCredential (cfg c)) as [cred|]; [|discriminate].
      cbn [mbind option_bind] in Hsplunk. apply (inj Some) in Hsplunk. subst splunk.
      rewrite elem_of_app, !elem_of_cons, elem_of_nil in Hin.
      destruct Hin as [[-> | [-> | [-> | [-> | [-> | [-> | [-> | [-> | []]]]]]]]] | Hin].
      all: try (cbn in Href; discriminate).
      * cbn in Href. injection Href as <- <-. split; reflexivity.
      * exfalso. destruct (String.length (Certificate cred) =? 0)%nat;
          [apply elem_of_nil in Hin; contradiction|].
        apply list_elem_of_singleton in Hin. subst e. cbn in Href. discriminate.
  - exfalso. exact (Hplain _ (filterEnvs_plain _) Hin).
  - exfalso. apply (Hplain (elasticEnvs x (ESClusterConfig (cfg c))));
      [repeat constructor | exact Hin].
  - exfalso. exact (Hplain _ (tlsEnvs_plain c tls Htls) Hin).
Qed.

(** A well configured component renders the secrets its environment
    refers to. *)
Lemma secrets_rendered (c : fluentdComponent) :
  wellConfigured c ->
  exists envs,
    envvars x c = Some envs
    /\ forall e name key,
         e ∈ envs -> secretKeyRef e = Some (name, key) -> rendersSecret c name key.
Proof.
  intros (Htls & Hs3 & Hsplunk).
  destruct (envvars x c) as [envs|] eqn:Henvs.
  2: { exfalso. apply envvars_None in Henvs as [[Hw Hnone] | [Hos Hnone]].
       - destruct (Hsplunk Hw) as [? ?]. congruence.
       - destruct (Htls Hos) as [? ?]. congruence. }
  exists envs. split; [reflexivity|]. intros e name key Hin Href.
  destruct (envvars_secretKeyRefs c envs e name key Henvs Hin Href)
    as [(Hw & -> & Hkey) | (Hw & -> & ->)].
  - destruct (Hs3 Hw) as [cred Hcred].
    exists (SecretObject (s3CredentialSecret cred)), (s3CredentialSecret cred).
    split; [exact (Objects_S3 c cred Hcred)|]. split; [reflexivity|].
    split; [reflexivity|]. split; [reflexivity|].
    destruct Hkey as [-> | ->]; eexists; reflexivity.
  - destruct (Hsplunk Hw) as [cred Hcred].
    eexists. eexists. split; [exact (Objects_Splunk c cred Hcred)|].
    split; [reflexivity|]. split; [reflexivity|]. split; [reflexivity|].
    eexists. reflexivity.
Qed.

(** X22. For a well configured component (key pair on Linux, credentials
    for the stores set) [envvars] returns, and every secret key that one
    of its environment variables refers to exists once the component is
    applied: [Objects] creates, in the fluentd namespace, a secret of that
    name holding that key. *)
Theorem envvars_secrets_rendered (c : fluentdComponent) :
  wellConfigured c ->
  exists envs,
    envvars x c = Some envs
    /\ forall e name key,
         e ∈ envs -> secretKeyRef e = Some (name, key) -> rendersSecret c name key.
Proof. exact (secrets_rendered c). Qed.

(** X25. The probes of the fluentd container: the startup probe runs the
    command of the liveness probe with twice its timeout and twice its
    period and a higher failure threshold; the readiness probe has the
    timeout and period of the liveness probe; and these are 10 seconds on
    Windows and 5 seconds on Linux. *)
Theorem Fluentd_probes (f : FluentdConfiguration) :
  let c := Fluentd f in
  Command (startup c) = Command (liveness c)
  /\ TimeoutSeconds (startup c) = 2 * TimeoutSeconds (liveness c)
  /\ PeriodSeconds (startup c) = 2 * PeriodSeconds (liveness c)
  /\ FailureThreshold (liveness c) < FailureThreshold (startup c)
  /\ TimeoutSeconds (readiness c) = TimeoutSeconds (liveness c)
  /\ PeriodSeconds (readiness c) = PeriodSeconds (liveness c)
  /\ TimeoutSeconds (liveness c)
     = match OSType_ f with OSTypeWindows => 10 | OSTypeLinux => 5 end
  /\ PeriodSeconds (liveness c)
     = match OSType_ f with OSTypeWindows => 10 | OSTypeLinux => 5 end.
Proof.
  unfold Fluentd, startup, liveness, readiness, livenessCmd.
  destruct (OSType_ f) eqn:Hos; cbn; rewrite ?Hos; repeat split.
Qed.


(** *** The names of the environment variables *)

Lemma typeNames_elem (types : list operatorv1.SyslogLogType) (n : string) :
  n ∈ typeNames types ->
  exists t, t ∈ types /\ n ∈ (Name <$> syslogLogTypeEnvs t).
Proof.
  unfold typeNames. induction types as [|t types IH]; cbn [fmap list_fmap concat].
  - intros H. apply elem_of_nil in H. contradiction.
  - rewrite fmap_app, elem_of_app. intros [H | H].
    + exists t. split; [left | exact H].
    + destruct (IH H) as (t' & Hin & Hn). exists t'. split; [right; exact Hin | exact Hn].
Qed.

Lemma logType_of_name (t t' : operatorv1.SyslogLogType) (n : string) :
  n ∈ (Name <$> syslogLogTypeEnvs t) -> n ∈ (Name <$> syslogLogTypeEnvs t') -> t = t'.
Proof.
  destruct t, t'; cbn; rewrite ?elem_of_cons, ?elem_of_nil;
    intros H H'; try reflexivity; exfalso;
    intuition (subst; discriminate).
Qed.

Lemma typeNames_NoDup (types : list operatorv1.SyslogLogType) :
  NoDup types -> NoDup (typeNames types).
Proof.
  induction 1 as [|t types Hnotin Hnd IH].
  - constructor.
  - unfold typeNames. cbn [fmap list_fmap concat]. rewrite fmap_app.
    apply NoDup_app. split; [|split].
    + destruct t; cbn; repeat constructor; rewrite ?elem_of_cons, ?elem_of_nil;
        intuition discriminate.
    + intros n Hn Hn'. apply typeNames_elem in Hn' as (t' & Hin & Hn').
      assert (t = t') by exact (logType_of_name t t' n Hn Hn'). subst t'.
      exact (Hnotin Hin).
    + exact IH.
Qed.

Lemma typeNames_known (types : list operatorv1.SyslogLogType) (n : string) :
  n ∈ typeNames types ->
  n ∈ [ "SYSLOG_AUDIT_EE_LOG"; "SYSLOG_AUDIT_KUBE_LOG"; "SYSLOG_DNS_LOG";
        "SYSLOG_FLOW_LOG"; "SYSLOG_IDS_EVENT_LOG" ].
Proof.
  intros H. apply typeNames_elem in H as (t & _ & Hn).
  destruct t; cbn in Hn; rewrite ?elem_of_cons, ?elem_of_nil in *; tauto.
Qed.

Lemma NoDup_middle {A : Type} (l t k : list A) :
  NoDup (l ++ k) -> NoDup t -> (forall a, a ∈ t -> a ∉ l ++ k) -> NoDup (l ++ t ++ k).
Proof.
  rewrite !NoDup_app. intros (Hl & Hlk & Hk) Ht Hdisj. split; [exact Hl|]. split.
  - intros a Ha. rewrite elem_of_app. intros [Hat | Hak].
    + apply (Hdisj a Hat). apply elem_of_app. left. exact Ha.
    + exact (Hlk a Ha Hak).
  - split; [exact Ht|]. split; [|exact Hk].
    intros a Hat Hak. apply (Hdisj a Hat). apply elem_of_app. right. exact Hak.
Qed.

Lemma allNames_NoDup (types : list operatorv1.SyslogLogType) :
  NoDup types -> NoDup (allNames types).
Proof.
  intros Hnd.
  replace (allNames types)
    with ((nBase ++ nS3 ++ nSyslog) ++ typeNames types
          ++ (nSplunk ++ nFilters ++ nElastic ++ nTLS))
    by (unfold allNames; rewrite <- !app_assoc; reflexivity).
  apply NoDup_middle.
  - compute_done.
  - apply typeNames_NoDup. exact Hnd.
  - intros n Hn. apply typeNames_known in Hn.
    rewrite !elem_of_cons, elem_of_nil in Hn.
    destruct Hn as [-> | [-> | [-> | [-> | [-> | []]]]]]; compute_done.
Qed.

Lemma storeEnvs_names (c : fluentdComponent) (stores : list EnvVar) :
  storeEnvs x c = Some stores ->
  (Name <$> stores)
    `sublist_of` (nS3 ++ (nSyslog ++ typeNames (syslogLogTypes c)) ++ nSplunk).
Proof.
  unfold storeEnvs, syslogLogTypes.
  destruct (operatorv1.AdditionalStores _) as [st|].
  2: { intros Heq. apply (inj Some) in Heq. subst stores. apply sublist_nil_l. }
  destruct (splunkEnvs x st (SplkCredential (cfg c))) as [splunk|] eqn:Hsplunk;
    [|discriminate].
  cbn [mbind option_bind]. intros Heq. apply (inj Some) in Heq. subst stores.
  rewrite !fmap_app. apply sublist_app; [|apply sublist_app].
  - unfold s3Envs. destruct (operatorv1.S3 st); [reflexivity | apply sublist_nil_l].
  - unfold syslogEnvs. destruct (operatorv1.Syslog st) as [syslog|]; [|apply sublist_nil_l].
    rewrite !fmap_app. rewrite app_assoc. apply sublist_app; [|reflexivity].
    destruct (PacketSize x syslog); cbn; repeat constructor.
  - unfold splunkEnvs in Hsplunk. destruct (operatorv1.Splunk st).
    + destruct (SplkCredential (cfg c)) as [cred|]; [|discriminate].
      cbn [mbind option_bind] in Hsplunk. apply (inj Some) in Hsplunk. subst splunk.
      destruct (String.length (Certificate cred) =? 0)%nat; cbn; repeat constructor.
    + apply (inj Some) in Hsplunk. subst splunk. apply sublist_nil_l.
Qed.

Lemma envvars_names (c : fluentdComponent) (envs : list EnvVar) :
  envvars x c = Some envs ->
  (Name <$> envs) `sublist_of` allNames (syslogLogTypes c).
Proof.
  rewrite envvars_blocks. unfold envBlocks.
  destruct (storeEnvs x c) as [stores|] eqn:Hstores; [|discriminate].
  cbn [mbind option_bind].
  destruct (tlsEnvs x c) as [tls|] eqn:Htls; [|discriminate].
  cbn [mbind option_bind]. intros Heq. apply (inj Some) in Heq. subst envs.
  rewrite !fmap_app. unfold allNames.
  apply sublist_app; [reflexivity|].
  apply sublist_app; [exact (storeEnvs_names c stores Hstores)|].
  apply sublist_app; [|apply sublist_app; [reflexivity|]].
  - unfold filterEnvs. destruct (Filters (cfg c)) as [filters|]; [|apply sublist_nil_l].
    destruct (String.length (Flow filters) =? 0)%nat;
      destruct (String.length (DNS filters) =? 0)%nat; cbn; repeat constructor.
  - unfold tlsEnvs in Htls. destruct (OSType_ (cfg c)).
    + destruct (MetricsServerTLS (cfg c)); [|discriminate].
      cbn [mbind option_bind] in Htls. apply (inj Some) in Htls. subst tls. reflexivity.
    + apply (inj Some) in Htls. subst tls. apply sublist_nil_l.
Qed.

(** X23. [envvars] never names an environment variable twice, provided the
    log types of the syslog store are pairwise different (each log type
    adds its own variables). *)
Theorem envvars_names_unique (c : fluentdComponent) (envs : list EnvVar) :
  envvars x c = Some envs ->
  NoDup (syslogLogTypes c) ->
  NoDup (Name <$> envs).
Proof.
  intros Henvs Hnd.
  exact (sublist_NoDup _ _ (allNames_NoDup _ Hnd) (envvars_names c envs Henvs)).
Qed.


(** *** Volumes and volume mounts *)

Ltac pick_volume :=
  first
    [ solve [eexists; split; [apply list_elem_of_here | cbn; congruence]]
    | solve [eexists; split;
             [apply list_elem_of_further, list_elem_of_here | cbn; congruence]]
    | solve [eexists; split;
             [do 2 apply list_elem_of_further; apply list_elem_of_here | cbn; congruence]]
    | solve [eexists; split;
             [do 3 apply list_elem_of_further; apply list_elem_of_here | cbn; congruence]]
    | solve [eexists; split;
             [do 4 apply list_elem_of_further; apply list_elem_of_here | cbn; congruence]] ].

(** X24. Every volume mount of the fluentd container has its volume in the
    pod: for each mount of [volumeMounts] the list of [volumes] holds a
    volume of that name, provided the trusted bundle names its volume and
    its mount after its ConfigMap and the key pair names its mount after
    its volume. *)
Theorem volumeMounts_have_volumes (c : fluentdComponent) (vols : list Volume) :
  volumes x c = Some vols ->
  VolumeName (BundleVolume x (TrustedBundle (cfg c))) = TrustedCertConfigMapName x ->
  MountName (BundleVolumeMount x (TrustedBundle (cfg c)) (OSType_ (cfg c)))
  = TrustedCertConfigMapName x ->
  (forall tls, MetricsServerTLS (cfg c) = Some tls ->
     MountName (KeyPairVolumeMount x tls (OSType_ (cfg c))) = VolumeName (KeyPairVolume x tls)) ->
  forall m, m ∈ volumeMounts x c -> exists v, v ∈ vols /\ VolumeName v = MountName m.
Proof.
  unfold volumes, volumeMounts, trustedBundleVolume. cbv zeta.
  intros Hvols Hbundle Hbmount Htls m Hm.
  destruct (Source (BundleVolume x (TrustedBundle (cfg c)))) as [| name items | |];
    try (destruct (MetricsServerTLS (cfg c)), (hasSplunkCertificate c), (Filters (cfg c));
         discriminate).
  cbn [mbind option_bind] in Hvols.
  destruct (MetricsServerTLS (cfg c)) as [tls|];
    [specialize (Htls tls eq_refl)|clear Htls];
    destruct (hasSplunkCertificate c);
    (destruct (Filters (cfg c)) as [filters|];
     [destruct (String.length (Flow filters) =? 0)%nat;
      destruct (String.length (DNS filters) =? 0)%nat|]);
    cbn [app] in Hvols, Hm; apply (inj Some) in Hvols; subst vols;
    rewrite ?elem_of_cons, ?elem_of_nil in Hm;
    repeat match type of Hm with
           | _ \/ _ => destruct Hm as [-> | Hm]
           | False => contradiction
           | _ = _ => subst m
           end;
    cbn [MountName]; pick_volume.
Qed.

End Pod.


Lemma envvars_secrets_rendered_witness :
  exists envs,
    envvars fixtures.sampleExternals fixtures.storesComponent = Some envs
    /\ forall e name key,
         e ∈ envs -> secretKeyRef e = Some (name, key) ->
         rendersSecret fixtures.storesComponent name key.
Proof.
  apply (envvars_secrets_rendered fixtures.sampleExternals fixtures.storesComponent).
  split; [|split]; intros _; eexists; reflexivity.
Defined.

Lemma envvars_names_unique_witness :
  exists envs,
    envvars fixtures.sampleExternals fixtures.storesComponent = Some envs
    /\ NoDup (Name <$> envs).
Proof.
  destruct (envvars fixtures.sampleExternals fixtures.storesComponent) as [envs|] eqn:H.
  - exists envs. split; [reflexivity|].
    apply (envvars_names_unique fixtures.sampleExternals fixtures.storesComponent envs H).
    apply NoDup_cons_2; [|apply NoDup_singleton].
    intros Hin. apply list_elem_of_singleton in Hin. discriminate Hin.
  - vm_compute in H. discriminate H.
Defined.

Lemma volumeMounts_have_volumes_witness :
  exists vols,
    volumes fixtures.sampleExternals fixtures.storesComponent = Some vols
    /\ forall m, m ∈ volumeMounts fixtures.sampleExternals fixtures.storesComponent ->
         exists v, v ∈ vols /\ VolumeName v = MountName m.
Proof.
  destruct (volumes fixtures.sampleExternals fixtures.storesComponent) as [vols|] eqn:H.
  - exists vols. split; [reflexivity|].
    apply (volumeMounts_have_volumes fixtures.sampleExternals fixtures.storesComponent vols H);
      [reflexivity | reflexivity | intros tls _; reflexivity].
  - vm_compute in H. discriminate H.
Defined.

End pod_facts.

Module controllers_facts.
Import discovery.

Lemma existsb_eqb (kind : string) (kinds : list string) :
  existsb (String.eqb kind) kinds = true <-> kind ∈ kinds.
Proof.
  rewrite existsb_exists. split.
  - intros (k & Hin & Heq). apply String.eqb_eq in Heq. subst k.
    apply list_elem_of_In. exact Hin.
  - intros Hin. exists kind. split; [apply list_elem_of_In; exact Hin|].
    apply String.eqb_refl.
Qed.

(** X26. The Amazon controller is only ever required where the Tigera
    secure controllers are: [RequiresAmazonController] and
    [RequiresTigeraSecure] return the same error; with an error both answer
    false; the first answers true exactly when the group version
    operator.tigera.io/v1 lists the kind AmazonCloudIntegration, the second
    exactly when it lists one of the nine enterprise kinds; so the first
    implies the second. *)
Theorem RequiresAmazonController_implies_TigeraSecure (NewForConfig : api.result Clientset) :
  snd (RequiresAmazonController NewForConfig) = snd (RequiresTigeraSecure NewForConfig)
  /\ (fst (RequiresAmazonController NewForConfig) = true ->
      fst (RequiresTigeraSecure NewForConfig) = true)
  /\ (is_Some (snd (RequiresTigeraSecure NewForConfig)) ->
      fst (RequiresTigeraSecure NewForConfig) = false
      /\ fst (RequiresAmazonController NewForConfig) = false)
  /\ (forall clientset kinds,
        NewForConfig = inl clientset ->
        ServerResourcesForGroupVersion clientset "operator.tigera.io/v1" = inl kinds ->
        (fst (RequiresAmazonController NewForConfig) = true
         <-> "AmazonCloudIntegration" ∈ kinds)
        /\ (fst (RequiresTigeraSecure NewForConfig) = true
            <-> exists kind, kind ∈ kinds /\ isTigeraSecureKind kind = true)).
Proof.
  unfold RequiresAmazonController, RequiresTigeraSecure.
  destruct NewForConfig as [clientset | err].
  - destruct (ServerResourcesForGroupVersion clientset "operator.tigera.io/v1")
      as [kinds | err] eqn:Hkinds; cbn [fst snd].
    + split; [reflexivity|]. split; [|split].
      * rewrite existsb_eqb. intros Hin. apply existsb_exists.
        exists "AmazonCloudIntegration". split; [apply list_elem_of_In; exact Hin|].
        reflexivity.
      * intros [? ?]; discriminate.
      * intros clientset' kinds' [= <-] Hk. rewrite Hkinds in Hk. injection Hk as <-.
        split; [apply existsb_eqb|].
        rewrite existsb_exists. split; intros (k & Hin & Hk); exists k;
          (split; [apply list_elem_of_In; exact Hin | exact Hk]).
    + split; [reflexivity|]. split; [discriminate|]. split; [intros _; split; reflexivity|].
      intros clientset' kinds' [= <-] H. rewrite Hkinds in H. discriminate.
  - cbn [fst snd]. split; [reflexivity|]. split; [discriminate|].
    split; [intros _; split; reflexivity|]. intros clientset kinds H. discriminate.
Qed.

(** X27. [SupportsPodSecurityPolicies] answers true exactly when the group
    version policy/v1beta1 lists the kind PodSecurityPolicy; when the group
    version is not found it answers false without an error, and any other
    error of the query is returned with false. *)
Theorem SupportsPodSecurityPolicies_spec (c : Clientset) :
  (forall kinds,
     ServerResourcesForGroupVersion c "policy/v1beta1" = inl kinds ->
     SupportsPodSecurityPolicies c = (bool_decide ("PodSecurityPolicy" ∈ kinds), None))
  /\ (forall err,
        ServerResourcesForGroupVersion c "policy/v1beta1" = inr err ->
        SupportsPodSecurityPolicies c
        = (false, if api.IsNotFound err then None else Some err)).
Proof.
  unfold SupportsPodSecurityPolicies. split.
  - intros kinds ->. f_equal.
    destruct (existsb (String.eqb "PodSecurityPolicy") kinds) eqn:E.
    + symmetry. apply bool_decide_eq_true. apply existsb_eqb. exact E.
    + symmetry. apply bool_decide_eq_false. intros Hin. apply existsb_eqb in Hin. congruence.
  - intros err ->. destruct (api.IsNotFound err); reflexivity.
Qed.

End controllers_facts.

Module provider_facts.
Import utils spec.

(** X28. [AutoDiscoverProvider] never guesses, whatever the cluster
    answers: with an error it returns no provider; a provider it returns
    is one the cluster shows the marks of, and comes without an error; and
    it never returns AKS, for which it has no test. *)
Theorem AutoDiscoverProvider_sound (c : Clientset) :
  (is_Some (snd (AutoDiscoverProvider c)) ->
   fst (AutoDiscoverProvider c) = operatorv1.ProviderNone)
  /\ (fst (AutoDiscoverProvider c) <> operatorv1.ProviderNone ->
      detected c (fst (AutoDiscoverProvider c)) /\ snd (AutoDiscoverProvider c) = None)
  /\ fst (AutoDiscoverProvider c) <> operatorv1.ProviderAKS.
Proof.
  assert (Hmain : (is_Some (snd (AutoDiscoverProvider c)) ->
                   fst (AutoDiscoverProvider c) = operatorv1.ProviderNone)
                  /\ (fst (AutoDiscoverProvider c) <> operatorv1.ProviderNone ->
                      detected c (fst (AutoDiscoverProvider c))
                      /\ snd (AutoDiscoverProvider c) = None)).
  { unfold AutoDiscoverProvider, autodetectFromGroup.
    destruct (ServerGroups c) as [groups | err] eqn:Hgroups;
      [|cbn; split; [reflexivity | congruence]].
    destruct (isDockerEE c) as [dockeree | err] eqn:Hdocker;
      [|cbn; split; [reflexivity | congruence]].
    destruct (isEKS c) as [eks | err] eqn:Heks; [|cbn; split; [reflexivity | congruence]].
    destruct (isRKE2 c) as [rke2 | err] eqn:Hrke2; [|cbn; split; [reflexivity | congruence]].
    cbn [app].
    set (l := (if rke2 then _ else _)).
    assert (Hl : forall p, p ∈ l -> detected c p).
    { intros p. subst l.
      assert (Hg : p ∈ providersOfGroups groups -> detected c p).
      { intros Hp. apply discovery_facts.providersOfGroups_elem in Hp as [[-> Hin] | [-> Hin]];
          cbn; eauto. }
      assert (Hd : dockeree = true -> detected c operatorv1.ProviderDockerEE).
      { intros ->. unfold isDockerEE in Hdocker.
        destruct (MasterNodes c) as [items | e] eqn:Hitems; [|discriminate].
        injection Hdocker as Hex. apply existsb_exists in Hex as (labels & Hin & Hlab).
        unfold hasDockerLabel in Hlab. apply existsb_exists in Hlab as ([k v] & Hkv & Hpre).
        cbn. exists items, labels, k, v. split; [exact Hitems|].
        split; [apply list_elem_of_In; exact Hin|].
        split; [|exact Hpre].
        apply elem_of_map_to_list. apply list_elem_of_In. exact Hkv. }
      assert (Hcm : forall name b, configMapPresent c name = inl b -> b = true ->
                    configMapExists c name).
      { intros name b Hb ->. unfold configMapPresent in Hb.
        destruct (GetKubeSystemConfigMap c name) as [cm | e] eqn:Hcm.
        - injection Hb as Hb. apply bool_decide_eq_true in Hb as [m ->]. exists m. exact Hcm.
        - destruct (api.IsNotFound e); discriminate. }
      assert (He : eks = true -> detected c operatorv1.ProviderEKS).
      { intros H. exact (Hcm _ _ Heks H). }
      assert (Hr : rke2 = true -> detected c operatorv1.ProviderRKE2).
      { intros H. exact (Hcm _ _ Hrke2 H). }
      destruct dockeree, eks, rke2; rewrite ?elem_of_app, ?list_elem_of_singleton;
        intuition (subst; eauto). }
    clearbody l.
    destruct l as [|a [|b l]]; cbn.
    - split; [reflexivity | congruence].
    - split; [intros [? ?]; discriminate|]. intros _. split; [|reflexivity].
      apply Hl. left.
    - split; [reflexivity | congruence]. }
  destruct Hmain as [Herr Hdet]. split; [exact Herr|]. split; [exact Hdet|].
  intros Haks. destruct Hdet as [Hd _]; [congruence|]. rewrite Haks in Hd. exact Hd.
Qed.

End provider_facts.

Module rendering_facts.
Import fluentd fluentd_pod logcollector props.

(** X29. What the controller applies, the renderer can render: for every
    fluentd component that [Reconcile] applies, [envvars] returns (it does
    not panic), and every secret key its environment refers to is in a
    secret that the component itself creates in the fluentd namespace. *)
Theorem Reconcile_applies_renderable (x : Externals) (w : World) (c : fluentdComponent) :
  Applied (FluentdComponent c) ∈ fst (Reconcile w) ->
  exists envs,
    envvars x c = Some envs
    /\ forall e name key,
         e ∈ envs -> secretKeyRef e = Some (name, key) -> rendersSecret c name key.
Proof.
  intros Hin. apply pod_facts.secrets_rendered.
  exact (proj1 (run_facts.applied_sound w c Hin)).
Qed.

Lemma Reconcile_applies_renderable_witness :
  exists c envs,
    Applied (FluentdComponent c) ∈ fst (Reconcile samples.readyWorld)
    /\ envvars fixtures.sampleExternals c = Some envs.
Proof.
  destruct (fst (Reconcile samples.readyWorld) !! 3%nat)
    as [[| | | | | | | [c | ? ?] |]|] eqn:H;
    try (vm_compute in H; discriminate H).
  pose proof (proj2 (list_elem_of_lookup _ _) (ex_intro _ 3%nat H)) as Hin.
  destruct (Reconcile_applies_renderable fixtures.sampleExternals samples.readyWorld c Hin)
    as (envs & Henvs & _).
  exists c, envs. split; [exact Hin | exact Henvs].
Defined.

End rendering_facts.
